(** * Dispatch report ingestion: a shallow embedding of the pipeline

    The development follows the Python sources of the repository:

    - [src/utils/date_parser.py]   : [parse_date], [parse_datetime]
    - [src/schemas/models.py]      : [FileType], [ProcessingStatus],
                                     [DispatchDataCreate], [FileProcessingSummary]
    - [src/database/connection.py] : the [dispatch_data] table
    - [src/processors/base.py]     : [row_exists], [_insert_data], [process_file]
    - [src/processors/assy.py], [fabcut.py], [lp.py] : the three layouts

    Python strings are modelled as [string] (characters are code points below
    256), a CSV file as the list of rows [csv.reader] yields, each row a list
    of cells.  A Python call that may raise returns a [result]; the record
    store is a list of stored rows and is threaded explicitly. *)

From Stdlib Require Import ZArith List String Ascii Bool Lia PeanoNat.
From Stdlib Require Import Floats.SpecFloat.
Import ListNotations.

Local Open Scope string_scope.
Local Open Scope list_scope.

(* ===================================================================== *)
(** * Python runtime: strings *)
(* ===================================================================== *)

Module Py.

(** [str.isspace] on one character (code points below 256). *)
Definition is_space (c : ascii) : bool :=
  let n := nat_of_ascii c in
  ((9 <=? n) && (n <=? 13) || (28 <=? n) && (n <=? 32)
   || (n =? 133) || (n =? 160))%nat.

Definition is_digit (c : ascii) : bool :=
  let n := nat_of_ascii c in ((48 <=? n) && (n <=? 57))%nat.

Definition digit_val (c : ascii) : Z := (Z.of_nat (nat_of_ascii c) - 48)%Z.

Definition chars (s : string) : list ascii := list_ascii_of_string s.
Definition str (l : list ascii) : string := string_of_list_ascii l.

Fixpoint lstrip_chars (l : list ascii) : list ascii :=
  match l with
  | c :: r => if is_space c then lstrip_chars r else l
  | [] => []
  end.

(** [s.strip()] *)
Definition strip (s : string) : string :=
  str (rev (lstrip_chars (rev (lstrip_chars (chars s))))).

(** Truthiness of a [str]: [bool(s)]. *)
Definition truthy (s : string) : bool :=
  match s with EmptyString => false | _ => true end.

(** [s.startswith(c)] and [s.endswith(c)] for a one-character argument. *)
Definition startswith (s : string) (c : ascii) : bool :=
  match chars s with x :: _ => Ascii.eqb x c | [] => false end.

Definition endswith (s : string) (c : ascii) : bool :=
  match rev (chars s) with x :: _ => Ascii.eqb x c | [] => false end.

(** [s[1:-1]] *)
Definition slice_1_m1 (s : string) : string :=
  str (removelast (tl (chars s))).

(** [a > b] on [str]: lexicographic order on code points. *)
Definition str_gt (a b : string) : bool :=
  match String.compare a b with Gt => true | _ => false end.

(** ASCII lower-casing of one character, as [re.IGNORECASE] compares. *)
Definition lower (c : ascii) : ascii :=
  let n := nat_of_ascii c in
  if ((65 <=? n) && (n <=? 90))%nat then ascii_of_nat (n + 32) else c.

Definition eq_ci (a b : ascii) : bool := Ascii.eqb (lower a) (lower b).

(** [int(s)] on text a directive's pattern has matched: decimal digits,
    other characters (the blank of [" 5"]) ignored. *)
Definition int_of (l : list ascii) : Z :=
  fold_left (fun acc c => if is_digit c then (10 * acc + digit_val c)%Z else acc)
            l 0%Z.

(* --------------------------------------------------------------------- *)
(** ** Regular expressions, as [re] matches them: ordered alternatives with
    backtracking, greedy bounded repetition, named groups.  A match is the
    list of all ways to match a prefix, best first. *)

Inductive regex : Type :=
| REps
| RChar (p : ascii -> bool)
| RSeq (a b : regex)
| RAlt (a b : regex)
| RRep (a : regex) (lo : nat) (hi : option nat)
| RGroup (name : string) (a : regex).

Definition captures := list (string * list ascii).
Definition matches := list (captures * list ascii).

Definition seq_matches (ms : matches) (k : list ascii -> matches) : matches :=
  flat_map (fun m => map (fun m' => (fst m ++ fst m', snd m')) (k (snd m))) ms.

Fixpoint rep_matches (m : list ascii -> matches) (lo hi : nat) (s : list ascii)
  : matches :=
  match hi with
  | O => match lo with O => [([], s)] | _ => [] end
  | S hi' =>
      seq_matches (m s) (rep_matches m (pred lo) hi')
      ++ match lo with O => [([], s)] | _ => [] end
  end.

Fixpoint rmatch (r : regex) (s : list ascii) : matches :=
  match r with
  | REps => [([], s)]
  | RChar p =>
      match s with
      | c :: s' => if p c then [([], s')] else []
      | [] => []
      end
  | RSeq a b => seq_matches (rmatch a s) (rmatch b)
  | RAlt a b => rmatch a s ++ rmatch b s
  | RRep a lo hi =>
      rep_matches (rmatch a) lo
        (match hi with Some h => h | None => List.length s end) s
  | RGroup g a =>
      map (fun m => ((g, firstn (List.length s - List.length (snd m)) s) :: fst m, snd m))
          (rmatch a s)
  end.

(** [re.match]: the first way to match at the start, if any. *)
Definition re_match (r : regex) (s : list ascii) : option (captures * list ascii) :=
  match rmatch r s with m :: _ => Some m | [] => None end.

(** [re.search]: the first start position with a match. *)
Fixpoint re_search (r : regex) (s : list ascii) : option captures :=
  match re_match r s with
  | Some m => Some (fst m)
  | None => match s with _ :: s' => re_search r s' | [] => None end
  end.

Fixpoint group (g : string) (c : captures) : option (list ascii) :=
  match c with
  | (g', t) :: c' => if String.eqb g g' then Some t else group g c'
  | [] => None
  end.

(** Pattern builders. *)
Definition rlit (c : ascii) : regex := RChar (Ascii.eqb c).
Definition rlit_ci (c : ascii) : regex := RChar (eq_ci c).
Definition rdigit : regex := RChar is_digit.
Definition rrange (a b : ascii) : regex :=
  RChar (fun c => (nat_of_ascii a <=? nat_of_ascii c)%nat
                  && (nat_of_ascii c <=? nat_of_ascii b)%nat).
Definition rstr (f : ascii -> regex) (s : string) : regex :=
  fold_right (fun c r => RSeq (f c) r) REps (chars s).
Definition ralts (rs : list regex) : regex :=
  match rs with
  | [] => RRep REps 1 (Some 0)
  | r :: rs' => fold_left RAlt rs' r
  end.

(* --------------------------------------------------------------------- *)
(** ** [datetime]: [strptime] and [strftime]

    [strptime] follows CPython's [_strptime]: the format is turned into a
    regular expression (one named group per directive, literals compared
    without case, a run of blanks as [\s+]), matched at the start of the
    data, which it must consume whole; the groups give the fields and the
    [datetime] constructor checks them.  [None] stands for [ValueError]. *)

Record datetime : Type := mkDatetime {
  year : Z; month : Z; day : Z;
  hour : Z; minute : Z; second : Z; microsecond : Z
}.

Definition month_abbr : list string :=
  ["jan"; "feb"; "mar"; "apr"; "may"; "jun";
   "jul"; "aug"; "sep"; "oct"; "nov"; "dec"].

Definition directive (d : ascii) : option regex :=
  let g := String d EmptyString in
  let r19 := rrange "1" "9" in
  if Ascii.eqb d "d" then
    Some (RGroup g (ralts [RSeq (rlit "3") (rrange "0" "1");
                           RSeq (rrange "1" "2") rdigit;
                           RSeq (rlit "0") r19; r19; RSeq (rlit " ") r19]))
  else if Ascii.eqb d "f" then Some (RGroup g (RRep rdigit 1 (Some 6)))
  else if Ascii.eqb d "H" then
    Some (RGroup g (ralts [RSeq (rlit "2") (rrange "0" "3");
                           RSeq (rrange "0" "1") rdigit; rdigit]))
  else if Ascii.eqb d "I" || Ascii.eqb d "m" then
    Some (RGroup g (ralts [RSeq (rlit "1") (rrange "0" "2");
                           RSeq (rlit "0") r19; r19]))
  else if Ascii.eqb d "M" then
    Some (RGroup g (ralts [RSeq (rrange "0" "5") rdigit; rdigit]))
  else if Ascii.eqb d "S" then
    Some (RGroup g (ralts [RSeq (rlit "6") (rrange "0" "1");
                           RSeq (rrange "0" "5") rdigit; rdigit]))
  else if Ascii.eqb d "y" then Some (RGroup g (RSeq rdigit rdigit))
  else if Ascii.eqb d "Y" then
    Some (RGroup g (RSeq rdigit (RSeq rdigit (RSeq rdigit rdigit))))
  else if Ascii.eqb d "b" then
    Some (RGroup g (ralts (map (rstr rlit_ci) month_abbr)))
  else if Ascii.eqb d "p" then
    Some (RGroup g (ralts [rstr rlit_ci "am"; rstr rlit_ci "pm"]))
  else None.

(** [in_ws]: the previous format character was a blank (the run is one [\s+]). *)
Fixpoint format_regex (in_ws : bool) (f : list ascii) : option regex :=
  match f with
  | [] => Some REps
  | c :: f' =>
      if Ascii.eqb c "%" then
        match f' with
        | d :: f'' =>
            match directive d, format_regex false f'' with
            | Some r, Some k => Some (RSeq r k)
            | _, _ => None
            end
        | [] => None
        end
      else if is_space c then
        match format_regex true f' with
        | Some k => Some (if in_ws then k
                          else RSeq (RRep (RChar is_space) 1 None) k)
        | None => None
        end
      else
        match format_regex false f' with
        | Some k => Some (RSeq (rlit_ci c) k)
        | None => None
        end
  end.

Fixpoint index_ci (t : list ascii) (names : list string) (i : Z) : option Z :=
  match names with
  | n :: ns =>
      if (List.length t =? List.length (chars n))%nat
         && forallb (fun p => eq_ci (fst p) (snd p)) (combine t (chars n))
      then Some i else index_ci t ns (i + 1)%Z
  | [] => None
  end.

Definition is_leap (y : Z) : bool :=
  ((y mod 4 =? 0) && (negb (y mod 100 =? 0) || (y mod 400 =? 0)))%Z.

Definition days_in_month (y m : Z) : Z :=
  (if m =? 2 then (if is_leap y then 29 else 28)
   else if (m =? 4) || (m =? 6) || (m =? 9) || (m =? 11) then 30 else 31)%Z.

(** The checks of [datetime(year, month, day, hour, minute, second, us)]. *)
Definition valid_datetime (dt : datetime) : bool :=
  ((1 <=? year dt) && (year dt <=? 9999)
   && (1 <=? month dt) && (month dt <=? 12)
   && (1 <=? day dt) && (day dt <=? days_in_month (year dt) (month dt))
   && (0 <=? hour dt) && (hour dt <=? 23)
   && (0 <=? minute dt) && (minute dt <=? 59)
   && (0 <=? second dt) && (second dt <=? 59)
   && (0 <=? microsecond dt) && (microsecond dt <=? 999999))%Z.

Definition field_or (c : captures) (g : string) (dflt : Z) : Z :=
  match group g c with Some t => int_of t | None => dflt end.

Definition fields (c : captures) : datetime :=
  let y :=
    match group "y" c with
    | Some t => let v := int_of t in (if v <=? 68 then 2000 + v else 1900 + v)%Z
    | None => field_or c "Y" 1900
    end in
  let m :=
    match group "b" c with
    | Some t => match index_ci t month_abbr 1 with Some i => i | None => 0%Z end
    | None => field_or c "m" 1
    end in
  let h :=
    match group "I" c with
    | Some t =>
        let v := int_of t in
        match group "p" c with
        | Some p =>
            if forallb (fun q => eq_ci (fst q) (snd q)) (combine p (chars "pm"))
            then (if v =? 12 then v else v + 12)%Z
            else (if v =? 12 then 0 else v)%Z
        | None => (if v =? 12 then 0 else v)%Z
        end
    | None => field_or c "H" 0
    end in
  let us :=
    match group "f" c with
    | Some t => int_of (firstn 6 (t ++ chars "000000"))
    | None => 0%Z
    end in
  mkDatetime y m (field_or c "d" 1) h (field_or c "M" 0) (field_or c "S" 0) us.

(** [datetime.strptime(data, fmt)] *)
Definition strptime (data fmt : string) : option datetime :=
  match format_regex false (chars fmt) with
  | Some r =>
      match re_match r (chars data) with
      | Some (c, []) =>
          let dt := fields c in
          if valid_datetime dt then Some dt else None
      | _ => None
      end
  | None => None
  end.

(** [n] as [w] decimal digits, zero-padded. *)
Fixpoint zpad (w : nat) (n : Z) : list ascii :=
  match w with
  | O => []
  | S w' => zpad w' (n / 10) ++ [ascii_of_nat (48 + Z.to_nat (n mod 10))]
  end.

(** [n] in decimal without padding, for [0 <= n <= 9999] (the year of a
    [datetime] is between 1 and 9999). *)
Definition decimal (n : Z) : list ascii :=
  zpad (if (n <? 10)%Z then 1 else if (n <? 100)%Z then 2
        else if (n <? 1000)%Z then 3 else 4)%nat n.

(** What a directive writes.  [%Y] is the C library's: the year in decimal,
    not padded to four digits (year 999 is written [999]); the two-digit
    fields are zero-padded. *)
Definition strftime_field (dt : datetime) (d : ascii) : list ascii :=
  if Ascii.eqb d "Y" then decimal (year dt)
  else if Ascii.eqb d "m" then zpad 2 (month dt)
  else if Ascii.eqb d "d" then zpad 2 (day dt)
  else if Ascii.eqb d "H" then zpad 2 (hour dt)
  else if Ascii.eqb d "M" then zpad 2 (minute dt)
  else if Ascii.eqb d "S" then zpad 2 (second dt)
  else ["%"%char; d].

Fixpoint strftime_chars (dt : datetime) (f : list ascii) : list ascii :=
  match f with
  | [] => []
  | c :: f' =>
      if Ascii.eqb c "%" then
        match f' with
        | d :: f'' => strftime_field dt d ++ strftime_chars dt f''
        | [] => [c]
        end
      else c :: strftime_chars dt f'
  end.

(** [dt.strftime(fmt)] *)
Definition strftime (dt : datetime) (fmt : string) : string :=
  str (strftime_chars dt (chars fmt)).

(* --------------------------------------------------------------------- *)
(** ** [float]: IEEE binary64 values and the constructor [float(str)] *)

Definition float : Type := spec_float.

Definition prec : Z := 53.
Definition emax : Z := 1024.

(** [-x], [x < 0] and [x == y] on floats. *)
Definition float_neg (x : float) : float := SFopp x.
Definition float_lt0 (x : float) : bool := SFltb x (S754_zero false).
Definition float_eqb (x y : float) : bool := SFeqb x y.
Definition is_nan (x : float) : bool :=
  match x with S754_nan => true | _ => false end.

(** The binary64 nearest to [(-1)^neg * m * 10^e10] (ties to even); a
    quotient is carried with its remainder's position to the rounding. *)
Definition float_of_decimal (neg : bool) (m e10 : Z) : float :=
  (if m <=? 0 then S754_zero neg
   else if 0 <=? e10 then binary_round prec emax neg (Z.to_pos (m * 10 ^ e10)) 0
   else
     let d := 10 ^ (- e10) in
     let k := Z.max 0 (57 + Zdigits2 d - Zdigits2 m) in
     let n := m * 2 ^ k in
     let q := n / d in
     let r := n mod d in
     let loc := if r =? 0 then loc_Exact else loc_Inexact (2 * r ?= d) in
     binary_round_aux prec emax neg q (- k) loc)%Z.

(** The grammar of [float(str)] (the language reference's [floatvalue]). *)
Definition digitpart : regex :=
  RSeq rdigit (RRep (RSeq (RRep (rlit "_") 0 (Some 1)) rdigit) 0 None).
Definition opt (r : regex) : regex := RRep r 0 (Some 1).
Definition sign (g : string) : regex := opt (RGroup g (RAlt (rlit "+") (rlit "-"))).
Definition floatnumber : regex :=
  RSeq (RAlt (RSeq (opt (RGroup "i" digitpart))
                   (RSeq (rlit ".") (RGroup "f" digitpart)))
             (RSeq (RGroup "i" digitpart) (opt (rlit "."))))
       (opt (RSeq (rlit_ci "e") (RSeq (sign "t") (RGroup "e" digitpart)))).
Definition floatvalue : regex :=
  RSeq (sign "s")
    (RAlt floatnumber
       (RAlt (RGroup "inf" (RAlt (rstr rlit_ci "infinity") (rstr rlit_ci "inf")))
             (RGroup "nan" (rstr rlit_ci "nan")))).

(** A match of the whole text. *)
Definition re_fullmatch (r : regex) (s : list ascii) : option captures :=
  match filter (fun m => match snd m with [] => true | _ => false end) (rmatch r s) with
  | m :: _ => Some (fst m)
  | [] => None
  end.

Definition is_minus (t : option (list ascii)) : bool :=
  match t with
  | Some (c :: _) => Ascii.eqb c "-"
  | _ => false
  end.

(** The blanks [float(str)] skips at both ends: the ASCII ones, and the
    two others below 256 that [str.isspace] holds for, which the constructor
    turns into a space first.  [U+001C] to [U+001F], which [str.strip]
    removes, are not among them. *)
Definition is_float_space (c : ascii) : bool :=
  let n := nat_of_ascii c in
  ((9 <=? n) && (n <=? 13) || (n =? 32) || (n =? 133) || (n =? 160))%nat.

Fixpoint lstrip_float (l : list ascii) : list ascii :=
  match l with
  | c :: r => if is_float_space c then lstrip_float r else l
  | [] => []
  end.

Definition float_strip (s : string) : list ascii :=
  rev (lstrip_float (rev (lstrip_float (chars s)))).

(** [float(s)] for a [str]; [None] stands for [ValueError]. *)
Definition float_of_str (s : string) : option float :=
  match re_fullmatch floatvalue (float_strip s) with
  | None => None
  | Some c =>
      let neg := is_minus (group "s" c) in
      match group "inf" c, group "nan" c with
      | Some _, _ => Some (S754_infinity neg)
      | None, Some _ => Some S754_nan
      | None, None =>
          let i := match group "i" c with Some t => t | None => [] end in
          let f := match group "f" c with Some t => t | None => [] end in
          let e := match group "e" c with Some t => int_of t | None => 0%Z end in
          let e := if is_minus (group "t" c) then (- e)%Z else e in
          Some (float_of_decimal neg (int_of (i ++ f))
                  (e - Z.of_nat (List.length (filter is_digit f))))
      end
  end.

(* --------------------------------------------------------------------- *)
(** ** [date], ISO text, and the coercion of text to [date] and [datetime]
    that a typed model field applies *)

Record date : Type := mkDate { dyear : Z; dmonth : Z; dday : Z }.

Definition valid_date (d : date) : bool :=
  ((1 <=? dyear d) && (dyear d <=? 9999)
   && (1 <=? dmonth d) && (dmonth d <=? 12)
   && (1 <=? dday d) && (dday d <=? days_in_month (dyear d) (dmonth d)))%Z.

(** [d.isoformat()] *)
Definition date_isoformat (d : date) : string :=
  str (zpad 4 (dyear d) ++ "-"%char :: zpad 2 (dmonth d)
       ++ "-"%char :: zpad 2 (dday d)).

(** [dt.isoformat(" ")] *)
Definition datetime_isoformat (dt : datetime) : string :=
  str (zpad 4 (year dt) ++ "-"%char :: zpad 2 (month dt)
       ++ "-"%char :: zpad 2 (day dt)
       ++ " "%char :: zpad 2 (hour dt) ++ ":"%char :: zpad 2 (minute dt)
       ++ ":"%char :: zpad 2 (second dt)
       ++ (if (microsecond dt =? 0)%Z then []
           else "."%char :: zpad 6 (microsecond dt))).

Definition digits (n : nat) : regex := RRep rdigit n (Some n).
Definition rcat (rs : list regex) : regex := fold_right RSeq REps rs.

Definition iso_date_regex : regex :=
  rcat [RGroup "Y" (digits 4); rlit "-"; RGroup "m" (digits 2); rlit "-";
        RGroup "d" (digits 2)].

Definition iso_datetime_regex : regex :=
  rcat [iso_date_regex; RAlt (rlit " ") (rlit_ci "T");
        RGroup "H" (digits 2); rlit ":"; RGroup "M" (digits 2); rlit ":";
        RGroup "S" (digits 2)].

(** Text given to a [date] field: the form [YYYY-MM-DD] of a real date.
    (The texts that reach such a field in this program are results of
    [parse_date]: they have this form when the year has four digits, and
    otherwise, as [999-01-01], are not read.) *)
Definition date_of_text (s : string) : option date :=
  match re_fullmatch iso_date_regex (chars s) with
  | Some c =>
      let d := mkDate (field_or c "Y" 0) (field_or c "m" 0) (field_or c "d" 0) in
      if valid_date d then Some d else None
  | None => None
  end.

(** Text given to a [datetime] field: [YYYY-MM-DD HH:MM:SS] (or with [T]). *)
Definition datetime_of_text (s : string) : option datetime :=
  match re_fullmatch iso_datetime_regex (chars s) with
  | Some c =>
      let dt := mkDatetime (field_or c "Y" 0) (field_or c "m" 0) (field_or c "d" 0)
                  (field_or c "H" 0) (field_or c "M" 0) (field_or c "S" 0) 0 in
      if valid_datetime dt then Some dt else None
  | None => None
  end.

(* --------------------------------------------------------------------- *)
(** ** Values a caller may pass where a [str] is expected *)

Inductive value : Type :=
| VNone
| VBool (b : bool)
| VInt (z : Z)
| VFloat (x : float)
| VStr (s : string)
| VDate (d : date)
| VDatetime (dt : datetime).

(** [bool(v)] *)
Definition is_true (v : value) : bool :=
  match v with
  | VNone => false
  | VBool b => b
  | VInt z => negb (z =? 0)%Z
  | VFloat (S754_zero _) => false
  | VFloat _ => true
  | VStr s => truthy s
  | VDate _ | VDatetime _ => true
  end.

(** [isinstance(v, str)] *)
Definition is_str (v : value) : bool :=
  match v with VStr _ => true | _ => false end.

End Py.

Import Py.

(* ===================================================================== *)
(** * Exceptions *)
(* ===================================================================== *)

Inductive exn : Type :=
| StopIteration
| IndexError
| ValueError (msg : string)
| ValidationError
| IntegrityError.

Inductive result (A : Type) : Type :=
| Ok (a : A)
| Raise (e : exn).

Arguments Ok {A} a.
Arguments Raise {A} e.

Definition bind {A B : Type} (r : result A) (k : A -> result B) : result B :=
  match r with
  | Ok a => k a
  | Raise e => Raise e
  end.

Notation "x <- r ;; k" := (bind r (fun x => k))
  (at level 61, r at next level, right associativity).

Definition raised {A : Type} (r : result A) : bool :=
  match r with Raise _ => true | Ok _ => false end.

(** A CSV row and [row[i]]. *)
Definition row : Type := list string.

Definition index (r : row) (i : nat) : result string :=
  match nth_error r i with
  | Some c => Ok c
  | None => Raise IndexError
  end.

(** [row[a:b]] *)
Definition slice (r : row) (a b : nat) : row := firstn (b - a) (skipn a r).

(** [next(reader)] on the rows still to be read. *)
Definition next (reader : list row) : result (row * list row) :=
  match reader with
  | r :: rest => Ok (r, rest)
  | [] => Raise StopIteration
  end.

(* ===================================================================== *)
(** * [src/utils/date_parser.py] *)
(* ===================================================================== *)

Definition date_formats : list string :=
  [ "%d-%b-%y";    (* For "30-Sep-24" *)
    "%d-%b-%Y";    (* For "27-Sep-2024" *)
    "%m/%d/%Y";    (* For "9/27/2024" *)
    "%d-%b-%y";    (* For "11-Oct-24" *)
    "%d/%b/%y" ].  (* For "11/Sep/24" *)

(** The loop over the formats: the first one [strptime] accepts decides. *)
Fixpoint try_formats (date_str : string) (formats : list string) : option string :=
  match formats with
  | date_format :: rest =>
      match strptime date_str date_format with
      | Some dt => Some (strftime dt "%Y-%m-%d")
      | None => try_formats date_str rest
      end
  | [] => None
  end.

Definition parse_date (date_str : value) : option string :=
  if negb (is_true date_str) || negb (is_str date_str) then None
  else
    match date_str with
    | VStr s =>
        let s := strip s in
        if negb (truthy s) then None else try_formats s date_formats
    | _ => None
    end.

(** [Printed on (\d{1,2}/\d{1,2}/\d{4}) / *(\d{1,2}:\d{2}:\d{2})(AM|PM)] *)
Definition printed_on_pattern : regex :=
  let d12 := RRep rdigit 1 (Some 2) in
  rcat [ rstr rlit "Printed on ";
         RGroup "1" (rcat [d12; rlit "/"; d12; rlit "/"; digits 4]);
         rstr rlit " /"; RRep (rlit " ") 0 None;
         RGroup "2" (rcat [d12; rlit ":"; digits 2; rlit ":"; digits 2]);
         RGroup "3" (RAlt (rstr rlit "AM") (rstr rlit "PM")) ].

Definition reformat (s fmt : string) : option string :=
  match strptime s fmt with
  | Some dt => Some (strftime dt "%Y-%m-%d %H:%M:%S")
  | None => None
  end.

Definition or_else {A : Type} (a b : option A) : option A :=
  match a with Some _ => a | None => b end.

Definition parse_datetime (datetime_str : value) : option string :=
  if negb (is_true datetime_str) || negb (is_str datetime_str) then None
  else
    match datetime_str with
    | VStr s =>
        let s := strip s in
        if negb (truthy s) then None
        else
          let printed :=
            match re_search printed_on_pattern (chars s) with
            | Some c =>
                match group "1" c, group "2" c, group "3" c with
                | Some date_str, Some time_str, Some ampm =>
                    reformat (str (date_str ++ " "%char :: time_str
                                   ++ " "%char :: ampm))
                             "%m/%d/%Y %I:%M:%S %p"
                | _, _, _ => None
                end
            | None => None
            end in
          or_else printed
            (or_else (reformat s "%Y-%m-%d %H:%M:%S")
                     (reformat s "%Y-%m-%dT%H:%M:%S.%f"))
    | _ => None
    end.

(* ===================================================================== *)
(** * [src/schemas/models.py] *)
(* ===================================================================== *)

Inductive FileType : Type := ASSY | FABCUT | LP | SEWDC | SEWFB.

Module FileType.

(** The member's [value]; a member is a [str] with this text. *)
Definition value (self : FileType) : string :=
  match self with
  | ASSY => "Assy"
  | FABCUT => "Fabcut"
  | LP => "LP"
  | SEWDC => "SEW-DC"
  | SEWFB => "SEW-FB"
  end.

Definition eqb (a b : FileType) : bool :=
  match a, b with
  | ASSY, ASSY | FABCUT, FABCUT | LP, LP | SEWDC, SEWDC | SEWFB, SEWFB => true
  | _, _ => false
  end.

Definition db_value (self : FileType) : string :=
  if eqb self SEWDC then "DC-Sew" else value self.

Definition members : list FileType := [ASSY; FABCUT; LP; SEWDC; SEWFB].

(** [FileType(v)]: the member whose value is [v]; a field annotated
    [FileType] accepts a text only through this lookup. *)
Definition of_value (v : string) : option FileType :=
  find (fun m => String.eqb (value m) v) members.

End FileType.

Inductive ProcessingStatus : Type := SUCCESS | ERROR | DUPLICATE | SKIPPED.

Module ProcessingStatus.

Definition value (self : ProcessingStatus) : string :=
  match self with
  | SUCCESS => "success"
  | ERROR => "error"
  | DUPLICATE => "duplicate"
  | SKIPPED => "skipped"
  end.

End ProcessingStatus.

(** [DispatchDataBase.validate_numeric_fields], the validator of
    [job_qty], [bal_qty], [m_pc] and [prod_hr]. *)
Definition validate_numeric_fields (v : option float) : result (option float) :=
  match v with
  | Some x =>
      if float_lt0 x then Raise (ValueError "Numeric values cannot be negative")
      else Ok v
  | None => Ok v
  end.

(** [DispatchDataCreate]: the fields of [DispatchDataBase] in their order,
    then the three the subclass adds, in theirs. *)
Module DispatchDataCreate.

Record t : Type := mk {
  file_type : FileType;
  work_cell : string;
  job_number : string;
  part_number : string;
  comments : option string;
  job_qty : float;
  bal_qty : float;
  code : string;
  prod_date : date;
  est_compl_date : option date;
  and_on : option string;
  m_pc : option float;
  prod_hr : option float;
  report_start_date : date;
  report_end_date : date;
  report_department : string;
  report_creation_datetime : datetime;
  file_name : string;
  processing_status : ProcessingStatus;
  upload_date : datetime
}.

(** A field that has no default and is not [Optional]. *)
Definition required {A : Type} (v : option A) : result A :=
  match v with Some a => Ok a | None => Raise ValidationError end.

Definition coerce {A B : Type} (f : A -> option B) (v : A) : result B :=
  required (f v).

Definition optional {A B : Type} (f : A -> option B) (v : option A)
  : result (option B) :=
  match v with
  | Some a => b <- coerce f a ;; Ok (Some b)
  | None => Ok None
  end.

(** A required numeric field: a float, then the validator. *)
Definition numeric (v : option float) : result float :=
  x <- required v ;;
  _ <- validate_numeric_fields (Some x) ;;
  Ok x.

(** Any failure of a field is reported as the model's [ValidationError]. *)
Definition validation {A : Type} (r : result A) : result A :=
  match r with
  | Ok a => Ok a
  | Raise _ => Raise ValidationError
  end.

(** [DispatchDataCreate(file_type=..., ..., processing_status=...)], the
    keyword arguments as the processors give them; [upload_date] is not
    given and takes its default, the clock's [now]. *)
Definition new
    (file_type : string) (work_cell job_number part_number : string)
    (comments : option string) (job_qty bal_qty : option float)
    (code : string) (prod_date : string) (est_compl_date : option string)
    (and_on : option string) (m_pc prod_hr : option float)
    (report_start_date report_end_date report_department : string)
    (report_creation_datetime : option string) (file_name : string)
    (processing_status : ProcessingStatus) (now : datetime) : result t :=
  validation (
    ft <- coerce FileType.of_value file_type ;;
    jq <- numeric job_qty ;;
    bq <- numeric bal_qty ;;
    pd <- coerce date_of_text prod_date ;;
    ecd <- optional date_of_text est_compl_date ;;
    mp <- validate_numeric_fields m_pc ;;
    ph <- validate_numeric_fields prod_hr ;;
    rsd <- coerce date_of_text report_start_date ;;
    red <- coerce date_of_text report_end_date ;;
    rcd <- required report_creation_datetime ;;
    rcd <- coerce datetime_of_text rcd ;;
    Ok (mk ft work_cell job_number part_number comments jq bq code pd ecd
           and_on mp ph rsd red report_department rcd file_name
           processing_status now)).

Definition opt {A : Type} (f : A -> value) (v : option A) : value :=
  match v with Some a => f a | None => VNone end.

(** [data.model_dump()]: the fields in definition order. *)
Definition model_dump (data : t) : list (string * value) :=
  [ ("file_type", VStr (FileType.value (file_type data)));
    ("work_cell", VStr (work_cell data));
    ("job_number", VStr (job_number data));
    ("part_number", VStr (part_number data));
    ("comments", opt VStr (comments data));
    ("job_qty", VFloat (job_qty data));
    ("bal_qty", VFloat (bal_qty data));
    ("code", VStr (code data));
    ("prod_date", VDate (prod_date data));
    ("est_compl_date", opt VDate (est_compl_date data));
    ("and_on", opt VStr (and_on data));
    ("m_pc", opt VFloat (m_pc data));
    ("prod_hr", opt VFloat (prod_hr data));
    ("report_start_date", VDate (report_start_date data));
    ("report_end_date", VDate (report_end_date data));
    ("report_department", VStr (report_department data));
    ("report_creation_datetime", VDatetime (report_creation_datetime data));
    ("file_name", VStr (file_name data));
    ("processing_status", VStr (ProcessingStatus.value (processing_status data)));
    ("upload_date", VDatetime (upload_date data)) ].

End DispatchDataCreate.

Module FileProcessingSummary.

Record t : Type := mk {
  file_name : string;
  file_type : FileType;
  total_rows : Z;
  successful_rows : Z;
  duplicate_rows : Z;
  error_rows : Z;
  skipped_rows : Z;
  upload_date : datetime
}.

(** [FileProcessingSummary(file_name=..., file_type=..., upload_date=...)]:
    the five counters take their default, 0. *)
Definition new (file_name : string) (file_type : FileType) (upload_date : datetime)
  : t :=
  mk file_name file_type 0 0 0 0 0 upload_date.

End FileProcessingSummary.

(** A [dict] with [str] keys, in insertion order. *)
Definition dict : Type := list (string * value).

(** [d.values()] *)
Definition values (d : dict) : list value := map snd d.

(** [d[k]] for a key the dict holds ([None] stands in for a missing key,
    which [model_dump] never leaves: see [row_exists]). *)
Fixpoint getitem (d : dict) (k : string) : value :=
  match d with
  | (k', v) :: d' => if String.eqb k k' then v else getitem d' k
  | [] => VNone
  end.

(* ===================================================================== *)
(** * [src/database/connection.py]: the table [dispatch_data] *)
(* ===================================================================== *)

(** A value in the store.  A value is kept as it is bound: the type names
    of the columns do not re-type the texts and floats this program
    stores in its key columns.  (Outside the key columns, a text that reads
    as a number is stored as that number by a DATE or DATETIME column; of
    the texts bound here only a file name, as ["2024"], can be such a text,
    and it is kept here as the text.) *)
Inductive sqlval : Type :=
| SNull
| SInt (z : Z)
| SReal (x : float)
| SText (s : string).

(** How the driver binds a Python value: [None] and a NaN as NULL, a [date]
    or [datetime] through its ISO text, a [str] (a member of a [str] enum
    too) as its text. *)
Definition adapt (v : value) : sqlval :=
  match v with
  | VNone => SNull
  | VBool b => SInt (if b then 1 else 0)
  | VInt z => SInt z
  | VFloat x => if is_nan x then SNull else SReal x
  | VStr s => SText s
  | VDate d => SText (date_isoformat d)
  | VDatetime dt => SText (datetime_isoformat dt)
  end.

Definition is_null (v : sqlval) : bool :=
  match v with SNull => true | _ => false end.

(** [a = b] as a WHERE clause reads it: never true when a side is NULL. *)
Definition sql_eq (a b : sqlval) : bool :=
  match a, b with
  | SInt x, SInt y => (x =? y)%Z
  | SReal x, SReal y => float_eqb x y
  | SText x, SText y => String.eqb x y
  | _, _ => false
  end.

(** A stored row: its columns by name (the [id] column, which the
    table assigns, is the row's position in the store). *)
Definition stored_row : Type := list (string * sqlval).
Definition store : Type := list stored_row.

Fixpoint column (r : stored_row) (c : string) : sqlval :=
  match r with
  | (c', v) :: r' => if String.eqb c c' then v else column r' c
  | [] => SNull
  end.

(** The columns of [CREATE TABLE dispatch_data] after [id], each with
    whether it is declared NOT NULL. *)
Definition dispatch_data : list (string * bool) :=
  [ ("file_type", true); ("work_cell", true); ("job_number", true);
    ("part_number", true); ("comments", false); ("job_qty", true);
    ("bal_qty", true); ("code", true); ("prod_date", true);
    ("est_compl_date", false); ("and_on", false); ("m_pc", false);
    ("prod_hr", false); ("report_start_date", true);
    ("report_end_date", true); ("report_department", true);
    ("report_creation_datetime", true); ("upload_date", true);
    ("file_name", true); ("processing_status", true) ].

(** [INSERT INTO dispatch_data (columns) VALUES (?, ..., ?)] with the
    parameters bound by position. *)
Definition execute_insert (columns : list string) (params : list sqlval)
    (db : store) : result store :=
  if negb (List.length columns =? List.length params)%nat
  then Raise (ValueError "Incorrect number of bindings supplied")
  else
    let r := combine columns params in
    if forallb (fun c => negb (snd c) || negb (is_null (column r (fst c))))
               dispatch_data
    then Ok (db ++ [r])
    else Raise IntegrityError.

(** [SELECT COUNT( * ) FROM dispatch_data WHERE c1 = ? AND ... AND cn = ?] *)
Definition execute_count (columns : list string) (params : list sqlval)
    (db : store) : nat :=
  List.length
    (filter (fun r => forallb (fun cp => sql_eq (column r (fst cp)) (snd cp))
                              (combine columns params))
            db).

(* ===================================================================== *)
(** * [src/processors/base.py] *)
(* ===================================================================== *)

(** The abstract members of [FileProcessor].  [self.file_path.name] and the
    clock reading a new record takes as its [upload_date] are passed to
    [_map_row_to_data] explicitly. *)
Class FileProcessor : Type := {
  file_type : FileType;
  _extract_metadata : list row -> result ((string * string) * list row);
  _map_row_to_data :
    string -> datetime -> row -> string -> string -> string -> option string ->
    result (option DispatchDataCreate.t);
  _get_prod_date : row -> result (option string);
  _get_report_creation_datetime : row -> result (option string)
}.

(** The columns of the WHERE clause of [row_exists], and the keys of the
    tuple bound to its placeholders. *)
Definition row_exists_columns : list string :=
  [ "file_type"; "work_cell"; "job_number"; "part_number"; "job_qty";
    "bal_qty"; "code"; "prod_date"; "est_compl_date"; "and_on"; "m_pc";
    "prod_hr" ].

Definition row_exists_keys : list string :=
  [ "file_type"; "work_cell"; "job_number"; "part_number"; "job_qty";
    "bal_qty"; "code"; "prod_date"; "est_compl_date"; "and_on"; "m_pc";
    "prod_hr" ].

Definition row_exists (data : dict) (db : store) : bool :=
  (0 <? execute_count row_exists_columns
          (map (fun k => adapt (getitem data k)) row_exists_keys) db)%nat.

(** The column list of the INSERT statement of [_insert_data]. *)
Definition insert_columns : list string :=
  [ "file_type"; "work_cell"; "job_number"; "part_number"; "comments";
    "job_qty"; "bal_qty"; "code"; "prod_date"; "est_compl_date"; "and_on";
    "m_pc"; "prod_hr"; "report_start_date"; "report_end_date";
    "report_department"; "report_creation_datetime"; "upload_date";
    "file_name"; "processing_status" ].

(** [_insert_data]: on failure the transaction is rolled back and the
    exception raised again, the store as it was. *)
Definition _insert_data (data : DispatchDataCreate.t) (db : store) : result store :=
  execute_insert insert_columns
    (map adapt (values (DispatchDataCreate.model_dump data))) db.

(** The processor's mutable state: [self.summary] and the database. *)
Record state : Type := mkState {
  summary : FileProcessingSummary.t;
  db : store
}.

Module Summary := FileProcessingSummary.

Definition incr_total (s : Summary.t) : Summary.t :=
  Summary.mk (Summary.file_name s) (Summary.file_type s)
    (Summary.total_rows s + 1) (Summary.successful_rows s)
    (Summary.duplicate_rows s) (Summary.error_rows s) (Summary.skipped_rows s)
    (Summary.upload_date s).

Definition incr_successful (s : Summary.t) : Summary.t :=
  Summary.mk (Summary.file_name s) (Summary.file_type s)
    (Summary.total_rows s) (Summary.successful_rows s + 1)
    (Summary.duplicate_rows s) (Summary.error_rows s) (Summary.skipped_rows s)
    (Summary.upload_date s).

Definition incr_duplicate (s : Summary.t) : Summary.t :=
  Summary.mk (Summary.file_name s) (Summary.file_type s)
    (Summary.total_rows s) (Summary.successful_rows s)
    (Summary.duplicate_rows s + 1) (Summary.error_rows s) (Summary.skipped_rows s)
    (Summary.upload_date s).

Definition incr_error (s : Summary.t) : Summary.t :=
  Summary.mk (Summary.file_name s) (Summary.file_type s)
    (Summary.total_rows s) (Summary.successful_rows s)
    (Summary.duplicate_rows s) (Summary.error_rows s + 1) (Summary.skipped_rows s)
    (Summary.upload_date s).

Definition incr_skipped (s : Summary.t) : Summary.t :=
  Summary.mk (Summary.file_name s) (Summary.file_type s)
    (Summary.total_rows s) (Summary.successful_rows s)
    (Summary.duplicate_rows s) (Summary.error_rows s) (Summary.skipped_rows s + 1)
    (Summary.upload_date s).

(** [FileProcessor.__init__]: a fresh summary beside the connection. *)
Definition init {P : FileProcessor} (file_name : string) (now : datetime)
    (db_conn : store) : state :=
  mkState (Summary.new file_name file_type now) db_conn.

Section ProcessFile.

Context {P : FileProcessor}.

(** [self.file_path.name] *)
Variable file_name : string.

(** The system clock: [now n] is its reading while data row number [n]
    (counted from 1, as [enumerate] does) is processed. *)
Variable now : nat -> datetime.

(** The body of the first loop: the running maximum after one more row. *)
Definition max_step (max_prod_date : option string) (r : row) : option string :=
  match _get_prod_date r with
  | Ok (Some prod_date) =>
      if truthy prod_date
         && match max_prod_date with
            | None => true
            | Some m => str_gt prod_date m
            end
      then Some prod_date else max_prod_date
  | Ok None => max_prod_date
  | Raise _ => max_prod_date
  end.

Definition first_pass (rows : list row) : option string :=
  fold_left max_step rows None.

(** [max_prod_date or report_start_date] *)
Definition end_date (max_prod_date : option string) (report_start_date : string)
  : string :=
  match max_prod_date with
  | Some m => if truthy m then m else report_start_date
  | None => report_start_date
  end.

(** The body of the second loop, for the row numbered [row_num]. *)
Definition process_row (report_start_date report_end_date report_department : string)
    (row_num : nat) (r : row) (st : state) : state :=
  let s := incr_total (summary st) in
  let attempt : result state :=
    creation <- _get_report_creation_datetime r ;;
    data <- _map_row_to_data file_name (now row_num) r report_start_date
              report_end_date report_department creation ;;
    match data with
    | None => Ok (mkState (incr_skipped s) (db st))
    | Some data =>
        if row_exists (DispatchDataCreate.model_dump data) (db st)
        then Ok (mkState (incr_duplicate s) (db st))
        else
          db' <- _insert_data data (db st) ;;
          Ok (mkState (incr_successful s) db')
    end in
  match attempt with
  | Ok st' => st'
  | Raise _ => mkState (incr_error s) (db st)
  end.

Fixpoint process_rows (report_start_date report_end_date report_department : string)
    (row_num : nat) (rows : list row) (st : state) : state :=
  match rows with
  | [] => st
  | r :: rest =>
      process_rows report_start_date report_end_date report_department
        (S row_num) rest
        (process_row report_start_date report_end_date report_department
           row_num r st)
  end.

(** [next(reader); next(reader)] after [file.seek(0)] *)
Definition skip2 (file : list row) : result (list row) :=
  p <- next file ;;
  q <- next (snd p) ;;
  Ok (snd q).

(** [process_file], on a file that opens and decodes to the rows [file]:
    the value returned or the exception raised, and the state left. *)
Definition process_file (file : list row) (st : state)
  : result Summary.t * state :=
  let run : result state :=
    meta <- _extract_metadata file ;;
    let report_start_date := fst (fst meta) in
    let report_department := snd (fst meta) in
    rows <- skip2 file ;;
    let report_end_date := end_date (first_pass rows) report_start_date in
    rows <- skip2 file ;;
    Ok (process_rows report_start_date report_end_date report_department
          1 rows st) in
  match run with
  | Ok st' => (Ok (summary st'), st')
  | Raise e => (Raise e, st)
  end.

End ProcessFile.

(* ===================================================================== *)
(** * [src/processors/assy.py], [fabcut.py], [lp.py] *)
(* ===================================================================== *)

(** [_extract_metadata]: the three classes define it with the same text. *)
Definition extract_metadata (reader : list row)
  : result ((string * string) * list row) :=
  let attempt :=
    p <- next reader ;;
    c <- index (fst p) 1 ;;
    match parse_date (VStr c) with
    | None => Raise (ValueError "Invalid report start date")
    | Some report_start_date =>
        if negb (truthy report_start_date)
        then Raise (ValueError "Invalid report start date")
        else
          q <- next (snd p) ;;
          report_department <- index (fst q) 2 ;;
          if negb (truthy report_department)
          then Raise (ValueError "Missing department information")
          else Ok ((report_start_date, report_department), snd q)
    end in
  match attempt with
  | Raise StopIteration | Raise IndexError =>
      Raise (ValueError "Failed to extract metadata")
  | r => r
  end.

(** [_convert_to_float]: likewise one text in the three classes. *)
Definition _convert_to_float (v : value) : option float :=
  if negb (is_true v) || negb (is_str v) then None
  else
    match v with
    | VStr s =>
        let s := strip s in
        if negb (truthy s) then None
        else
          match float_of_str s with
          | Some x => Some x
          | None =>
              if startswith s "(" && endswith s ")"
              then
                match float_of_str (slice_1_m1 s) with
                | Some x => Some (float_neg x)
                | None => None
                end
              else None
          end
    | _ => None
    end.

(** [try: return f(row[i]) except IndexError: return None] *)
Definition cell_or_none (f : value -> option string) (r : row) (i : nat)
  : result (option string) :=
  match index r i with
  | Ok c => Ok (f (VStr c))
  | Raise IndexError => Ok None
  | Raise e => Raise e
  end.

(** [all(not cell.strip() for cell in cells)] *)
Definition all_blank (cells : row) : bool :=
  forallb (fun cell => negb (truthy (strip cell))) cells.

(** [except Exception as e: raise ValueError(...)] around the mapping. *)
Definition mapping {A : Type} (r : result A) : result A :=
  match r with
  | Ok a => Ok a
  | Raise _ => Raise (ValueError "Error mapping row data")
  end.

(** [f(row[i]) if row[i] else None] *)
Definition if_cell {A : Type} (f : value -> option A) (r : row) (i : nat)
  : result (option A) :=
  c <- index r i ;;
  if truthy c then (c' <- index r i ;; Ok (f (VStr c'))) else Ok None.

Module AssyFileProcessor.

Definition file_type : FileType := ASSY.

Definition _get_prod_date (r : row) : result (option string) :=
  cell_or_none parse_date r 25.

Definition _get_report_creation_datetime (r : row) : result (option string) :=
  cell_or_none parse_datetime r 30.

Definition _map_row_to_data (file_name : string) (now : datetime) (r : row)
    (report_start_date report_end_date report_department : string)
    (report_creation_datetime : option string)
  : result (option DispatchDataCreate.t) :=
  if all_blank (slice r 20 30) then Ok None
  else mapping (
    c <- index r 25 ;;
    match parse_date (VStr c) with
    | None => Ok None
    | Some prod_date =>
        if negb (truthy prod_date) then Ok None
        else
          est_compl_date <- if_cell parse_date r 26 ;;
          work_cell <- index r 19 ;;
          job_number <- index r 20 ;;
          part_number <- index r 21 ;;
          job_qty <- index r 22 ;;
          bal_qty <- index r 23 ;;
          code <- index r 24 ;;
          and_on <- index r 27 ;;
          m_pc <- index r 28 ;;
          prod_hr <- index r 29 ;;
          data <- DispatchDataCreate.new (FileType.db_value file_type)
                    work_cell job_number part_number None
                    (_convert_to_float (VStr job_qty))
                    (_convert_to_float (VStr bal_qty))
                    code prod_date est_compl_date (Some and_on)
                    (_convert_to_float (VStr m_pc))
                    (_convert_to_float (VStr prod_hr))
                    report_start_date report_end_date report_department
                    report_creation_datetime file_name SUCCESS now ;;
          Ok (Some data)
    end).

#[export] Instance processor : FileProcessor :=
  Build_FileProcessor file_type extract_metadata _map_row_to_data
    _get_prod_date _get_report_creation_datetime.

End AssyFileProcessor.

Module FabcutFileProcessor.

Definition file_type : FileType := FABCUT.

Definition _get_prod_date (r : row) : result (option string) :=
  cell_or_none parse_date r 22.

Definition _get_report_creation_datetime (r : row) : result (option string) :=
  cell_or_none parse_datetime r 25.

Definition _map_row_to_data (file_name : string) (now : datetime) (r : row)
    (report_start_date report_end_date report_department : string)
    (report_creation_datetime : option string)
  : result (option DispatchDataCreate.t) :=
  if all_blank (slice r 17 25) then Ok None
  else mapping (
    c <- index r 22 ;;
    match parse_date (VStr c) with
    | None => Ok None
    | Some prod_date =>
        if negb (truthy prod_date) then Ok None
        else
          work_cell <- index r 16 ;;
          job_number <- index r 17 ;;
          part_number <- index r 18 ;;
          job_qty <- index r 19 ;;
          bal_qty <- index r 20 ;;
          code <- index r 21 ;;
          m_pc <- if_cell _convert_to_float r 23 ;;
          prod_hr <- if_cell _convert_to_float r 24 ;;
          data <- DispatchDataCreate.new (FileType.db_value file_type)
                    work_cell job_number part_number None
                    (_convert_to_float (VStr job_qty))
                    (_convert_to_float (VStr bal_qty))
                    code prod_date None None m_pc prod_hr
                    report_start_date report_end_date report_department
                    report_creation_datetime file_name SUCCESS now ;;
          Ok (Some data)
    end).

#[export] Instance processor : FileProcessor :=
  Build_FileProcessor file_type extract_metadata _map_row_to_data
    _get_prod_date _get_report_creation_datetime.

End FabcutFileProcessor.

Module LPFileProcessor.

Definition file_type : FileType := LP.

Definition _get_prod_date (r : row) : result (option string) :=
  cell_or_none parse_date r 25.

Definition _get_report_creation_datetime (r : row) : result (option string) :=
  cell_or_none parse_datetime r 28.

Definition _map_row_to_data (file_name : string) (now : datetime) (r : row)
    (report_start_date report_end_date report_department : string)
    (report_creation_datetime : option string)
  : result (option DispatchDataCreate.t) :=
  if all_blank (slice r 19 28) then Ok None
  else mapping (
    c <- index r 25 ;;
    match parse_date (VStr c) with
    | None => Ok None
    | Some prod_date =>
        if negb (truthy prod_date) then Ok None
        else
          work_cell <- index r 18 ;;
          job_number <- index r 19 ;;
          part_number <- index r 20 ;;
          comments <- index r 21 ;;
          job_qty <- index r 22 ;;
          bal_qty <- index r 23 ;;
          code <- index r 24 ;;
          m_pc <- if_cell _convert_to_float r 26 ;;
          prod_hr <- if_cell _convert_to_float r 27 ;;
          data <- DispatchDataCreate.new (FileType.db_value file_type)
                    work_cell job_number part_number (Some comments)
                    (_convert_to_float (VStr job_qty))
                    (_convert_to_float (VStr bal_qty))
                    code prod_date None None m_pc prod_hr
                    report_start_date report_end_date report_department
                    report_creation_datetime file_name SUCCESS now ;;
          Ok (Some data)
    end).

#[export] Instance processor : FileProcessor :=
  Build_FileProcessor file_type extract_metadata _map_row_to_data
    _get_prod_date _get_report_creation_datetime.

End LPFileProcessor.

(* ===================================================================== *)
(** * Properties *)
(* ===================================================================== *)

(** The three layouts whose processors the sources contain. *)
Inductive layout : Type := Assy | Fabcut | Lp.

Definition processor (l : layout) : FileProcessor :=
  match l with
  | Assy => AssyFileProcessor.processor
  | Fabcut => FabcutFileProcessor.processor
  | Lp => LPFileProcessor.processor
  end.

(** ** Strings *)

Lemma chars_str (l : list ascii) : chars (str l) = l.
Proof. apply list_ascii_of_string_of_list_ascii. Qed.

Lemma str_chars (s : string) : str (chars s) = s.
Proof. apply string_of_list_ascii_of_string. Qed.

Lemma chars_app (a b : string) : chars (a ++ b) = chars a ++ chars b.
Proof.
  induction a as [|c a IH]; simpl; [reflexivity|].
  unfold chars in *. now rewrite IH.
Qed.

Lemma truthy_false (s : string) : truthy s = false <-> s = "".
Proof. destruct s; simpl; split; congruence. Qed.

(** A text that starts with ["("] and ends with [")"] is an interior
    between the two. *)
Lemma wrapped_inv (s : string) :
  startswith s "(" && endswith s ")" = true ->
  exists t, s = String "(" (t ++ ")").
Proof.
  destruct s as [|c s]; [intros H; discriminate H|].
  unfold startswith, endswith, chars. cbn [list_ascii_of_string rev].
  rewrite andb_true_iff. intros [Hc He].
  apply Ascii.eqb_eq in Hc; subst c.
  destruct (rev (list_ascii_of_string s)) as [|x l] eqn:Hr;
    cbn [app] in He.
  - cbv in He. discriminate He.
  - apply Ascii.eqb_eq in He; subst x.
    exists (str (rev l)). f_equal.
    apply (f_equal (@rev ascii)) in Hr. rewrite rev_involutive in Hr.
    cbn [rev] in Hr.
    rewrite <- (str_chars s). unfold chars. rewrite Hr.
    rewrite <- (chars_str (rev l)) at 1.
    change [")"%char] with (chars ")").
    now rewrite <- chars_app, str_chars.
Qed.

Lemma wrapped_intro (t : string) :
  let s := String "(" (t ++ ")") in
  startswith s "(" = true /\ endswith s ")" = true /\ slice_1_m1 s = t.
Proof.
  unfold startswith, endswith, slice_1_m1; simpl.
  fold (chars (t ++ ")")). rewrite chars_app. simpl.
  rewrite rev_app_distr. simpl. repeat split.
  rewrite removelast_last. apply str_chars.
Qed.

(** ** The file types ([FileType.db_value]) *)

Lemma of_value_db_value_sewdc : FileType.of_value (FileType.db_value SEWDC) = None.
Proof. reflexivity. Qed.

(** C8 (the code at SEW-DC).  [FileType.SEWDC.db_value] is ["DC-Sew"], the
    display value is ["SEW-DC"], and every other member's storage value is
    its display value; but the record model takes [file_type] only through
    [FileType(...)], which knows no member of value ["DC-Sew"]: a record
    built with the storage value of SEW-DC is rejected whatever its other
    fields, and no record dumps a [file_type] of ["DC-Sew"]. *)
Theorem sewdc_storage_value_rejected :
  FileType.value SEWDC = "SEW-DC"
  /\ FileType.db_value SEWDC = "DC-Sew"
  /\ (forall t, t <> SEWDC -> FileType.db_value t = FileType.value t)
  /\ (forall wc jn pn cm jq bq cd pd ecd ao mp ph rsd red dep rcd fname ps now,
        DispatchDataCreate.new (FileType.db_value SEWDC) wc jn pn cm jq bq cd
          pd ecd ao mp ph rsd red dep rcd fname ps now = Raise ValidationError)
  /\ (forall data,
        getitem (DispatchDataCreate.model_dump data) "file_type" <> VStr "DC-Sew").
Proof.
  split; [reflexivity|]. split; [reflexivity|]. split; [|split].
  - intros [] H; try reflexivity. now elim H.
  - intros. reflexivity.
  - intros data. cbn. destruct (DispatchDataCreate.file_type data); discriminate.
Qed.

(** ** The numeric normalizer ([_convert_to_float]) *)

Lemma float_of_str_empty : float_of_str "" = None.
Proof. reflexivity. Qed.

Lemma convert_str (s : string) :
  _convert_to_float (VStr s) =
  if truthy (strip s) then
    match float_of_str (strip s) with
    | Some x => Some x
    | None =>
        if startswith (strip s) "(" && endswith (strip s) ")"
        then option_map float_neg (float_of_str (slice_1_m1 (strip s)))
        else None
    end
  else None.
Proof.
  unfold _convert_to_float. cbn [is_true is_str negb orb].
  destruct s as [|c s]; [reflexivity|]. cbn [truthy negb orb].
  destruct (truthy (strip (String c s))); cbn [negb]; [|reflexivity].
  destruct (float_of_str (strip (String c s))); [reflexivity|].
  destruct (startswith _ _ && endswith _ _); [|reflexivity].
  now destruct (float_of_str (slice_1_m1 _)).
Qed.

(** C5.  [_convert_to_float] gives [None] for a value that is not a text
    and for a text that is empty after trimming; the float read from the
    trimmed text when [float] accepts it; otherwise, for a trimmed text of
    the form ["(" t ")"], the negation of the float read from [t] (or [None]
    when [float] rejects [t]); and [None] in every remaining case.  The
    function is total: its type has no exception.  ["(123)"] gives -123.0. *)
Theorem convert_to_float_normalizes :
  (forall v, is_str v = false -> _convert_to_float v = None)
  /\ (forall s, strip s = "" -> _convert_to_float (VStr s) = None)
  /\ (forall s x, float_of_str (strip s) = Some x ->
        _convert_to_float (VStr s) = Some x)
  /\ (forall s t, float_of_str (strip s) = None ->
        strip s = String "(" (t ++ ")") ->
        _convert_to_float (VStr s) = option_map float_neg (float_of_str t))
  /\ (forall s, float_of_str (strip s) = None ->
        (forall t, strip s <> String "(" (t ++ ")")) ->
        _convert_to_float (VStr s) = None)
  /\ _convert_to_float (VStr "(123)") = option_map float_neg (float_of_str "123")
  /\ float_of_str "123" = Some (float_of_decimal false 123 0).
Proof.
  split; [|split; [|split; [|split; [|split; [|split; reflexivity]]]]].
  - intros v Hv. unfold _convert_to_float. rewrite Hv.
    cbn [negb]. now rewrite orb_true_r.
  - intros s Hs. rewrite convert_str, Hs. reflexivity.
  - intros s x Hx. rewrite convert_str, Hx.
    destruct (truthy (strip s)) eqn:Ht; [reflexivity|].
    apply truthy_false in Ht. rewrite Ht, float_of_str_empty in Hx.
    discriminate Hx.
  - intros s t Hf Hs. rewrite convert_str, Hf, Hs.
    destruct (wrapped_intro t) as (H1 & H2 & H3).
    cbv zeta in H1, H2, H3. rewrite H1, H2, H3. reflexivity.
  - intros s Hf Hn. rewrite convert_str, Hf.
    destruct (truthy (strip s)); [|reflexivity].
    destruct (startswith _ _ && endswith _ _) eqn:Hw; [|reflexivity].
    apply wrapped_inv in Hw. destruct Hw as [t Ht]. now elim (Hn t).
Qed.

(** [float] skips fewer blanks than [strip]: inside the parentheses a
    separator character [U+001C] is not skipped, a space is. *)
Example convert_to_float_blanks :
  let fs := ascii_of_nat 28 in
  _convert_to_float (VStr (str ["("; fs; "1"; "2"; fs; ")"]%char)) = None
  /\ _convert_to_float (VStr (str [fs; "1"; "2"; fs]%char))
     = float_of_str "12"
  /\ _convert_to_float (VStr "( 12 )") = option_map float_neg (float_of_str "12").
Proof. vm_compute. repeat split. Qed.

(** ** The date normalizer ([parse_date]) *)

(** The four patterns of the specification, in its order:
    DD-Mon-YY, DD-Mon-YYYY, MM/DD/YYYY, DD/Mon/YY. *)
Definition patterns : list string :=
  ["%d-%b-%y"; "%d-%b-%Y"; "%m/%d/%Y"; "%d/%b/%y"].

Definition parses (text fmt : string) : bool :=
  match strptime text fmt with Some _ => true | None => false end.

(** The specification's reading: the first pattern that parses decides. *)
Definition first_pattern (text : string) : option string :=
  match find (parses text) patterns with
  | Some fmt => option_map (fun dt => strftime dt "%Y-%m-%d") (strptime text fmt)
  | None => None
  end.

Lemma strptime_empty (fmt : string) : In fmt date_formats -> strptime "" fmt = None.
Proof.
  cbn [In date_formats].
  intros [H|[H|[H|[H|[H|[]]]]]]; subst fmt; reflexivity.
Qed.

Lemma try_formats_first_pattern (text : string) :
  try_formats text date_formats = first_pattern text.
Proof.
  unfold first_pattern, patterns, date_formats, parses.
  cbn [try_formats].
  destruct (strptime text "%d-%b-%y") eqn:H1;
    [|destruct (strptime text "%d-%b-%Y") eqn:H2;
      [|destruct (strptime text "%m/%d/%Y") eqn:H3;
        [|destruct (strptime text "%d/%b/%y") eqn:H4]]];
    cbn [find];
    repeat (rewrite ?H1, ?H2, ?H3, ?H4; cbv beta iota);
    reflexivity.
Qed.

Lemma parse_date_str (s : string) :
  parse_date (VStr s) = if truthy (strip s) then try_formats (strip s) date_formats else None.
Proof.
  unfold parse_date. cbn [is_true is_str negb orb].
  destruct s as [|c s]; [reflexivity|]. cbn [truthy negb orb].
  now destruct (truthy (strip (String c s))).
Qed.


(** ** Rows and cells *)

Lemma index_nth (r : row) (i : nat) :
  index r i = match nth_error r i with Some c => Ok c | None => Raise IndexError end.
Proof. reflexivity. Qed.

(** The two lookups that catch [IndexError] never raise. *)
Lemma cell_or_none_ok (f : value -> option string) (r : row) (i : nat) :
  cell_or_none f r i =
  Ok (match nth_error r i with Some c => f (VStr c) | None => None end).
Proof. unfold cell_or_none, index. now destruct (nth_error r i). Qed.

Lemma slice_short (r : row) (a b : nat) : (List.length r <= a)%nat -> slice r a b = [].
Proof.
  intros H. unfold slice. rewrite skipn_all2 by exact H. apply firstn_nil.
Qed.

(** The column range of the blank check of each layout, [row[a:b]]. *)
Definition blank_range (l : layout) : nat * nat :=
  match l with
  | Assy => (20, 30)
  | Fabcut => (17, 25)
  | Lp => (19, 28)
  end%nat.

Definition blank_cells (l : layout) (r : row) : row :=
  slice r (fst (blank_range l)) (snd (blank_range l)).

Lemma map_row_blank (l : layout) name now r rsd red dep creation :
  all_blank (blank_cells l r) = true ->
  @_map_row_to_data (processor l) name now r rsd red dep creation = Ok None.
Proof.
  destruct l; unfold blank_cells, blank_range, fst, snd; intros H;
    [ change (AssyFileProcessor._map_row_to_data name now r rsd red dep creation
              = Ok None);
      unfold AssyFileProcessor._map_row_to_data
    | change (FabcutFileProcessor._map_row_to_data name now r rsd red dep creation
              = Ok None);
      unfold FabcutFileProcessor._map_row_to_data
    | change (LPFileProcessor._map_row_to_data name now r rsd red dep creation
              = Ok None);
      unfold LPFileProcessor._map_row_to_data ];
    now rewrite H.
Qed.

Lemma creation_ok (l : layout) (r : row) :
  exists c, @_get_report_creation_datetime (processor l) r = Ok c.
Proof.
  destruct l;
    [ change (exists c, AssyFileProcessor._get_report_creation_datetime r = Ok c);
      unfold AssyFileProcessor._get_report_creation_datetime
    | change (exists c, FabcutFileProcessor._get_report_creation_datetime r = Ok c);
      unfold FabcutFileProcessor._get_report_creation_datetime
    | change (exists c, LPFileProcessor._get_report_creation_datetime r = Ok c);
      unfold LPFileProcessor._get_report_creation_datetime ];
    rewrite cell_or_none_ok; eauto.
Qed.

(** C10.  A data row with no cell at the first column of its layout's blank
    check (at most 20 cells for Assy, 17 for Fabcut, 19 for LP) has an empty
    slice there; the mapping returns [None] whatever the cells it has, and
    the row adds one to [total_rows] and [skipped_rows] and to nothing
    else: it is never an error row, and nothing is stored. *)
Theorem short_row_is_skipped (l : layout) (name : string) (now : nat -> datetime)
    (rsd red dep : string) (n : nat) (r : row) (st : state) :
  (List.length r <= fst (blank_range l))%nat ->
  blank_cells l r = []
  /\ (forall t creation,
        @_map_row_to_data (processor l) name t r rsd red dep creation = Ok None)
  /\ @process_row (processor l) name now rsd red dep n r st
     = mkState (incr_skipped (incr_total (summary st))) (db st).
Proof.
  intros Hlen.
  assert (Hb : blank_cells l r = []) by (apply slice_short; exact Hlen).
  assert (Hm : forall t creation,
             @_map_row_to_data (processor l) name t r rsd red dep creation = Ok None).
  { intros. apply map_row_blank. now rewrite Hb. }
  repeat split; try assumption.
  unfold process_row. destruct (creation_ok l r) as [c Hc].
  rewrite Hc. cbn [bind]. rewrite Hm. reflexivity.
Qed.

Lemma short_row_is_skipped_witness :
  let r := ["only"; "three"; "cells"] in
  let st := @init (processor Assy) "a.csv" (mkDatetime 2024 10 14 8 0 0 0) [] in
  Summary.skipped_rows
    (summary (@process_row (processor Assy) "a.csv"
                (fun _ => mkDatetime 2024 10 14 8 0 0 0)
                "2024-09-27" "2024-09-30" "Assembly" 1 r st)) = 1%Z
  /\ Summary.error_rows
    (summary (@process_row (processor Assy) "a.csv"
                (fun _ => mkDatetime 2024 10 14 8 0 0 0)
                "2024-09-27" "2024-09-30" "Assembly" 1 r st)) = 0%Z.
Proof.
  intros r st.
  destruct (short_row_is_skipped Assy "a.csv"
              (fun _ => mkDatetime 2024 10 14 8 0 0 0)
              "2024-09-27" "2024-09-30" "Assembly" 1 r st) as (_ & _ & H).
  - cbn. lia.
  - rewrite H. split; reflexivity.
Defined.

(** ** The counters *)

Definition balanced (s : Summary.t) : Prop :=
  Summary.total_rows s
  = (Summary.successful_rows s + Summary.duplicate_rows s
     + Summary.error_rows s + Summary.skipped_rows s)%Z.

Section Counters.

Context {P : FileProcessor}.
Variables (name : string) (now : nat -> datetime) (rsd red dep : string).

(** One row: [total_rows] and exactly one of the other four grow by one. *)
Lemma process_row_outcome (n : nat) (r : row) (st : state) :
  let s := incr_total (summary st) in
  let s' := summary (process_row name now rsd red dep n r st) in
  s' = incr_skipped s \/ s' = incr_duplicate s \/ s' = incr_successful s
  \/ s' = incr_error s.
Proof.
  cbv zeta. unfold process_row.
  destruct (_get_report_creation_datetime r) as [c|e]; cbn [bind]; [|auto].
  destruct (_map_row_to_data _ _ _ _ _ _ _) as [[data|]|e]; cbn [bind]; [| |]; auto.
  destruct (row_exists _ _); [auto|].
  destruct (_insert_data data (db st)); cbn [bind summary]; auto.
Qed.

Lemma process_row_balanced (n : nat) (r : row) (st : state) :
  balanced (summary st) ->
  balanced (summary (process_row name now rsd red dep n r st)).
Proof.
  intros H. unfold balanced in *.
  destruct (process_row_outcome n r st) as [E|[E|[E|E]]];
    cbv zeta in E; rewrite E; cbn; lia.
Qed.

Lemma process_rows_balanced (rows : list row) :
  forall n st, balanced (summary st) ->
               balanced (summary (process_rows name now rsd red dep n rows st)).
Proof.
  induction rows as [|r rows IH]; intros n st H; cbn [process_rows].
  - exact H.
  - apply IH, process_row_balanced, H.
Qed.

End Counters.

Lemma process_file_balanced {P : FileProcessor} name now file st s st' :
  balanced (summary st) ->
  process_file name now file st = (Ok s, st') -> balanced s.
Proof.
  intros Hb. unfold process_file.
  destruct (_extract_metadata file) as [meta|e]; cbn [bind]; [|discriminate].
  destruct (skip2 file) as [rows|e]; cbn [bind]; [|discriminate].
  intros H. injection H as <- _. now apply process_rows_balanced.
Qed.

(** C9.  A summary starts with its five counters at 0, and whenever
    [process_file] returns one, [total_rows] is the sum of
    [successful_rows], [duplicate_rows], [error_rows] and [skipped_rows]. *)
Theorem counters_partition {P : FileProcessor} (name : string) (now : nat -> datetime)
    (t : datetime) (file : list row) (db0 : store) (s : Summary.t) (st' : state) :
  process_file name now file (init name t db0) = (Ok s, st') ->
  Summary.total_rows s
  = (Summary.successful_rows s + Summary.duplicate_rows s
     + Summary.error_rows s + Summary.skipped_rows s)%Z.
Proof.
  apply process_file_balanced. reflexivity.
Qed.

(** ** The text [parse_date] returns *)

Lemma strftime_ymd (dt : datetime) :
  strftime dt "%Y-%m-%d"
  = str (decimal (year dt) ++ "-"%char :: zpad 2 (month dt)
         ++ "-"%char :: zpad 2 (day dt)).
Proof.
  reflexivity.
Qed.

Lemma truthy_str_app (a b : list ascii) (c : ascii) :
  truthy (str (a ++ c :: b)) = true.
Proof. now destruct a. Qed.

Lemma try_formats_some (text : string) (fmts : list string) (d : string) :
  try_formats text fmts = Some d ->
  exists fmt dt, In fmt fmts /\ strptime text fmt = Some dt
                 /\ d = strftime dt "%Y-%m-%d".
Proof.
  induction fmts as [|f fmts IH]; cbn [try_formats]; [discriminate|].
  destruct (strptime text f) as [dt|] eqn:E.
  - intros H. injection H as <-. exists f, dt. cbn [In]. auto.
  - intros H. destruct (IH H) as (fmt & dt & Hin & Hs & Hd).
    exists fmt, dt. cbn [In]. auto.
Qed.

Lemma parse_date_some (v : value) (d : string) :
  parse_date v = Some d ->
  exists s fmt dt, v = VStr s /\ strptime (strip s) fmt = Some dt
                   /\ d = strftime dt "%Y-%m-%d".
Proof.
  destruct v as [| | | |s| |]; try (unfold parse_date; cbn [is_true is_str negb orb];
    rewrite ?orb_true_r; discriminate).
  rewrite parse_date_str. destruct (truthy (strip s)); [|discriminate].
  intros H. apply try_formats_some in H. destruct H as (fmt & dt & _ & Hs & Hd).
  exists s, fmt, dt. auto.
Qed.

Lemma parse_date_nonempty (v : value) (d : string) :
  parse_date v = Some d -> truthy d = true.
Proof.
  intros H. apply parse_date_some in H. destruct H as (s & fmt & dt & _ & _ & ->).
  rewrite strftime_ymd. apply truthy_str_app.
Qed.

(** ** Sample files *)

Module Sample.

Definition started : datetime := mkDatetime 2024 10 14 20 4 43 342962.

(** A clock that advances one second per row. *)
Definition clock (n : nat) : datetime :=
  mkDatetime 2024 10 14 20 5 (Z.of_nat n) 0.

Definition header : list row :=
  [ ["Report start"; "27-Sep-24"]; ["Department"; ""; "Assembly"] ].

Definition printed : string := "Printed on 9/27/2024 /  3:59:22PM".

(** An Assy row with every column of the layout filled. *)
Definition assy_row : row :=
  repeat "" 19
  ++ ["WC1"; "J100"; "P-7"; "10"; "5"; "A"; "30-Sep-24"; "01-Oct-24";
      "WC2"; "1.5"; "2"; printed].

(** The same row with [job_qty] in accounting notation. *)
Definition assy_negative_row : row :=
  repeat "" 19
  ++ ["WC1"; "J100"; "P-7"; "(10)"; "5"; "A"; "30-Sep-24"; "01-Oct-24";
      "WC2"; "1.5"; "2"; printed].

Definition fabcut_row : row :=
  repeat "" 16
  ++ ["WC1"; "J100"; "P-7"; "10"; "5"; "A"; "30-Sep-24"; "1.5"; "2"; printed].

Definition assy_file : list row := header ++ [assy_row; assy_row].
Definition fabcut_file : list row := header ++ [fabcut_row].

(** An Assy row with the given production date cell. *)
Definition assy_row_dated (prod_date : string) : row :=
  repeat "" 19
  ++ ["WC1"; "J100"; "P-7"; "10"; "5"; "A"; prod_date; "01-Oct-24";
      "WC2"; "1.5"; "2"; printed].


End Sample.

(** ** The counters, on a run *)

Lemma counters_partition_witness :
  let out := @process_file (processor Assy) "assy.csv" Sample.clock Sample.assy_file
               (@init (processor Assy) "assy.csv" Sample.started []) in
  fst out = Ok (summary (snd out))
  /\ Summary.total_rows (summary (snd out)) = 2%Z
  /\ Summary.total_rows (summary (snd out))
     = (Summary.successful_rows (summary (snd out))
        + Summary.duplicate_rows (summary (snd out))
        + Summary.error_rows (summary (snd out))
        + Summary.skipped_rows (summary (snd out)))%Z.
Proof.
  intros out. split; [vm_compute; reflexivity|]. split; [vm_compute; reflexivity|].
  apply (@counters_partition (processor Assy) "assy.csv" Sample.clock Sample.started
           Sample.assy_file [] (summary (snd out)) (snd out)).
  vm_compute. reflexivity.
Defined.

(** ** Metadata extraction *)

Lemma extract_metadata_cases (file : list row) :
  extract_metadata file =
  match file with
  | [] => Raise (ValueError "Failed to extract metadata")
  | r1 :: rest1 =>
      match nth_error r1 1 with
      | None => Raise (ValueError "Failed to extract metadata")
      | Some c =>
          match parse_date (VStr c) with
          | None => Raise (ValueError "Invalid report start date")
          | Some d =>
              match rest1 with
              | [] => Raise (ValueError "Failed to extract metadata")
              | r2 :: rest =>
                  match nth_error r2 2 with
                  | None => Raise (ValueError "Failed to extract metadata")
                  | Some dep =>
                      if truthy dep then Ok ((d, dep), rest)
                      else Raise (ValueError "Missing department information")
                  end
              end
          end
      end
  end.
Proof.
  unfold extract_metadata.
  destruct file as [|r1 rest1]; [reflexivity|]. cbn [next bind fst snd].
  rewrite index_nth. destruct (nth_error r1 1) as [c|]; [|reflexivity].
  cbn [bind]. destruct (parse_date (VStr c)) as [d|] eqn:Hd; [|reflexivity].
  rewrite (parse_date_nonempty _ _ Hd). cbn [negb].
  destruct rest1 as [|r2 rest]; [reflexivity|]. cbn [next bind fst snd].
  rewrite index_nth. destruct (nth_error r2 2) as [dep|]; [|reflexivity].
  cbn [bind]. now destruct (truthy dep).
Qed.

Lemma extract_metadata_of (l : layout) :
  @_extract_metadata (processor l) = extract_metadata.
Proof. now destruct l. Qed.

(** C7.  Metadata extraction succeeds exactly when the file has two rows,
    cell 1 of the first parses as a date (the report start date) and cell 2
    of the second is a non-empty text (the department); it then has read
    those two rows and no more.  In every other case (a row missing, a row
    too short, a start date that does not parse, an empty department) it
    raises a [ValueError], and [process_file] raises it for the whole file:
    no summary is returned and the state is as it was.  When extraction
    succeeds, [process_file] returns a summary. *)
Theorem metadata_extraction (l : layout) (name : string) (now : nat -> datetime)
    (file : list row) (st : state) :
  (forall d dep rest,
      @_extract_metadata (processor l) file = Ok ((d, dep), rest) <->
      exists r1 r2 c,
        file = r1 :: r2 :: rest /\ nth_error r1 1 = Some c
        /\ parse_date (VStr c) = Some d /\ nth_error r2 2 = Some dep /\ dep <> "")
  /\ (forall e,
        @_extract_metadata (processor l) file = Raise e ->
        (exists msg, e = ValueError msg)
        /\ @process_file (processor l) name now file st = (Raise e, st))
  /\ (forall meta,
        @_extract_metadata (processor l) file = Ok meta ->
        exists st', @process_file (processor l) name now file st
                    = (Ok (summary st'), st')).
Proof.
  rewrite extract_metadata_of. split; [|split].
  - intros d dep rest. rewrite extract_metadata_cases. split.
    + destruct file as [|r1 [|r2 rest']];
        repeat match goal with
               | |- context [match ?x with _ => _ end] => destruct x eqn:?
               end; try discriminate.
      intros H. injection H as -> -> ->.
      exists r1, r2, s. repeat split; try assumption.
      intros ->. discriminate.
    + intros (r1 & r2 & c & -> & H1 & Hd & H2 & Hdep).
      rewrite H1, Hd, H2. destruct dep; [now elim Hdep|reflexivity].
  - intros e He. split.
    + rewrite extract_metadata_cases in He.
      repeat match type of He with
             | context [match ?x with _ => _ end] => destruct x
             end; try discriminate; injection He as <-; eauto.
    + unfold process_file. rewrite extract_metadata_of, He. reflexivity.
  - intros meta He. unfold process_file. rewrite extract_metadata_of, He.
    cbn [bind]. rewrite extract_metadata_cases in He.
    destruct file as [|r1 [|r2 rest]];
      repeat match type of He with
             | context [match ?x with _ => _ end] => destruct x
             end; try discriminate.
    cbn [skip2 next bind snd]. eauto.
Qed.

(** ** Negative quantities *)

Definition negative (v : option float) : bool :=
  match v with Some x => float_lt0 x | None => false end.

Lemma validate_ok_nonnegative (v r : option float) :
  validate_numeric_fields v = Ok r -> negative v = false.
Proof.
  destruct v as [x|]; [|reflexivity]. cbn.
  destruct (float_lt0 x); [discriminate|reflexivity].
Qed.

Lemma numeric_ok_nonnegative (v : option float) (x : float) :
  DispatchDataCreate.numeric v = Ok x -> negative v = false.
Proof.
  destruct v as [y|]; [|reflexivity]. cbn.
  destruct (float_lt0 y); [discriminate|reflexivity].
Qed.

(** Record construction fails validation as soon as one of the four
    numeric fields is negative. *)
Lemma new_rejects_negative ft wc jn pn cm jq bq cd pd ecd ao mp ph rsd red dep
    rcd fname ps now :
  negative jq || negative bq || negative mp || negative ph = true ->
  DispatchDataCreate.new ft wc jn pn cm jq bq cd pd ecd ao mp ph rsd red dep
    rcd fname ps now = Raise ValidationError.
Proof.
  intros H. unfold DispatchDataCreate.new.
  assert (R : forall A (r : result A), raised r = true ->
                DispatchDataCreate.validation r = Raise ValidationError)
    by (intros A [a|e]; [discriminate|reflexivity]).
  apply R. clear R.
  repeat match goal with
         | |- raised (bind ?a _) = true =>
             destruct a eqn:?; cbn [bind raised]; try reflexivity
         end.
  repeat match goal with
         | E : validate_numeric_fields _ = Ok _ |- _ =>
             apply validate_ok_nonnegative in E; rewrite E in H
         | E : DispatchDataCreate.numeric _ = Ok _ |- _ =>
             apply numeric_ok_nonnegative in E; rewrite E in H
         end.
  discriminate H.
Qed.

Lemma convert_nonempty (c : string) (x : float) :
  _convert_to_float (VStr c) = Some x -> truthy c = true.
Proof. destruct c; [discriminate|reflexivity]. Qed.

(** The columns each layout reads [prod_date] and the four numeric
    fields ([job_qty], [bal_qty], [m_pc], [prod_hr]) from. *)
Definition prod_date_column (l : layout) : nat :=
  match l with Assy => 25 | Fabcut => 22 | Lp => 25 end%nat.

Definition numeric_columns (l : layout) : list nat :=
  match l with
  | Assy => [22; 23; 28; 29]
  | Fabcut => [19; 20; 23; 24]
  | Lp => [22; 23; 26; 27]
  end%nat.

Lemma raised_mapping {A : Type} (r : result A) : raised (mapping r) = raised r.
Proof. now destruct r. Qed.

Ltac read_cells r :=
  repeat match goal with
         | H : nth_error r ?k = Some _ |- context [index r ?k] =>
             rewrite (index_nth r k), H; cbn [bind]
         | |- context [index r ?k] =>
             rewrite (index_nth r k); destruct (nth_error r k) eqn:?;
             cbn [bind]; try reflexivity
         | H : _convert_to_float (VStr ?c) = Some _ |- context [truthy ?c] =>
             rewrite (convert_nonempty _ _ H); cbn [bind]
         | |- context [if truthy ?c then _ else _] =>
             destruct (truthy c); cbn [bind]
         end.

Lemma map_row_negative (l : layout) name t r rsd red dep creation i c x cd d :
  all_blank (blank_cells l r) = false ->
  nth_error r (prod_date_column l) = Some cd ->
  parse_date (VStr cd) = Some d ->
  In i (numeric_columns l) ->
  nth_error r i = Some c ->
  _convert_to_float (VStr c) = Some x ->
  float_lt0 x = true ->
  raised (@_map_row_to_data (processor l) name t r rsd red dep creation) = true.
Proof.
  intros Hb Hcd Hd Hi Hc Hx Hneg.
  pose proof (parse_date_nonempty _ _ Hd) as Hne.
  destruct l; unfold blank_cells, blank_range, fst, snd in Hb;
    cbn [prod_date_column] in Hcd; cbn [numeric_columns In] in Hi;
    [ change (raised (AssyFileProcessor._map_row_to_data name t r rsd red dep
                        creation) = true);
      unfold AssyFileProcessor._map_row_to_data
    | change (raised (FabcutFileProcessor._map_row_to_data name t r rsd red dep
                        creation) = true);
      unfold FabcutFileProcessor._map_row_to_data
    | change (raised (LPFileProcessor._map_row_to_data name t r rsd red dep
                        creation) = true);
      unfold LPFileProcessor._map_row_to_data ];
    rewrite Hb, raised_mapping, index_nth, Hcd; cbn [bind];
    rewrite Hd, Hne; cbn [negb]; unfold if_cell;
    destruct Hi as [<-|[<-|[<-|[<-|[]]]]];
    read_cells r;
    try reflexivity;
    rewrite ?Hx;
    rewrite new_rejects_negative;
    try reflexivity;
    unfold negative; rewrite ?Hx, Hneg, ?orb_true_r; reflexivity.
Qed.

(** C6.  A data row that is not blank, whose [prod_date] cell parses, and
    one of whose four numeric cells ([job_qty], [bal_qty], [m_pc],
    [prod_hr]) normalizes to a negative float (accounting notation, say):
    a record with that float in a numeric field fails validation; the
    mapping of the row raises; the row adds one to [total_rows] and to
    [error_rows] only and nothing is stored; and the loop goes on with the
    next row. *)
Theorem negative_quantity_is_error (l : layout) (name : string)
    (now : nat -> datetime) (rsd red dep : string) (n : nat) (r : row)
    (rest : list row) (st : state) (i : nat) (c cd d : string) (x : float) :
  all_blank (blank_cells l r) = false ->
  nth_error r (prod_date_column l) = Some cd ->
  parse_date (VStr cd) = Some d ->
  In i (numeric_columns l) ->
  nth_error r i = Some c ->
  _convert_to_float (VStr c) = Some x ->
  float_lt0 x = true ->
  (forall ft wc jn pn cm jq bq cod pd ecd ao mp ph s1 s2 s3 rcd fname ps t,
      In (Some x) [jq; bq; mp; ph] ->
      DispatchDataCreate.new ft wc jn pn cm jq bq cod pd ecd ao mp ph s1 s2 s3
        rcd fname ps t = Raise ValidationError)
  /\ (forall t creation,
        raised (@_map_row_to_data (processor l) name t r rsd red dep creation)
        = true)
  /\ @process_row (processor l) name now rsd red dep n r st
     = mkState (incr_error (incr_total (summary st))) (db st)
  /\ @process_rows (processor l) name now rsd red dep n (r :: rest) st
     = @process_rows (processor l) name now rsd red dep (S n) rest
         (mkState (incr_error (incr_total (summary st))) (db st)).
Proof.
  intros Hb Hcd Hd Hi Hc Hx Hneg.
  assert (Hm : forall t creation,
             raised (@_map_row_to_data (processor l) name t r rsd red dep creation)
             = true)
    by (intros; eapply map_row_negative; eassumption).
  assert (Hrow : @process_row (processor l) name now rsd red dep n r st
                 = mkState (incr_error (incr_total (summary st))) (db st)).
  { unfold process_row. destruct (creation_ok l r) as [cr Hcr].
    rewrite Hcr. cbn [bind].
    specialize (Hm (now n) cr).
    destruct (_map_row_to_data _ _ _ _ _ _ _); [discriminate Hm|reflexivity]. }
  split; [|split; [exact Hm|split; [exact Hrow|]]].
  - intros. apply new_rejects_negative. unfold negative.
    cbn [In] in H. destruct H as [->|[->|[->|[->|[]]]]];
      rewrite Hneg, ?orb_true_r; reflexivity.
  - cbn [process_rows]. now rewrite Hrow.
Qed.

Lemma negative_quantity_is_error_witness :
  let st := @init (processor Assy) "assy.csv" Sample.started [] in
  _convert_to_float (VStr "(10)") = Some (float_neg (float_of_decimal false 10 0))
  /\ @process_row (processor Assy) "assy.csv" Sample.clock
       "2024-09-27" "2024-09-30" "Assembly" 1 Sample.assy_negative_row st
     = mkState (incr_error (incr_total (summary st))) [].
Proof.
  intros st. split; [vm_compute; reflexivity|].
  refine (proj1 (proj2 (proj2
    (negative_quantity_is_error Assy "assy.csv" Sample.clock
       "2024-09-27" "2024-09-30" "Assembly" 1 Sample.assy_negative_row [] st
       22 "(10)" "30-Sep-24" "2024-09-30"
       (float_neg (float_of_decimal false 10 0)) _ _ _ _ _ _ _)))).
  - vm_compute; reflexivity.
  - vm_compute; reflexivity.
  - vm_compute; reflexivity.
  - cbn; auto.
  - vm_compute; reflexivity.
  - vm_compute; reflexivity.
  - vm_compute; reflexivity.
Defined.

(** ** What [_insert_data] stores *)

(** The row an INSERT of [data] adds: the statement's columns with the
    dumped values bound by position. *)
Definition stored (data : DispatchDataCreate.t) : stored_row :=
  combine insert_columns (map adapt (values (DispatchDataCreate.model_dump data))).

Lemma insert_data_cases (data : DispatchDataCreate.t) (db : store) :
  _insert_data data db =
  if is_nan (DispatchDataCreate.job_qty data) || is_nan (DispatchDataCreate.bal_qty data)
  then Raise IntegrityError
  else Ok (db ++ [stored data]).
Proof.
  destruct data as [ft wc jn pn cm jq bq cd pd ecd ao mp ph rsd red dep rcd fn ps ud].
  unfold _insert_data, execute_insert, stored. cbn.
  destruct (is_nan jq), (is_nan bq); reflexivity.
Qed.

(** C2 (the code at every record).  The INSERT statement lists
    [upload_date, file_name, processing_status] where the dumped record has
    [file_name, processing_status, upload_date]; the values are bound by
    position, so in the row stored the column [upload_date] holds the file's
    name, the column [file_name] the status tag, and the column
    [processing_status] the clock's timestamp.  The seventeen columns
    before them hold their like-named fields. *)
Theorem insert_binds_by_position (data : DispatchDataCreate.t) :
  column (stored data) "upload_date" = SText (DispatchDataCreate.file_name data)
  /\ column (stored data) "file_name"
     = SText (ProcessingStatus.value (DispatchDataCreate.processing_status data))
  /\ column (stored data) "processing_status"
     = SText (datetime_isoformat (DispatchDataCreate.upload_date data))
  /\ (forall c, In c (firstn 17 insert_columns) ->
        column (stored data) c = adapt (getitem (DispatchDataCreate.model_dump data) c))
  /\ (forall db, _insert_data data db = Ok (db ++ [stored data])
                 \/ _insert_data data db = Raise IntegrityError).
Proof.
  split; [reflexivity|]. split; [reflexivity|]. split; [reflexivity|]. split.
  - intros c Hc. cbn in Hc.
    repeat (destruct Hc as [<-|Hc]; [reflexivity|]). destruct Hc.
  - intros db. rewrite insert_data_cases.
    destruct (is_nan _ || is_nan _); auto.
Qed.

(** On a run: the one record the sample Assy file persists has the file's
    name in its [upload_date] column. *)
Example upload_date_column_on_a_run :
  map (fun r => (column r "upload_date", column r "file_name",
                 column r "processing_status"))
      (db (snd (@process_file (processor Assy) "assy.csv" Sample.clock
                  Sample.assy_file
                  (@init (processor Assy) "assy.csv" Sample.started []))))
  = [(SText "assy.csv", SText "success", SText "2024-10-14 20:05:01")].
Proof. vm_compute. reflexivity. Qed.

(** ** The order on texts that [>] decides *)

(** [a <= b], as the negation of [a > b]. *)
Definition str_le (a b : string) : Prop := str_gt a b = false.

Lemma ascii_compare_refl (a : ascii) : Ascii.compare a a = Eq.
Proof. apply N.compare_refl. Qed.

Lemma string_compare_refl (a : string) : String.compare a a = Eq.
Proof.
  induction a as [|x a IH]; cbn; [reflexivity|].
  now rewrite ascii_compare_refl.
Qed.

Lemma str_le_refl (a : string) : str_le a a.
Proof. unfold str_le, str_gt. now rewrite string_compare_refl. Qed.

Lemma N_compare_chain (x y z : N) (c : comparison) :
  c <> Eq ->
  ((x ?= y)%N = c /\ ((y ?= z)%N = c \/ (y ?= z)%N = Eq)
   \/ (x ?= y)%N = Eq /\ (y ?= z)%N = c) ->
  (x ?= z)%N = c.
Proof.
  intros Hc H.
  destruct H as [[H1 [H2|H2]]|[H1 H2]];
    try (apply N.compare_eq_iff in H2; subst z; exact H1);
    try (apply N.compare_eq_iff in H1; subst y; exact H2).
  destruct c; [now elim Hc| |].
  - apply -> N.compare_lt_iff in H1. apply -> N.compare_lt_iff in H2.
    apply N.compare_lt_iff. lia.
  - apply -> N.compare_gt_iff in H1. apply -> N.compare_gt_iff in H2.
    apply N.compare_gt_iff. lia.
Qed.

Lemma string_compare_trans (c : comparison) :
  forall a b d, String.compare a b = c -> String.compare b d = c ->
                String.compare a d = c.
Proof.
  induction a as [|x a IH]; intros [|y b] [|z d]; cbn;
    try (intros; congruence).
  unfold Ascii.compare.
  destruct (N_of_ascii x ?= N_of_ascii y)%N eqn:E1;
    destruct (N_of_ascii y ?= N_of_ascii z)%N eqn:E2;
    intros H1 H2; try congruence.
  - apply N.compare_eq_iff in E1, E2. rewrite E1, E2, N.compare_refl.
    now apply (IH b d).
  - rewrite (N_compare_chain _ (N_of_ascii y) _ Lt); [exact H2|discriminate|auto].
  - rewrite (N_compare_chain _ (N_of_ascii y) _ Gt); [exact H2|discriminate|auto].
  - rewrite (N_compare_chain _ (N_of_ascii y) _ Lt); [exact H1|discriminate|auto].
  - rewrite (N_compare_chain _ (N_of_ascii y) _ Lt); [exact H1|discriminate|auto].
  - rewrite (N_compare_chain _ (N_of_ascii y) _ Gt); [exact H1|discriminate|auto].
  - rewrite (N_compare_chain _ (N_of_ascii y) _ Gt); [exact H1|discriminate|auto].
Qed.

Lemma str_gt_trans (a b d : string) :
  str_gt a b = true -> str_gt b d = true -> str_gt a d = true.
Proof.
  unfold str_gt. intros H1 H2.
  destruct (String.compare a b) eqn:E1; try discriminate.
  destruct (String.compare b d) eqn:E2; try discriminate.
  now rewrite (string_compare_trans Gt a b d E1 E2).
Qed.

Lemma str_le_trans (a b d : string) : str_le a b -> str_le b d -> str_le a d.
Proof.
  unfold str_le, str_gt. intros H1 H2.
  destruct (String.compare a b) eqn:E1; try discriminate;
    destruct (String.compare b d) eqn:E2; try discriminate.
  - apply String.compare_eq_iff in E1, E2. subst. now rewrite string_compare_refl.
  - apply String.compare_eq_iff in E1. subst. now rewrite E2.
  - apply String.compare_eq_iff in E2. subst. now rewrite E1.
  - now rewrite (string_compare_trans Lt a b d E1 E2).
Qed.

Lemma str_gt_le (a b : string) : str_gt a b = true -> str_le b a.
Proof.
  unfold str_le, str_gt. rewrite (String.compare_antisym a b).
  now destruct (String.compare b a).
Qed.

(** ** ISO dates: reading the text back gives the text *)

Definition digit_char (v : Z) : ascii := ascii_of_nat (48 + Z.to_nat v).

Lemma digit_roundtrip (a : ascii) :
  is_digit a = true ->
  (0 <= digit_val a <= 9)%Z /\ digit_char (digit_val a) = a.
Proof.
  destruct a as [[] [] [] [] [] [] [] []]; intros H;
    try discriminate H; (split; [vm_compute; split; discriminate | reflexivity]).
Qed.

Lemma zpad_snoc (w : nat) (n v : Z) :
  (0 <= v <= 9)%Z -> zpad (S w) (10 * n + v) = zpad w n ++ [digit_char v].
Proof.
  intros Hv. cbn [zpad]. unfold digit_char.
  replace ((10 * n + v) / 10)%Z with n by (apply (Z.div_unique _ 10 n v); lia).
  replace ((10 * n + v) mod 10)%Z with v by (apply (Z.mod_unique _ 10 n v); lia).
  reflexivity.
Qed.

Lemma zpad_int_of (w : nat) (l : list ascii) :
  List.length l = w -> forallb is_digit l = true -> zpad w (int_of l) = l.
Proof.
  intros <-. unfold int_of. rewrite <- (rev_involutive l).
  induction (rev l) as [|a t IH]; [reflexivity|].
  cbn [rev]. rewrite forallb_app, fold_left_app, length_app.
  cbn [forallb fold_left List.length].
  rewrite andb_true_iff, andb_true_r. intros [Ht Ha]. rewrite Ha.
  destruct (digit_roundtrip a Ha) as [Hr Hc].
  rewrite Nat.add_1_r, zpad_snoc by exact Hr. rewrite Hc. now rewrite IH.
Qed.

Ltac match_step H :=
  cbn -[is_digit Ascii.eqb eq_ci] in H;
  match type of H with
  | context [if ?b then _ else _] => destruct b eqn:?
  end.

Lemma iso_date_match (l : list ascii) (c : captures) :
  re_fullmatch iso_date_regex l = Some c ->
  exists y m d,
    l = y ++ "-"%char :: m ++ "-"%char :: d
    /\ List.length y = 4%nat /\ List.length m = 2%nat /\ List.length d = 2%nat
    /\ forallb is_digit y = true /\ forallb is_digit m = true
    /\ forallb is_digit d = true
    /\ group "Y" c = Some y /\ group "m" c = Some m /\ group "d" c = Some d.
Proof.
  unfold re_fullmatch, iso_date_regex, digits, rcat.
  intros H.
  do 10 (destruct l as [|? l]; [repeat match_step H; cbn in H; discriminate H|]).
  destruct l as [|? l].
  - repeat match_step H; cbn in H; try discriminate H.
    injection H as <-.
    repeat match goal with
           | E : Ascii.eqb _ _ = true |- _ => apply Ascii.eqb_eq in E; subst
           end.
    exists [a; a0; a1; a2], [a4; a5], [a7; a8].
    cbn. repeat match goal with E : is_digit _ = true |- _ => rewrite E; clear E end.
    repeat split; reflexivity.
  - repeat match_step H; cbn in H; discriminate H.
Qed.

(** A text a [date] field accepts is the ISO text of the date it becomes:
    what is stored for the field is the text that was given. *)
Lemma date_of_text_isoformat (s : string) (d : date) :
  date_of_text s = Some d -> date_isoformat d = s.
Proof.
  unfold date_of_text.
  destruct (re_fullmatch iso_date_regex (chars s)) as [c|] eqn:Hm; [|discriminate].
  apply iso_date_match in Hm.
  destruct Hm as (y & m & dd & Hl & Hy & Hmo & Hd & Dy & Dm & Dd & Gy & Gm & Gd).
  destruct (valid_date _); [|discriminate].
  intros H. injection H as <-.
  unfold date_isoformat, field_or. rewrite Gy, Gm, Gd. cbn [dyear dmonth dday].
  rewrite (zpad_int_of 4 y), (zpad_int_of 2 m), (zpad_int_of 2 dd) by assumption.
  rewrite <- Hl. apply str_chars.
Qed.

(** ** The first pass *)

Section FirstPass.

Context {P : FileProcessor}.

(** The production date the first loop takes from a row, if any. *)
Definition parsed_date (r : row) : option string :=
  match _get_prod_date r with
  | Ok (Some d) => if truthy d then Some d else None
  | _ => None
  end.

(** The dates of the data rows that parse, in file order. *)
Definition prod_dates (rows : list row) : list string :=
  flat_map (fun r => match parsed_date r with Some d => [d] | None => [] end) rows.

Lemma max_step_cases (acc : option string) (r : row) :
  max_step acc r =
  match parsed_date r with
  | None => acc
  | Some d =>
      match acc with
      | None => Some d
      | Some m => if str_gt d m then Some d else acc
      end
  end.
Proof.
  unfold max_step, parsed_date.
  destruct (_get_prod_date r) as [[d|]|e]; try reflexivity.
  destruct (truthy d); [|reflexivity].
  destruct acc as [m|]; reflexivity.
Qed.

Lemma fold_max_step (rows : list row) :
  forall acc,
    match fold_left max_step rows acc with
    | None => acc = None /\ prod_dates rows = []
    | Some m =>
        (acc = Some m \/ In m (prod_dates rows))
        /\ (forall a, acc = Some a -> str_le a m)
        /\ (forall d, In d (prod_dates rows) -> str_le d m)
    end.
Proof.
  induction rows as [|r rows IH]; intros acc; cbn [fold_left prod_dates flat_map].
  - destruct acc as [m|]; [|auto].
    split; [auto|]. split; [|intros d []].
    intros a E. injection E as <-. apply str_le_refl.
  - specialize (IH (max_step acc r)).
    fold (prod_dates rows).
    destruct (fold_left max_step rows (max_step acc r)) as [m|];
      rewrite max_step_cases in IH.
    + destruct IH as (Hin & Hacc & Hall).
      destruct (parsed_date r) as [d|]; cbn [app].
      * assert (Hd : str_le d m /\ (forall a, acc = Some a -> str_le a m)).
        { destruct acc as [a|].
          - destruct (str_gt d a) eqn:G.
            + split; [now apply Hacc|]. intros a' E. injection E as <-.
              apply str_le_trans with d; [now apply str_gt_le|now apply Hacc].
            + split; [|exact Hacc].
              apply str_le_trans with a; [exact G|now apply Hacc].
          - split; [now apply Hacc|discriminate]. }
        destruct Hd as [Hd Ha]. split; [|split; [exact Ha|]].
        -- destruct Hin as [Hin|Hin]; [|right; cbn [In]; auto].
           destruct acc as [a|].
           ++ destruct (str_gt d a); [|auto].
              injection Hin as <-. right. cbn [In]. auto.
           ++ injection Hin as <-. right. cbn [In]. auto.
        -- intros d' [<-|Hd']; [exact Hd|now apply Hall].
      * auto.
    + destruct IH as (Hacc & Hnil).
      destruct (parsed_date r) as [d|]; cbn [app].
      * destruct acc as [a|]; [destruct (str_gt d a)|]; discriminate Hacc.
      * auto.
Qed.

(** What the first loop leaves: nothing when no row has a date that
    parses, and otherwise a greatest one among those that do. *)
Lemma first_pass_max (rows : list row) :
  match first_pass rows with
  | None => prod_dates rows = []
  | Some m => In m (prod_dates rows)
              /\ forall d, In d (prod_dates rows) -> str_le d m
  end.
Proof.
  unfold first_pass. pose proof (fold_max_step rows None) as H.
  destruct (fold_left max_step rows None) as [m|].
  - destruct H as ([E|Hin] & _ & Hall); [discriminate E|auto].
  - apply H.
Qed.

Lemma prod_dates_truthy (rows : list row) (d : string) :
  In d (prod_dates rows) -> truthy d = true.
Proof.
  unfold prod_dates. rewrite in_flat_map. intros (r & _ & Hd).
  unfold parsed_date in Hd.
  destruct (_get_prod_date r) as [[d'|]|e]; try now destruct Hd.
  destruct (truthy d') eqn:T; [|now destruct Hd].
  destruct Hd as [<-|[]]. exact T.
Qed.

Lemma end_date_max (rows : list row) (rsd : string) :
  let red := end_date (first_pass rows) rsd in
  (prod_dates rows = [] -> red = rsd)
  /\ (prod_dates rows <> [] ->
      In red (prod_dates rows) /\ forall d, In d (prod_dates rows) -> str_le d red).
Proof.
  cbv zeta. pose proof (first_pass_max rows) as H. unfold end_date.
  destruct (first_pass rows) as [m|].
  - destruct H as [Hin Hall].
    rewrite (prod_dates_truthy rows m Hin). split; [|auto].
    intros E. rewrite E in Hin. destruct Hin.
  - split; [reflexivity|]. intros N. now elim N.
Qed.

End FirstPass.

(** ** What the second pass stores *)

Section Stored.

Context {P : FileProcessor}.
Variables (name : string) (now : nat -> datetime) (rsd red dep : string).

(** [data] is the record the mapping gives for one of [rows]. *)
Definition mapped (rows : list row) (data : DispatchDataCreate.t) : Prop :=
  exists r t cr,
    In r rows /\ _map_row_to_data name t r rsd red dep cr = Ok (Some data).

Lemma process_row_db (n : nat) (r : row) (st : state) :
  db (process_row name now rsd red dep n r st) = db st
  \/ exists cr data,
       _map_row_to_data name (now n) r rsd red dep cr = Ok (Some data)
       /\ db (process_row name now rsd red dep n r st) = db st ++ [stored data].
Proof.
  unfold process_row.
  destruct (_get_report_creation_datetime r) as [cr|e]; cbn [bind]; [|auto].
  destruct (_map_row_to_data _ _ _ _ _ _ _) as [[data|]|e] eqn:Hm;
    cbn [bind]; auto.
  destruct (row_exists _ _); [auto|].
  rewrite insert_data_cases.
  destruct (is_nan _ || is_nan _); cbn [bind db]; [auto|].
  right. exists cr, data. auto.
Qed.

Lemma process_rows_db (rows : list row) :
  forall n st,
  exists added,
    db (process_rows name now rsd red dep n rows st) = db st ++ added
    /\ Forall (fun x => exists data, mapped rows data /\ x = stored data) added.
Proof.
  induction rows as [|r rows IH]; intros n st; cbn [process_rows].
  - exists []. now rewrite app_nil_r.
  - destruct (IH (S n) (process_row name now rsd red dep n r st))
      as (added & Hdb & Hall).
    assert (Hweak : Forall (fun x => exists data, mapped (r :: rows) data
                                                  /\ x = stored data) added).
    { eapply Forall_impl; [|exact Hall].
      intros x (data & (r' & t & cr & Hin & Hm) & ->).
      exists data. split; [|reflexivity].
      exists r', t, cr. cbn [In]. auto. }
    destruct (process_row_db n r st) as [E|(cr & data & Hm & E)];
      rewrite Hdb, E.
    + exists added. auto.
    + exists (stored data :: added). rewrite <- app_assoc. split; [reflexivity|].
      constructor; [|exact Hweak].
      exists data. split; [|reflexivity].
      exists r, (now n), cr. cbn [In]. auto.
Qed.

End Stored.


Ltac open_mapping H :=
  repeat match type of H with
         | mapping (bind ?a _) = Ok _ =>
             destruct a eqn:?; cbn [bind mapping] in H; [|discriminate H]
         | mapping (match ?a with _ => _ end) = Ok _ =>
             destruct a eqn:?; cbn [bind mapping] in H; try discriminate H
         | mapping (if ?a then _ else _) = Ok _ =>
             destruct a eqn:?; cbn [bind mapping] in H; try discriminate H
         | (if ?a then _ else _) = Ok _ =>
             destruct a eqn:?; try discriminate H
         end.


Lemma process_rows_total {P : FileProcessor} name now rsd red dep (rows : list row) :
  forall n st,
    Summary.total_rows (summary (process_rows name now rsd red dep n rows st))
    = (Summary.total_rows (summary st) + Z.of_nat (List.length rows))%Z.
Proof.
  induction rows as [|r rows IH]; intros n st; cbn [process_rows List.length].
  - lia.
  - rewrite IH.
    destruct (process_row_outcome name now rsd red dep n r st) as [E|[E|[E|E]]];
      cbv zeta in E; rewrite E; cbn; lia.
Qed.

Lemma process_file_ok (l : layout) name now file st s st' :
  @process_file (processor l) name now file st = (Ok s, st') ->
  exists r1 r2 rsd dep,
    file = r1 :: r2 :: skipn 2 file
    /\ @_extract_metadata (processor l) file = Ok ((rsd, dep), skipn 2 file)
    /\ st' = @process_rows (processor l) name now rsd
               (@end_date (@first_pass (processor l) (skipn 2 file)) rsd) dep 1
               (skipn 2 file) st
    /\ s = summary st'.
Proof.
  unfold process_file. rewrite extract_metadata_of.
  destruct (extract_metadata file) as [[[rsd dep] rest]|e] eqn:He;
    cbn [bind]; [|discriminate].
  rewrite extract_metadata_cases in He.
  destruct file as [|r1 [|r2 rows]];
    repeat match type of He with
           | context [match ?x with _ => _ end] => destruct x
           end; try discriminate He.
  injection He as -> -> ->.
  cbn [skip2 next bind snd fst skipn]. intros H. injection H as <- <-.
  exists r1, r2, rsd, dep. auto.
Qed.


(** ** Re-ingestion *)

(** [data] as another run builds it: with that run's file name and clock. *)
Definition retag (name : string) (t : datetime) (data : DispatchDataCreate.t)
  : DispatchDataCreate.t :=
  DispatchDataCreate.mk
    (DispatchDataCreate.file_type data) (DispatchDataCreate.work_cell data)
    (DispatchDataCreate.job_number data) (DispatchDataCreate.part_number data)
    (DispatchDataCreate.comments data) (DispatchDataCreate.job_qty data)
    (DispatchDataCreate.bal_qty data) (DispatchDataCreate.code data)
    (DispatchDataCreate.prod_date data) (DispatchDataCreate.est_compl_date data)
    (DispatchDataCreate.and_on data) (DispatchDataCreate.m_pc data)
    (DispatchDataCreate.prod_hr data) (DispatchDataCreate.report_start_date data)
    (DispatchDataCreate.report_end_date data)
    (DispatchDataCreate.report_department data)
    (DispatchDataCreate.report_creation_datetime data)
    name (DispatchDataCreate.processing_status data) t.

Definition lift {A B : Type} (f : A -> B) (r : result (option A)) : result (option B) :=
  match r with
  | Ok (Some a) => Ok (Some (f a))
  | Ok None => Ok None
  | Raise e => Raise e
  end.

Lemma new_retag ft wc jn pn cm jq bq cd pd ecd ao mp ph rsd red dep rcd ps
    n1 t1 n2 t2 :
  DispatchDataCreate.new ft wc jn pn cm jq bq cd pd ecd ao mp ph rsd red dep
    rcd n2 ps t2
  = match DispatchDataCreate.new ft wc jn pn cm jq bq cd pd ecd ao mp ph rsd
            red dep rcd n1 ps t1 with
    | Ok d => Ok (retag n2 t2 d)
    | Raise e => Raise e
    end.
Proof.
  unfold DispatchDataCreate.new.
  repeat match goal with
         | |- DispatchDataCreate.validation (bind ?a _) = _ =>
             destruct a; cbn [bind DispatchDataCreate.validation];
             [|reflexivity]
         end.
  reflexivity.
Qed.

Ltac walk_mapping :=
  repeat match goal with
         | |- mapping (bind ?a _) = _ =>
             destruct a; cbn [bind mapping lift]; [|reflexivity]
         | |- mapping (match ?a with _ => _ end) = _ =>
             destruct a; cbn [bind mapping lift]; try reflexivity
         | |- mapping (if ?a then _ else _) = _ =>
             destruct a; cbn [bind mapping lift]; try reflexivity
         | |- (if ?a then _ else _) = _ =>
             destruct a; cbn [lift]; try reflexivity
         end.

(** The mapping of a row depends on the file's name and on the clock only
    through the two fields they fill. *)
Lemma map_row_retag (l : layout) n1 t1 n2 t2 r rsd red dep cr :
  @_map_row_to_data (processor l) n2 t2 r rsd red dep cr
  = lift (retag n2 t2) (@_map_row_to_data (processor l) n1 t1 r rsd red dep cr).
Proof.
  destruct l;
    [ change (AssyFileProcessor._map_row_to_data n2 t2 r rsd red dep cr
              = lift (retag n2 t2)
                  (AssyFileProcessor._map_row_to_data n1 t1 r rsd red dep cr));
      unfold AssyFileProcessor._map_row_to_data
    | change (FabcutFileProcessor._map_row_to_data n2 t2 r rsd red dep cr
              = lift (retag n2 t2)
                  (FabcutFileProcessor._map_row_to_data n1 t1 r rsd red dep cr));
      unfold FabcutFileProcessor._map_row_to_data
    | change (LPFileProcessor._map_row_to_data n2 t2 r rsd red dep cr
              = lift (retag n2 t2)
                  (LPFileProcessor._map_row_to_data n1 t1 r rsd red dep cr));
      unfold LPFileProcessor._map_row_to_data ];
    walk_mapping;
    match goal with
    | |- context [DispatchDataCreate.new ?ft ?wc ?jn ?pn ?cm ?jq ?bq ?cd ?pd ?ecd
                    ?ao ?mp ?ph ?a ?b ?c ?rcd n2 ?ps t2] =>
        rewrite (new_retag ft wc jn pn cm jq bq cd pd ecd ao mp ph a b c rcd ps
                   n1 t1 n2 t2)
    end;
    destruct (DispatchDataCreate.new _ _ _ _ _ _ _ _ _ _ _ _ _ _ _ _ _ _ _ _);
    reflexivity.
Qed.

(** *** The existence check *)

(** The parameters [row_exists] binds for a record. *)
Definition key (data : DispatchDataCreate.t) : list sqlval :=
  map (fun k => adapt (getitem (DispatchDataCreate.model_dump data) k))
      row_exists_keys.

(** A stored row none of whose twelve key columns is NULL. *)
Definition keyed (x : stored_row) : bool :=
  forallb (fun c => negb (is_null (column x c))) row_exists_columns.

(** The check on one stored row. *)
Definition matches_key (k : list sqlval) (x : stored_row) : bool :=
  forallb (fun cp => sql_eq (column x (fst cp)) (snd cp))
          (combine row_exists_columns k).

Lemma row_exists_any (data : DispatchDataCreate.t) (db : store) :
  row_exists (DispatchDataCreate.model_dump data) db
  = existsb (matches_key (key data)) db.
Proof.
  unfold row_exists, execute_count. fold (key data). fold (matches_key (key data)).
  induction db as [|x db IH]; [reflexivity|].
  cbn [filter existsb]. destruct (matches_key (key data) x); [reflexivity|].
  exact IH.
Qed.

Lemma row_exists_app (data : DispatchDataCreate.t) (db1 db2 : store) :
  row_exists (DispatchDataCreate.model_dump data) (db1 ++ db2)
  = row_exists (DispatchDataCreate.model_dump data) db1
    || row_exists (DispatchDataCreate.model_dump data) db2.
Proof. rewrite !row_exists_any. apply existsb_app. Qed.

Lemma float_eqb_refl (x : float) : is_nan x = false -> float_eqb x x = true.
Proof.
  unfold float_eqb, SFeqb.
  destruct x as [s|s| |s m e]; cbn; intros H; try discriminate H.
  - reflexivity.
  - now destruct s.
  - rewrite Z.compare_refl, Pos.compare_cont_refl. now destruct s.
Qed.

Lemma sql_eq_adapt_refl (v : value) :
  is_null (adapt v) = false -> sql_eq (adapt v) (adapt v) = true.
Proof.
  destruct v as [|b|z|x|s|d|dt]; cbn [adapt is_null sql_eq]; try discriminate.
  - intros _. apply Z.eqb_refl.
  - intros _. apply Z.eqb_refl.
  - destruct (is_nan x) eqn:N; cbn [is_null sql_eq]; [discriminate|]. intros _.
    now apply float_eqb_refl.
  - intros _. apply String.eqb_refl.
  - intros _. apply String.eqb_refl.
  - intros _. apply String.eqb_refl.
Qed.

(** The first seventeen columns of the INSERT hold their like-named fields. *)
Lemma stored_aligned (data : DispatchDataCreate.t) (c : string) :
  In c (firstn 17 insert_columns) ->
  column (stored data) c = adapt (getitem (DispatchDataCreate.model_dump data) c).
Proof.
  intros Hc. cbn in Hc.
  repeat (destruct Hc as [<-|Hc]; [reflexivity|]). destruct Hc.
Qed.

Lemma key_column_aligned (data : DispatchDataCreate.t) (c : string) :
  In c row_exists_columns ->
  column (stored data) c = adapt (getitem (DispatchDataCreate.model_dump data) c).
Proof.
  intros Hc. apply stored_aligned. cbn in Hc |- *. tauto.
Qed.

Lemma matches_key_forallb (data : DispatchDataCreate.t) (x : stored_row) :
  matches_key (key data) x
  = forallb (fun c => sql_eq (column x c)
                        (adapt (getitem (DispatchDataCreate.model_dump data) c)))
            row_exists_columns.
Proof. reflexivity. Qed.

(** A stored record with no NULL key column is found by the check. *)
Lemma stored_found (data : DispatchDataCreate.t) :
  keyed (stored data) = true -> matches_key (key data) (stored data) = true.
Proof.
  rewrite matches_key_forallb. unfold keyed. rewrite !forallb_forall.
  intros H c Hc. specialize (H c Hc). rewrite negb_true_iff in H.
  rewrite (key_column_aligned data c Hc) in *. now apply sql_eq_adapt_refl.
Qed.

(** The file name and the clock are not part of what the check compares,
    nor of what decides whether the INSERT succeeds. *)
Lemma key_retag n t data : key (retag n t data) = key data.
Proof. reflexivity. Qed.

Lemma keyed_retag n t data : keyed (stored (retag n t data)) = keyed (stored data).
Proof. reflexivity. Qed.

Lemma forallb_ext_in {A : Type} (f g : A -> bool) (l : list A) :
  (forall a, In a l -> f a = g a) -> forallb f l = forallb g l.
Proof.
  induction l as [|a l IH]; intros H; cbn [forallb]; [reflexivity|].
  rewrite (H a), IH; cbn [In]; auto. intros b Hb. apply H. cbn [In]. auto.
Qed.

Lemma matches_key_retag k n t data :
  matches_key k (stored (retag n t data)) = matches_key k (stored data).
Proof.
  unfold matches_key. apply forallb_ext_in. intros [c p] Hin.
  apply in_combine_l in Hin. cbn [fst snd]. cbn in Hin.
  repeat (destruct Hin as [<-|Hin]; [reflexivity|]). destruct Hin.
Qed.

Lemma forallb_false_in {A : Type} (f : A -> bool) (l : list A) (a : A) :
  In a l -> f a = false -> forallb f l = false.
Proof.
  intros Hin Hf. destruct (forallb f l) eqn:E; [|reflexivity].
  rewrite forallb_forall in E. now rewrite (E a Hin) in Hf.
Qed.

Lemma sql_eq_null (v : sqlval) : sql_eq v SNull = false.
Proof. now destruct v. Qed.

(** A record the INSERT rejects has a NULL among its key parameters, and
    the check finds no row for it. *)
Lemma rejected_not_found (data : DispatchDataCreate.t) (x : stored_row) :
  is_nan (DispatchDataCreate.job_qty data) || is_nan (DispatchDataCreate.bal_qty data)
  = true ->
  matches_key (key data) x = false.
Proof.
  intros H. rewrite matches_key_forallb. apply orb_true_iff in H.
  destruct H as [H|H].
  - apply (forallb_false_in _ _ "job_qty"); [cbn; tauto|].
    change (getitem (DispatchDataCreate.model_dump data) "job_qty")
      with (VFloat (DispatchDataCreate.job_qty data)).
    cbn [adapt]. rewrite H. apply sql_eq_null.
  - apply (forallb_false_in _ _ "bal_qty"); [cbn; tauto|].
    change (getitem (DispatchDataCreate.model_dump data) "bal_qty")
      with (VFloat (DispatchDataCreate.bal_qty data)).
    cbn [adapt]. rewrite H. apply sql_eq_null.
Qed.

(** *** Two runs over the same rows *)

Inductive kind : Type := Skipped | Failed | Mapped.

Definition kind_eqb (a b : kind) : bool :=
  match a, b with
  | Skipped, Skipped | Failed, Failed | Mapped, Mapped => true
  | _, _ => false
  end.

(** The INSERT of a record succeeds (see [insert_data_cases]). *)
Definition insertable (data : DispatchDataCreate.t) : bool :=
  negb (is_nan (DispatchDataCreate.job_qty data)
        || is_nan (DispatchDataCreate.bal_qty data)).

Ltac counters :=
  unfold incr_successful, incr_duplicate, incr_error, incr_skipped, incr_total;
  cbn [kind_eqb summary db Summary.total_rows Summary.successful_rows
       Summary.duplicate_rows Summary.error_rows Summary.skipped_rows].

Section TwoRuns.

Context {P : FileProcessor}.
Variables (rsd red dep : string).

Hypothesis map_retag :
  forall n1 t1 n2 t2 r cr,
    _map_row_to_data n2 t2 r rsd red dep cr
    = lift (retag n2 t2) (_map_row_to_data n1 t1 r rsd red dep cr).

(** A run of reference, to name the record of a row. *)
Variables (name0 : string) (t0 : datetime).

Definition attempt (r : row) : result (option DispatchDataCreate.t) :=
  cr <- _get_report_creation_datetime r ;;
  _map_row_to_data name0 t0 r rsd red dep cr.

Definition kind_of (r : row) : kind :=
  match attempt r with
  | Raise _ => Failed
  | Ok None => Skipped
  | Ok (Some d) => if insertable d then Mapped else Failed
  end.

Definition count (k : kind) (rows : list row) : Z :=
  Z.of_nat (List.length (filter (fun r => kind_eqb (kind_of r) k) rows)).

Lemma count_cons (k : kind) (r : row) (rows : list row) :
  count k (r :: rows)
  = ((if kind_eqb (kind_of r) k then 1 else 0) + count k rows)%Z.
Proof.
  unfold count. cbn [filter].
  destruct (kind_eqb (kind_of r) k); cbn [List.length]; lia.
Qed.

Variables (name : string) (now : nat -> datetime).

(** One row of any run, by the record the reference run gives it. *)
Lemma process_row_cases (n : nat) (r : row) (st : state) :
  process_row name now rsd red dep n r st =
  let s := incr_total (summary st) in
  match attempt r with
  | Raise _ => mkState (incr_error s) (db st)
  | Ok None => mkState (incr_skipped s) (db st)
  | Ok (Some d) =>
      if existsb (matches_key (key d)) (db st)
      then mkState (incr_duplicate s) (db st)
      else if insertable d
           then mkState (incr_successful s)
                  (db st ++ [stored (retag name (now n) d)])
           else mkState (incr_error s) (db st)
  end.
Proof.
  unfold process_row, attempt. cbv zeta.
  destruct (_get_report_creation_datetime r) as [cr|e]; cbn [bind]; [|reflexivity].
  rewrite (map_retag name0 t0 name (now n)).
  destruct (_map_row_to_data name0 t0 r rsd red dep cr) as [[d|]|e];
    cbn [lift bind]; try reflexivity.
  rewrite row_exists_any, key_retag.
  destruct (existsb _ _); [reflexivity|].
  rewrite insert_data_cases. unfold insertable.
  change (DispatchDataCreate.job_qty (retag name (now n) d))
    with (DispatchDataCreate.job_qty d).
  change (DispatchDataCreate.bal_qty (retag name (now n) d))
    with (DispatchDataCreate.bal_qty d).
  destruct (is_nan _ || is_nan _); reflexivity.
Qed.

Lemma existsb_rejected (d : DispatchDataCreate.t) (db : store) :
  insertable d = false -> existsb (matches_key (key d)) db = false.
Proof.
  unfold insertable. rewrite negb_false_iff. intros H.
  induction db as [|x db IH]; [reflexivity|].
  cbn [existsb]. now rewrite (rejected_not_found d x H), IH.
Qed.

(** The counters of a run, whatever the store holds. *)
Lemma run_counts (rows : list row) :
  forall n st,
    let st' := process_rows name now rsd red dep n rows st in
    (Summary.successful_rows (summary st') + Summary.duplicate_rows (summary st')
     = Summary.successful_rows (summary st) + Summary.duplicate_rows (summary st)
       + count Mapped rows)%Z
    /\ Summary.error_rows (summary st')
       = (Summary.error_rows (summary st) + count Failed rows)%Z
    /\ Summary.skipped_rows (summary st')
       = (Summary.skipped_rows (summary st) + count Skipped rows)%Z.
Proof.
  induction rows as [|r rows IH]; intros n st; cbv zeta; cbn [process_rows].
  - unfold count. cbn. lia.
  - specialize (IH (S n) (process_row name now rsd red dep n r st)).
    cbv zeta in IH. destruct IH as (I1 & I2 & I3).
    rewrite I1, I2, I3, !count_cons, process_row_cases. cbv zeta.
    unfold kind_of.
    destruct (attempt r) as [[d|]|e]; cbn [kind_eqb summary];
      try (counters; lia).
    destruct (insertable d) eqn:Hi.
    + destruct (existsb _ _); counters; lia.
    + rewrite (existsb_rejected d (db st) Hi). counters. lia.
Qed.

(** A run on a store that already holds every record of the rows. *)
Lemma rerun_counts (rows : list row) :
  forall n st,
    (forall r d, In r rows -> attempt r = Ok (Some d) -> insertable d = true ->
                 existsb (matches_key (key d)) (db st) = true) ->
    let st' := process_rows name now rsd red dep n rows st in
    db st' = db st
    /\ Summary.successful_rows (summary st') = Summary.successful_rows (summary st)
    /\ Summary.duplicate_rows (summary st')
       = (Summary.duplicate_rows (summary st) + count Mapped rows)%Z.
Proof.
  induction rows as [|r rows IH]; intros n st Hall; cbv zeta; cbn [process_rows].
  - unfold count. cbn. repeat split; lia.
  - assert (Hrow : db (process_row name now rsd red dep n r st) = db st
                   /\ Summary.successful_rows
                        (summary (process_row name now rsd red dep n r st))
                      = Summary.successful_rows (summary st)
                   /\ Summary.duplicate_rows
                        (summary (process_row name now rsd red dep n r st))
                      = (Summary.duplicate_rows (summary st)
                         + if kind_eqb (kind_of r) Mapped then 1 else 0)%Z).
    { rewrite process_row_cases. cbv zeta. unfold kind_of.
      pose proof (Hall r) as Hr.
      destruct (attempt r) as [[d|]|e]; cbn [kind_eqb];
        try (counters; repeat split; lia).
      destruct (insertable d) eqn:Hi.
      - rewrite (Hr d); cbn [In]; auto; counters; repeat split; lia.
      - rewrite (existsb_rejected d (db st) Hi). counters. repeat split; lia. }
    destruct Hrow as (H1 & H2 & H3).
    specialize (IH (S n) (process_row name now rsd red dep n r st)).
    cbv zeta in IH. destruct IH as (I1 & I2 & I3).
    { intros r' d Hin. rewrite H1. apply Hall. cbn [In]. auto. }
    rewrite I1, I2, I3, H1, H2, H3, count_cons. repeat split; lia.
Qed.

(** After a run, the store holds the record of every row that has one,
    provided the rows the run added have no NULL key column. *)
Lemma run_found (rows : list row) :
  forall n st added,
    db (process_rows name now rsd red dep n rows st) = db st ++ added ->
    forallb keyed added = true ->
    forall r d, In r rows -> attempt r = Ok (Some d) -> insertable d = true ->
                existsb (matches_key (key d)) (db st ++ added) = true.
Proof.
  induction rows as [|r rows IH]; intros n st added Hdb Hk r' d Hin Ha Hi;
    [destruct Hin|].
  cbn [process_rows] in Hdb.
  destruct (process_rows_db name now rsd red dep rows (S n)
              (process_row name now rsd red dep n r st)) as (rest & Hrest & _).
  rewrite Hrest in Hdb.
  pose proof (process_row_cases n r st) as Hrow. cbv zeta in Hrow.
  destruct Hin as [<-|Hin].
  - rewrite Ha, Hi in Hrow.
    destruct (existsb (matches_key (key d)) (db st)) eqn:Hex.
    + rewrite existsb_app, Hex. reflexivity.
    + rewrite Hrow in Hdb. cbn [db] in Hdb. rewrite <- app_assoc in Hdb.
      apply app_inv_head in Hdb. subst added.
      cbn [app forallb] in Hk. apply andb_true_iff in Hk. destruct Hk as [Hk _].
      rewrite keyed_retag in Hk. apply stored_found in Hk.
      rewrite existsb_app. cbn [app existsb].
      rewrite matches_key_retag, Hk. cbn. apply orb_true_r.
  - assert (Hstep : exists pre, db (process_row name now rsd red dep n r st)
                                = db st ++ pre /\ added = pre ++ rest).
    { destruct (attempt r) as [[d0|]|e];
        try (exists []; rewrite Hrow in *; cbn [db] in *;
             rewrite app_nil_r; split; [reflexivity|];
             now apply app_inv_head in Hdb).
      destruct (existsb (matches_key (key d0)) (db st));
        [|destruct (insertable d0)];
        try (exists []; rewrite Hrow in *; cbn [db] in *;
             rewrite app_nil_r; split; [reflexivity|];
             now apply app_inv_head in Hdb).
      exists [stored (retag name (now n) d0)]. rewrite Hrow in *. cbn [db] in *.
      split; [reflexivity|]. rewrite <- app_assoc in Hdb.
      now apply app_inv_head in Hdb. }
    destruct Hstep as (pre & Hpre & ->).
    rewrite forallb_app in Hk. apply andb_true_iff in Hk. destruct Hk as [_ Hk].
    rewrite app_assoc, <- Hpre.
    apply (IH (S n) _ rest Hrest Hk r' d Hin Ha Hi).
Qed.

End TwoRuns.

(** The rows a run added to the store it started with. *)
Definition added_rows (before after : store) : store :=
  skipn (List.length before) after.

Lemma added_rows_app (before added : store) :
  added_rows before (before ++ added) = added.
Proof.
  unfold added_rows. rewrite skipn_app, Nat.sub_diag, skipn_all. reflexivity.
Qed.

(** C1, as the code has it.  Process a file whose metadata extraction
    succeeds, and suppose that no row this run stored has a NULL in one of
    the twelve key columns.  Then a second run over the same rows against
    the store the first left (under any file name and clock) returns a
    summary, stores nothing, has [successful_rows] 0 and counts as
    duplicates the rows the first run counted as successful or as
    duplicates; errors, skips and the total are the same.  In any run, a
    row whose record the existence check finds is counted a duplicate and
    not inserted; and a stored record with no NULL key column is found. *)
Theorem reingestion_counts (l : layout) (name1 name2 : string)
    (now1 now2 : nat -> datetime) (t1 t2 : datetime) (file : list row)
    (db0 : store) (s1 : Summary.t) (st1 : state) :
  @process_file (processor l) name1 now1 file (@init (processor l) name1 t1 db0)
  = (Ok s1, st1) ->
  forallb keyed (added_rows db0 (db st1)) = true ->
  (exists s2,
      @process_file (processor l) name2 now2 file
        (@init (processor l) name2 t2 (db st1))
      = (Ok s2, mkState s2 (db st1))
      /\ Summary.successful_rows s2 = 0%Z
      /\ Summary.duplicate_rows s2
         = (Summary.successful_rows s1 + Summary.duplicate_rows s1)%Z
      /\ Summary.error_rows s2 = Summary.error_rows s1
      /\ Summary.skipped_rows s2 = Summary.skipped_rows s1
      /\ Summary.total_rows s2 = Summary.total_rows s1)
  /\ (forall rsd red dep n r st cr data,
        @_get_report_creation_datetime (processor l) r = Ok cr ->
        @_map_row_to_data (processor l) name2 (now2 n) r rsd red dep cr
        = Ok (Some data) ->
        row_exists (DispatchDataCreate.model_dump data) (db st) = true ->
        @process_row (processor l) name2 now2 rsd red dep n r st
        = mkState (incr_duplicate (incr_total (summary st))) (db st))
  /\ (forall data db,
        keyed (stored data) = true ->
        row_exists (DispatchDataCreate.model_dump data) (db ++ [stored data])
        = true).
Proof.
  intros Hrun Hkeyed. split; [|split].
  - apply process_file_ok in Hrun.
    destruct Hrun as (r1 & r2 & rsd & dep & Hfile & Hmeta & Hst & Hs).
    remember (skipn 2 file) as rows eqn:Hrows.
    remember (@end_date (@first_pass (processor l) rows) rsd) as red eqn:Hred.
    pose proof (fun n1 t1 n2 t2 r cr =>
                  map_row_retag l n1 t1 n2 t2 r rsd red dep cr) as Hretag.
    destruct (@process_rows_db (processor l) name1 now1 rsd red dep rows 1
                (@init (processor l) name1 t1 db0)) as (added & Hdb & _).
    rewrite <- Hst in Hdb. cbn [init db] in Hdb.
    rewrite Hdb, added_rows_app in Hkeyed.
    pose proof (@run_found (processor l) rsd red dep Hretag name1 t1 name1 now1
                  rows 1 (@init (processor l) name1 t1 db0) added) as Hfound.
    rewrite <- Hst in Hfound. cbn [init db] in Hfound.
    specialize (Hfound Hdb Hkeyed). rewrite <- Hdb in Hfound.
    pose proof (@run_counts (processor l) rsd red dep Hretag name1 t1 name1 now1
                  rows 1 (@init (processor l) name1 t1 db0)) as Hc1.
    cbv zeta in Hc1. rewrite <- Hst, <- Hs in Hc1.
    pose proof (@process_rows_total (processor l) name1 now1 rsd red dep rows 1
                  (@init (processor l) name1 t1 db0)) as T1.
    rewrite <- Hst, <- Hs in T1.
    remember (@process_rows (processor l) name2 now2 rsd red dep 1 rows
                (@init (processor l) name2 t2 (db st1))) as st2 eqn:Hst2.
    pose proof (@rerun_counts (processor l) rsd red dep Hretag name1 t1 name2 now2
                  rows 1 (@init (processor l) name2 t2 (db st1)) Hfound) as Hr.
    cbv zeta in Hr. rewrite <- Hst2 in Hr.
    pose proof (@run_counts (processor l) rsd red dep Hretag name1 t1 name2 now2
                  rows 1 (@init (processor l) name2 t2 (db st1))) as Hc2.
    cbv zeta in Hc2. rewrite <- Hst2 in Hc2.
    pose proof (@process_rows_total (processor l) name2 now2 rsd red dep rows 1
                  (@init (processor l) name2 t2 (db st1))) as T2.
    rewrite <- Hst2 in T2.
    unfold init, Summary.new in Hc1, Hc2, Hr, T1, T2.
    cbn [summary db Summary.total_rows Summary.successful_rows
         Summary.duplicate_rows Summary.error_rows Summary.skipped_rows]
      in Hc1, Hc2, Hr, T1, T2.
    destruct Hc1 as (C1 & C2 & C3). destruct Hr as (R1 & R2 & R3).
    destruct Hc2 as (D1 & D2 & D3).
    exists (summary st2). split.
    + unfold process_file. rewrite Hmeta. cbn [bind fst snd]. rewrite Hfile.
      cbn [skip2 next bind snd]. rewrite <- Hred, <- Hst2.
      f_equal. destruct st2 as [s2 d2]. cbn [db summary] in *. now rewrite R1.
    + repeat split; lia.
  - intros rsd red dep n r st cr data Hcr Hm Hex.
    unfold process_row. rewrite Hcr. cbn [bind]. rewrite Hm. cbn [bind].
    rewrite Hex. reflexivity.
  - intros data db Hk. rewrite row_exists_app, !row_exists_any. cbn [existsb].
    rewrite (stored_found data Hk). cbn. apply orb_true_r.
Qed.

Lemma reingestion_counts_witness :
  let run1 := @process_file (processor Assy) "assy.csv" Sample.clock
                Sample.assy_file
                (@init (processor Assy) "assy.csv" Sample.started []) in
  let s1 := summary (snd run1) in
  (Summary.successful_rows s1 = 1 /\ Summary.duplicate_rows s1 = 1)%Z
  /\ exists s2,
       @process_file (processor Assy) "copy.csv" Sample.clock Sample.assy_file
         (@init (processor Assy) "copy.csv" Sample.started (db (snd run1)))
       = (Ok s2, mkState s2 (db (snd run1)))
       /\ Summary.successful_rows s2 = 0%Z
       /\ Summary.duplicate_rows s2 = 2%Z.
Proof.
  intros run1 s1. split; [split; vm_compute; reflexivity|].
  destruct (reingestion_counts Assy "assy.csv" "copy.csv" Sample.clock Sample.clock
              Sample.started Sample.started Sample.assy_file [] s1 (snd run1))
    as [(s2 & Hrun & Hs & Hd & _) _].
  - vm_compute. reflexivity.
  - vm_compute. reflexivity.
  - exists s2. split; [exact Hrun|]. split; [exact Hs|].
    rewrite Hd. vm_compute. reflexivity.
Defined.

(** C1 as stated fails on a file that holds the same row twice: the first
    run stores it once and counts the second occurrence as a duplicate, so
    the second run counts two duplicates, not the one row the first run
    counted as successful. *)
Lemma reingestion_counterexample :
  ~ (forall (file : list row) (name : string) (now : nat -> datetime)
            (t : datetime) (db0 : store) (s1 s2 : Summary.t) (st1 st2 : state),
        @process_file (processor Assy) name now file
          (@init (processor Assy) name t db0) = (Ok s1, st1) ->
        @process_file (processor Assy) name now file
          (@init (processor Assy) name t (db st1)) = (Ok s2, st2) ->
        Summary.successful_rows s2 = 0%Z
        /\ Summary.duplicate_rows s2 = Summary.successful_rows s1).
Proof.
  intros H.
  pose (run1 := @process_file (processor Assy) "assy.csv" Sample.clock
                  Sample.assy_file
                  (@init (processor Assy) "assy.csv" Sample.started [])).
  pose (run2 := @process_file (processor Assy) "assy.csv" Sample.clock
                  Sample.assy_file
                  (@init (processor Assy) "assy.csv" Sample.started
                     (db (snd run1)))).
  destruct (H Sample.assy_file "assy.csv" Sample.clock Sample.started []
              (summary (snd run1)) (summary (snd run2)) (snd run1) (snd run2))
    as [_ Hd].
  - vm_compute. reflexivity.
  - vm_compute. reflexivity.
  - vm_compute in Hd. discriminate Hd.
Qed.

(** The existence check compares with [=], which is never true of a
    NULL: a Fabcut record, whose [est_compl_date] and [and_on] are always
    [None], is not found again, and a second run stores the row anew. *)
Example fabcut_reingestion :
  let run1 := @process_file (processor Fabcut) "fabcut.csv" Sample.clock
                Sample.fabcut_file
                (@init (processor Fabcut) "fabcut.csv" Sample.started []) in
  let run2 := @process_file (processor Fabcut) "fabcut.csv" Sample.clock
                Sample.fabcut_file
                (@init (processor Fabcut) "fabcut.csv" Sample.started
                   (db (snd run1))) in
  (Summary.successful_rows (summary (snd run1)) = 1
   /\ Summary.successful_rows (summary (snd run2)) = 1
   /\ Summary.duplicate_rows (summary (snd run2)) = 0)%Z
  /\ List.length (db (snd run2)) = 2%nat
  /\ map (fun r => (column r "est_compl_date", column r "and_on"))
         (db (snd run1)) = [(SNull, SNull)].
Proof. vm_compute. repeat split. Qed.

(** ** ISO dates: the text of a date reads back as the date *)

Lemma digit_char_digit (v : Z) :
  (0 <= v <= 9)%Z -> is_digit (digit_char v) = true /\ digit_val (digit_char v) = v.
Proof.
  intros H.
  assert (E : (v = 0 \/ v = 1 \/ v = 2 \/ v = 3 \/ v = 4 \/ v = 5 \/ v = 6
               \/ v = 7 \/ v = 8 \/ v = 9)%Z) by lia.
  repeat (destruct E as [->|E]; [split; reflexivity|]).
  subst v. split; reflexivity.
Qed.

Lemma zpad_S (w : nat) (n : Z) :
  zpad (S w) n = zpad w (n / 10) ++ [digit_char (n mod 10)].
Proof. reflexivity. Qed.

Lemma length_zpad (w : nat) : forall n, List.length (zpad w n) = w.
Proof.
  induction w as [|w IH]; intros n; [reflexivity|].
  rewrite zpad_S, length_app, IH. cbn. lia.
Qed.

Lemma zpad_digits (w : nat) : forall n, forallb is_digit (zpad w n) = true.
Proof.
  induction w as [|w IH]; intros n; [reflexivity|].
  rewrite zpad_S, forallb_app, IH. cbn [forallb andb].
  destruct (digit_char_digit (n mod 10)) as [H _].
  - pose proof (Z.mod_pos_bound n 10). lia.
  - now rewrite H.
Qed.

Lemma zpad_one (n : Z) : exists a, zpad 1 n = [a] /\ is_digit a = true.
Proof.
  pose proof (length_zpad 1 n) as Hl. pose proof (zpad_digits 1 n) as Hd.
  destruct (zpad 1 n) as [|a [|]]; try discriminate Hl.
  cbn [forallb] in Hd. rewrite !andb_true_iff in Hd.
  exists a. tauto.
Qed.

Lemma zpad_two (n : Z) :
  exists a b, zpad 2 n = [a; b] /\ is_digit a = true /\ is_digit b = true.
Proof.
  pose proof (length_zpad 2 n) as Hl. pose proof (zpad_digits 2 n) as Hd.
  destruct (zpad 2 n) as [|a [|b [|]]]; try discriminate Hl.
  cbn [forallb] in Hd. rewrite !andb_true_iff in Hd.
  exists a, b. tauto.
Qed.

Lemma zpad_four (n : Z) :
  exists a b c d,
    zpad 4 n = [a; b; c; d]
    /\ is_digit a = true /\ is_digit b = true /\ is_digit c = true
    /\ is_digit d = true.
Proof.
  pose proof (length_zpad 4 n) as Hl. pose proof (zpad_digits 4 n) as Hd.
  destruct (zpad 4 n) as [|a [|b [|c [|d [|]]]]]; try discriminate Hl.
  cbn [forallb] in Hd. rewrite !andb_true_iff in Hd.
  exists a, b, c, d. tauto.
Qed.

Lemma zpad_three (n : Z) :
  exists a b c,
    zpad 3 n = [a; b; c]
    /\ is_digit a = true /\ is_digit b = true /\ is_digit c = true.
Proof.
  pose proof (length_zpad 3 n) as Hl. pose proof (zpad_digits 3 n) as Hd.
  destruct (zpad 3 n) as [|a [|b [|c [|]]]]; try discriminate Hl.
  cbn [forallb] in Hd. rewrite !andb_true_iff in Hd.
  exists a, b, c. tauto.
Qed.

Lemma int_of_snoc (l : list ascii) (c : ascii) :
  is_digit c = true -> int_of (l ++ [c]) = (10 * int_of l + digit_val c)%Z.
Proof.
  intros H. unfold int_of. rewrite fold_left_app. cbn [fold_left]. now rewrite H.
Qed.

Lemma int_of_zpad (w : nat) :
  forall n, (0 <= n < 10 ^ Z.of_nat w)%Z -> int_of (zpad w n) = n.
Proof.
  induction w as [|w IH]; intros n Hn.
  - cbn in *. lia.
  - assert (Hm : (0 <= n mod 10 <= 9)%Z)
      by (pose proof (Z.mod_pos_bound n 10); lia).
    destruct (digit_char_digit (n mod 10) Hm) as [Hd Hv].
    rewrite zpad_S, int_of_snoc, Hv by exact Hd.
    rewrite IH.
    + pose proof (Z.div_mod n 10). lia.
    + rewrite Nat2Z.inj_succ, Z.pow_succ_r in Hn by lia.
      split; [apply Z.div_pos; lia|].
      apply Z.div_lt_upper_bound; lia.
Qed.

Lemma iso_date_match_text (y m d : list ascii) :
  List.length y = 4%nat -> List.length m = 2%nat -> List.length d = 2%nat ->
  forallb is_digit y = true -> forallb is_digit m = true ->
  forallb is_digit d = true ->
  re_fullmatch iso_date_regex (y ++ "-"%char :: m ++ "-"%char :: d)
  = Some [("Y", y); ("m", m); ("d", d)].
Proof.
  destruct y as [|y0 [|y1 [|y2 [|y3 [|]]]]]; try discriminate.
  destruct m as [|m0 [|m1 [|]]]; try discriminate.
  destruct d as [|d0 [|d1 [|]]]; try discriminate.
  intros _ _ _. cbn [forallb]. rewrite !andb_true_r, !andb_true_iff.
  intros (Y0 & Y1 & Y2 & Y3) (M0 & M1) (D0 & D1).
  unfold re_fullmatch, iso_date_regex, digits, rcat.
  cbn -[is_digit Ascii.eqb eq_ci].
  repeat (first [ rewrite Y0 | rewrite Y1 | rewrite Y2 | rewrite Y3
                | rewrite M0 | rewrite M1 | rewrite D0 | rewrite D1
                | rewrite Ascii.eqb_refl ];
          cbn -[is_digit Ascii.eqb eq_ci]).
  reflexivity.
Qed.

Lemma days_in_month_le (y m : Z) : (days_in_month y m <= 31)%Z.
Proof.
  unfold days_in_month.
  destruct (m =? 2)%Z; [destruct (is_leap y); lia|].
  destruct ((m =? 4) || (m =? 6) || (m =? 9) || (m =? 11))%Z; lia.
Qed.

Definition date_of (dt : datetime) : date := mkDate (year dt) (month dt) (day dt).

Lemma valid_datetime_date (dt : datetime) :
  valid_datetime dt = true -> valid_date (date_of dt) = true.
Proof.
  unfold valid_datetime, valid_date. cbn [date_of dyear dmonth dday].
  rewrite !andb_true_iff. tauto.
Qed.

Lemma valid_date_bounds (d : date) :
  valid_date d = true ->
  (1 <= dyear d <= 9999 /\ 1 <= dmonth d <= 12 /\ 1 <= dday d <= 31)%Z.
Proof.
  unfold valid_date. rewrite !andb_true_iff, !Z.leb_le.
  pose proof (days_in_month_le (dyear d) (dmonth d)). lia.
Qed.

Lemma date_isoformat_text (d : date) :
  valid_date d = true -> date_of_text (date_isoformat d) = Some d.
Proof.
  intros Hv. pose proof (valid_date_bounds d Hv) as (Hy & Hm & Hd).
  unfold date_of_text, date_isoformat. rewrite chars_str.
  rewrite iso_date_match_text by (apply length_zpad || apply zpad_digits).
  unfold field_or. cbn [group String.eqb Ascii.eqb Bool.eqb].
  rewrite !int_of_zpad by (cbn; lia).
  destruct d as [y m dd]. cbn [dyear dmonth dday] in *. now rewrite Hv.
Qed.

Lemma strptime_valid (s fmt : string) (dt : datetime) :
  strptime s fmt = Some dt -> valid_datetime dt = true.
Proof.
  unfold strptime. destruct (format_regex false (chars fmt)); [|discriminate].
  destruct (re_match _ _) as [[c [|]]|]; try discriminate.
  destruct (valid_datetime (fields c)) eqn:E; [|discriminate].
  intros H. now injection H as <-.
Qed.

(** ** What [parse_date] writes *)

Lemma decimal_four (y : Z) : (1000 <= y)%Z -> decimal y = zpad 4 y.
Proof.
  intros H. unfold decimal.
  destruct (Z.ltb_spec y 10); [lia|]. destruct (Z.ltb_spec y 100); [lia|].
  destruct (Z.ltb_spec y 1000); [lia|]. reflexivity.
Qed.

Lemma decimal_short (y : Z) :
  (y < 1000)%Z -> exists w, (1 <= w <= 3)%nat /\ decimal y = zpad w y.
Proof.
  intros H. unfold decimal.
  destruct (Z.ltb_spec y 10); [exists 1%nat; split; [lia|reflexivity]|].
  destruct (Z.ltb_spec y 100); [exists 2%nat; split; [lia|reflexivity]|].
  destruct (Z.ltb_spec y 1000); [exists 3%nat; split; [lia|reflexivity]|lia].
Qed.

(** For a year of four digits, [%Y-%m-%d] writes the ISO text of the
    date. *)
Lemma strftime_isoformat (dt : datetime) :
  (1000 <= year dt)%Z -> strftime dt "%Y-%m-%d" = date_isoformat (date_of dt).
Proof.
  intros H. rewrite strftime_ymd, decimal_four by exact H. reflexivity.
Qed.

(** A text whose year has fewer than four digits is not an ISO date. *)
Lemma short_year_not_iso (w : nat) (y m d : Z) :
  (1 <= w <= 3)%nat ->
  re_fullmatch iso_date_regex
    (zpad w y ++ "-"%char :: zpad 2 m ++ "-"%char :: zpad 2 d) = None.
Proof.
  intros Hw.
  destruct (zpad_two m) as (m0 & m1 & -> & M0 & M1).
  destruct (zpad_two d) as (d0 & d1 & -> & D0 & D1).
  assert (E : (w = 1 \/ w = 2 \/ w = 3)%nat) by lia.
  unfold re_fullmatch, iso_date_regex, digits, rcat.
  destruct E as [-> | [-> | ->]].
  - destruct (zpad_one y) as (a & -> & Ha).
    cbn -[is_digit Ascii.eqb eq_ci]. rewrite Ha. reflexivity.
  - destruct (zpad_two y) as (a & b & -> & Ha & Hb).
    cbn -[is_digit Ascii.eqb eq_ci]. rewrite Ha.
    cbn -[is_digit Ascii.eqb eq_ci]. rewrite Hb. reflexivity.
  - destruct (zpad_three y) as (a & b & c & -> & Ha & Hb & Hc).
    cbn -[is_digit Ascii.eqb eq_ci]. rewrite Ha.
    cbn -[is_digit Ascii.eqb eq_ci]. rewrite Hb.
    cbn -[is_digit Ascii.eqb eq_ci]. rewrite Hc. reflexivity.
Qed.

(** The text written for a date is one a [date] field reads, as that
    date, exactly when the year has four digits. *)
Lemma strftime_date_of_text (dt : datetime) :
  valid_datetime dt = true ->
  date_of_text (strftime dt "%Y-%m-%d")
  = if (1000 <=? year dt)%Z then Some (date_of dt) else None.
Proof.
  intros Hv. destruct (Z.leb_spec 1000 (year dt)) as [H|H].
  - rewrite strftime_isoformat by exact H.
    now apply date_isoformat_text, valid_datetime_date.
  - rewrite strftime_ymd. unfold date_of_text. rewrite chars_str.
    destruct (decimal_short (year dt) H) as (w & Hw & ->).
    now rewrite short_year_not_iso.
Qed.

(** What [parse_date] returns is a real date written with [%Y-%m-%d]. *)
Lemma parse_date_written (v : value) (d : string) :
  parse_date v = Some d ->
  exists dt, valid_datetime dt = true /\ d = strftime dt "%Y-%m-%d".
Proof.
  intros H. apply parse_date_some in H.
  destruct H as (s & fmt & dt & _ & Hs & ->).
  apply strptime_valid in Hs. eauto.
Qed.

(** ** The order of ISO texts is the order of the calendar *)

Definition date_compare (a b : date) : comparison :=
  match (dyear a ?= dyear b)%Z with
  | Eq => match (dmonth a ?= dmonth b)%Z with
          | Eq => (dday a ?= dday b)%Z
          | c => c
          end
  | c => c
  end.

(** [a] is not after [b]. *)
Definition date_le (a b : date) : Prop := date_compare a b <> Gt.

Lemma str_cons (c : ascii) (l : list ascii) : str (c :: l) = String c (str l).
Proof. reflexivity. Qed.

Lemma compare_app (l1 l2 r1 r2 : list ascii) :
  List.length l1 = List.length l2 ->
  String.compare (str (l1 ++ r1)) (str (l2 ++ r2))
  = match String.compare (str l1) (str l2) with
    | Eq => String.compare (str r1) (str r2)
    | c => c
    end.
Proof.
  revert l2. induction l1 as [|a l1 IH]; intros [|b l2] H; try discriminate H.
  - reflexivity.
  - cbn [app]. rewrite !str_cons. cbn [String.compare].
    destruct (Ascii.compare a b); try reflexivity.
    apply IH. now injection H.
Qed.

Lemma compare_cons (c : ascii) (r1 r2 : list ascii) :
  String.compare (str (c :: r1)) (str (c :: r2)) = String.compare (str r1) (str r2).
Proof. rewrite !str_cons. cbn [String.compare]. now rewrite ascii_compare_refl. Qed.

Lemma digit_char_compare (u v : Z) :
  (0 <= u <= 9)%Z -> (0 <= v <= 9)%Z ->
  Ascii.compare (digit_char u) (digit_char v) = (u ?= v)%Z.
Proof.
  intros Hu Hv.
  assert (Eu : (u = 0 \/ u = 1 \/ u = 2 \/ u = 3 \/ u = 4 \/ u = 5 \/ u = 6
                \/ u = 7 \/ u = 8 \/ u = 9)%Z) by lia.
  assert (Ev : (v = 0 \/ v = 1 \/ v = 2 \/ v = 3 \/ v = 4 \/ v = 5 \/ v = 6
                \/ v = 7 \/ v = 8 \/ v = 9)%Z) by lia.
  clear Hu Hv.
  repeat (destruct Eu as [->|Eu]);
    try subst u;
    repeat (destruct Ev as [->|Ev]);
    try subst v; reflexivity.
Qed.

Lemma compare_digits (a b : Z) :
  match (a / 10 ?= b / 10)%Z with
  | Eq => (a mod 10 ?= b mod 10)%Z
  | c => c
  end = (a ?= b)%Z.
Proof.
  pose proof (Z.div_mod a 10). pose proof (Z.div_mod b 10).
  pose proof (Z.mod_pos_bound a 10). pose proof (Z.mod_pos_bound b 10).
  destruct (Z.compare_spec (a / 10) (b / 10));
    [destruct (Z.compare_spec (a mod 10) (b mod 10))| |];
    symmetry;
    first [apply Z.compare_eq_iff | apply Z.compare_lt_iff | apply Z.compare_gt_iff];
    lia.
Qed.

Lemma zpad_compare (w : nat) :
  forall a b, String.compare (str (zpad w a)) (str (zpad w b))
              = match w with
                | O => Eq
                | _ => (a mod 10 ^ Z.of_nat w ?= b mod 10 ^ Z.of_nat w)%Z
                end.
Proof.
  induction w as [|w IH]; intros a b; [reflexivity|].
  rewrite !zpad_S, compare_app by (now rewrite !length_zpad).
  rewrite IH, !str_cons. cbn [String.compare str string_of_list_ascii].
  assert (Ha : (0 <= a mod 10 <= 9)%Z) by (pose proof (Z.mod_pos_bound a 10); lia).
  assert (Hb : (0 <= b mod 10 <= 9)%Z) by (pose proof (Z.mod_pos_bound b 10); lia).
  rewrite (digit_char_compare _ _ Ha Hb).
  assert (Hlast : match (a mod 10 ?= b mod 10)%Z with
                  | Eq => Eq | Lt => Lt | Gt => Gt end
                  = (a mod 10 ?= b mod 10)%Z) by now destruct (_ ?= _)%Z.
  rewrite Hlast. clear Hlast.
  rewrite Nat2Z.inj_succ, Z.pow_succ_r by lia.
  set (p := (10 ^ Z.of_nat w)%Z).
  assert (Hp : (0 < p)%Z) by (apply Z.pow_pos_nonneg; lia).
  assert (Ea : forall x, ((x mod (10 * p)) / 10 = (x / 10) mod p
                          /\ (x mod (10 * p)) mod 10 = x mod 10)%Z).
  { intros x. split.
    - rewrite Z.rem_mul_r by lia.
      rewrite Z.mul_comm, Z.div_add by lia.
      rewrite Z.div_small by (pose proof (Z.mod_pos_bound x 10); lia). lia.
    - rewrite Z.rem_mul_r by lia.
      rewrite Z.mul_comm, Z.mod_add by lia. apply Z.mod_mod. lia. }
  rewrite <- (compare_digits (a mod (10 * p)) (b mod (10 * p))).
  destruct (Ea a) as [-> ->]. destruct (Ea b) as [-> ->].
  destruct w as [|w'].
  - subst p. cbn. rewrite !Z.mod_1_r. reflexivity.
  - reflexivity.
Qed.

Lemma zpad_compare_small (w : nat) (a b : Z) :
  (0 <= a < 10 ^ Z.of_nat (S w))%Z -> (0 <= b < 10 ^ Z.of_nat (S w))%Z ->
  String.compare (str (zpad (S w) a)) (str (zpad (S w) b)) = (a ?= b)%Z.
Proof.
  intros Ha Hb. rewrite zpad_compare. now rewrite !Z.mod_small.
Qed.

(** On real dates, the order of the ISO texts is the order of the dates. *)
Lemma iso_compare (a b : date) :
  valid_date a = true -> valid_date b = true ->
  String.compare (date_isoformat a) (date_isoformat b) = date_compare a b.
Proof.
  intros Va Vb.
  pose proof (valid_date_bounds a Va) as (Ya & Ma & Da).
  pose proof (valid_date_bounds b Vb) as (Yb & Mb & Db).
  unfold date_isoformat, date_compare.
  rewrite compare_app by (now rewrite !length_zpad).
  rewrite zpad_compare_small by (cbn; lia).
  destruct (dyear a ?= dyear b)%Z; try reflexivity.
  rewrite compare_cons, compare_app by (now rewrite !length_zpad).
  rewrite zpad_compare_small by (cbn; lia).
  destruct (dmonth a ?= dmonth b)%Z; try reflexivity.
  rewrite compare_cons. apply zpad_compare_small; cbn; lia.
Qed.

Lemma str_le_date_le (a b : date) :
  valid_date a = true -> valid_date b = true ->
  str_le (date_isoformat a) (date_isoformat b) -> date_le a b.
Proof.
  intros Va Vb. unfold str_le, str_gt, date_le.
  rewrite (iso_compare a b Va Vb).
  destruct (date_compare a b); congruence.
Qed.

(** C4.  [parse_date] is total (its type has no exception).  A value that
    is not a text, a text empty after trimming, and a text that none of the
    four patterns parses give [None]; any other text gives the date read
    with the first of DD-Mon-YY, DD-Mon-YYYY, MM/DD/YYYY, DD/Mon/YY that
    parses the trimmed text, written with [%Y-%m-%d].  The fifth entry of
    the code's list, a repetition of the first, changes nothing.  What is
    written is the text [YYYY-MM-DD] of the date when its year has four
    digits; a year below 1000, which the two patterns with [%Y] read from
    four digits, is written without its leading zeros: ["01/01/0999"] gives
    ["999-01-01"], which is not of the form [YYYY-MM-DD] and which a [date]
    field of the record does not read. *)
Theorem parse_date_first_pattern :
  (forall v, is_str v = false -> parse_date v = None)
  /\ (forall s, strip s = "" -> parse_date (VStr s) = None)
  /\ (forall s, parse_date (VStr s) = first_pattern (strip s))
  /\ (forall s, (forall fmt, In fmt patterns -> strptime (strip s) fmt = None) ->
        parse_date (VStr s) = None)
  /\ (forall s fmt dt, In fmt patterns -> strptime (strip s) fmt = Some dt ->
        exists fmt' dt', In fmt' patterns /\ strptime (strip s) fmt' = Some dt'
                         /\ parse_date (VStr s) = Some (strftime dt' "%Y-%m-%d"))
  /\ (forall v d, parse_date v = Some d ->
        exists dt,
          valid_datetime dt = true /\ d = strftime dt "%Y-%m-%d"
          /\ ((1000 <= year dt)%Z ->
              d = date_isoformat (date_of dt)
              /\ date_of_text d = Some (date_of dt))
          /\ ((year dt < 1000)%Z -> date_of_text d = None))
  /\ parse_date (VStr "01/01/0999") = Some "999-01-01"
  /\ parse_date (VStr "27-Sep-0999") = Some "999-09-27"
  /\ date_of_text "999-01-01" = None.
Proof.
  assert (Hfirst : forall s, parse_date (VStr s) = first_pattern (strip s)).
  { intros s. rewrite parse_date_str, try_formats_first_pattern.
    destruct (truthy (strip s)) eqn:Ht; [reflexivity|].
    apply truthy_false in Ht. rewrite Ht. reflexivity. }
  split; [|split; [|split; [exact Hfirst|split; [|split; [|split]]]]].
  - intros v Hv. unfold parse_date. rewrite Hv. cbn [negb].
    now rewrite orb_true_r.
  - intros s Hs. rewrite Hfirst, Hs. reflexivity.
  - intros s Hnone. rewrite Hfirst. unfold first_pattern.
    destruct (find (parses (strip s)) patterns) as [fmt|] eqn:Hf; [|reflexivity].
    apply find_some in Hf. destruct Hf as [Hin _].
    now rewrite (Hnone fmt Hin).
  - intros s fmt dt Hin Hdt. rewrite Hfirst. unfold first_pattern.
    destruct (find (parses (strip s)) patterns) as [fmt'|] eqn:Hf.
    + apply find_some in Hf. destruct Hf as [Hin' Hp]. unfold parses in Hp.
      destruct (strptime (strip s) fmt') as [dt'|] eqn:Hdt'; [|discriminate Hp].
      exists fmt', dt'. auto.
    + apply (find_none _ _ Hf) in Hin. unfold parses in Hin.
      rewrite Hdt in Hin. discriminate Hin.
  - intros v d Hd. destruct (parse_date_written v d Hd) as (dt & Hv & ->).
    exists dt. split; [exact Hv|]. split; [reflexivity|].
    rewrite (strftime_date_of_text dt Hv). split; intros Hy.
    + split; [now apply strftime_isoformat|].
      destruct (Z.leb_spec 1000 (year dt)); [reflexivity|lia].
    + destruct (Z.leb_spec 1000 (year dt)); [lia|reflexivity].
  - repeat split; vm_compute; reflexivity.
Qed.

Example parse_date_examples :
  parse_date (VStr "30-Sep-24") = Some "2024-09-30"
  /\ parse_date (VStr "27-Sep-2024") = Some "2024-09-27"
  /\ parse_date (VStr "9/27/2024") = Some "2024-09-27"
  /\ parse_date (VStr "11/Sep/24") = Some "2024-09-11"
  /\ parse_date (VStr "   ") = None
  /\ parse_date (VStr "not a date") = None
  /\ parse_date VNone = None.
Proof. repeat split; vm_compute; reflexivity. Qed.





(** A year below 1000 is read from four digits and written without its
    leading zeros: as a text it exceeds every date of this century, it
    becomes the report end date, no record reads it, and every row of the
    file that is not skipped is an error row. *)
Example short_year_end_date :
  let file := Sample.header
              ++ [Sample.assy_row_dated "01/01/0999";
                  Sample.assy_row_dated "30-Sep-24"] in
  let out := @process_file (processor Assy) "assy.csv" Sample.clock file
               (@init (processor Assy) "assy.csv" Sample.started []) in
  @prod_dates (processor Assy) (skipn 2 file) = ["999-01-01"; "2024-09-30"]
  /\ @end_date (@first_pass (processor Assy) (skipn 2 file)) "2024-09-27"
     = "999-01-01"
  /\ Summary.error_rows (summary (snd out)) = 2%Z
  /\ Summary.successful_rows (summary (snd out)) = 0%Z
  /\ db (snd out) = [].
Proof. vm_compute. repeat split. Qed.

(** ** The existence check and absent fields *)

(** X1.  A record one of whose optional key fields is [None] binds a NULL to
    the check, which then finds no row, whatever the store holds. *)
Theorem row_exists_null_key (data : DispatchDataCreate.t) (db : store) :
  DispatchDataCreate.est_compl_date data = None
  \/ DispatchDataCreate.and_on data = None
  \/ DispatchDataCreate.m_pc data = None
  \/ DispatchDataCreate.prod_hr data = None ->
  row_exists (DispatchDataCreate.model_dump data) db = false.
Proof.
  intros H. rewrite row_exists_any.
  assert (Hx : forall x, matches_key (key data) x = false).
  { intros x. rewrite matches_key_forallb.
    destruct H as [H|[H|[H|H]]].
    - apply (forallb_false_in _ _ "est_compl_date"); [cbn; tauto|].
      change (getitem (DispatchDataCreate.model_dump data) "est_compl_date")
        with (DispatchDataCreate.opt VDate (DispatchDataCreate.est_compl_date data)).
      rewrite H. apply sql_eq_null.
    - apply (forallb_false_in _ _ "and_on"); [cbn; tauto|].
      change (getitem (DispatchDataCreate.model_dump data) "and_on")
        with (DispatchDataCreate.opt VStr (DispatchDataCreate.and_on data)).
      rewrite H. apply sql_eq_null.
    - apply (forallb_false_in _ _ "m_pc"); [cbn; tauto|].
      change (getitem (DispatchDataCreate.model_dump data) "m_pc")
        with (DispatchDataCreate.opt VFloat (DispatchDataCreate.m_pc data)).
      rewrite H. apply sql_eq_null.
    - apply (forallb_false_in _ _ "prod_hr"); [cbn; tauto|].
      change (getitem (DispatchDataCreate.model_dump data) "prod_hr")
        with (DispatchDataCreate.opt VFloat (DispatchDataCreate.prod_hr data)).
      rewrite H. apply sql_eq_null. }
  induction db as [|x db IH]; [reflexivity|].
  cbn [existsb]. now rewrite Hx, IH.
Qed.

Lemma row_exists_null_key_witness :
  let data :=
    DispatchDataCreate.mk FABCUT "WC1" "J100" "P-7" None
      (float_of_decimal false 10 0) (float_of_decimal false 5 0) "A"
      (mkDate 2024 9 30) None None None None (mkDate 2024 9 27)
      (mkDate 2024 9 30) "Cutting" Sample.started "fabcut.csv" SUCCESS
      Sample.started in
  row_exists (DispatchDataCreate.model_dump data) [stored data] = false.
Proof.
  intros data. apply (row_exists_null_key data [stored data]).
  left. reflexivity.
Defined.

(** ** The timestamp normalizer, on the three shapes it knows *)

Theorem parse_datetime_shapes :
  parse_datetime (VStr "Printed on 9/27/2024 /  3:59:22PM")
  = Some "2024-09-27 15:59:22"
  /\ parse_datetime (VStr "2024-09-27 16:12:15") = Some "2024-09-27 16:12:15"
  /\ parse_datetime (VStr "2024-10-14T20:04:43.342962")
     = Some "2024-10-14 20:04:43"
  /\ parse_datetime (VStr "yesterday") = None
  /\ parse_datetime VNone = None.
Proof. repeat split; vm_compute; reflexivity. Qed.

(* ===================================================================== *)
(** * Further properties of the pipeline *)
(* ===================================================================== *)

(** ** A run and the store *)

Section Run.

Context {P : FileProcessor}.
Variables (name : string) (now : nat -> datetime) (rsd red dep : string).

(** One row adds one stored row when it is counted successful, and none
    otherwise; the rows already stored stay as they are. *)
Lemma process_row_added (n : nat) (r : row) (st : state) :
  exists added,
    db (process_row name now rsd red dep n r st) = db st ++ added
    /\ Z.of_nat (List.length added)
       = (Summary.successful_rows (summary (process_row name now rsd red dep n r st))
          - Summary.successful_rows (summary st))%Z.
Proof.
  unfold process_row.
  destruct (_get_report_creation_datetime r) as [cr|e]; cbn [bind];
    [|exists []; rewrite app_nil_r; counters; cbn; split; [reflexivity|lia]].
  destruct (_map_row_to_data _ _ _ _ _ _ _) as [[data|]|e]; cbn [bind];
    try (exists []; rewrite app_nil_r; counters; cbn; split; [reflexivity|lia]).
  destruct (row_exists _ _);
    [exists []; rewrite app_nil_r; counters; cbn; split; [reflexivity|lia]|].
  rewrite insert_data_cases.
  destruct (is_nan _ || is_nan _); cbn [bind];
    [exists []; rewrite app_nil_r; counters; cbn; split; [reflexivity|lia]|].
  exists [stored data]. counters. cbn [List.length]. split; [reflexivity|lia].
Qed.

Lemma process_rows_added (rows : list row) :
  forall n st,
  exists added,
    db (process_rows name now rsd red dep n rows st) = db st ++ added
    /\ Z.of_nat (List.length added)
       = (Summary.successful_rows
            (summary (process_rows name now rsd red dep n rows st))
          - Summary.successful_rows (summary st))%Z.
Proof.
  induction rows as [|r rows IH]; intros n st; cbn [process_rows].
  - exists []. rewrite app_nil_r. cbn. split; [reflexivity|lia].
  - destruct (process_row_added n r st) as (a1 & D1 & C1).
    destruct (IH (S n) (process_row name now rsd red dep n r st)) as (a2 & D2 & C2).
    exists (a1 ++ a2). rewrite D2, D1, app_assoc, length_app. split; [reflexivity|lia].
Qed.

End Run.

Lemma skip2_skipn (file rows : list row) :
  skip2 file = Ok rows ->
  rows = skipn 2 file /\ List.length file = (2 + List.length rows)%nat.
Proof.
  destruct file as [|r1 [|r2 rest]]; try discriminate.
  cbn. intros H. injection H as <-. auto.
Qed.

(** X3.  Whenever [process_file] returns a summary (for any processor):
    the store it leaves is the store it found followed by the rows it
    added, [successful_rows] is the number of rows added, and [total_rows]
    is the number of rows of the file after the two metadata rows. *)
Theorem run_stores_what_it_counts {P : FileProcessor} (name : string)
    (now : nat -> datetime) (t : datetime) (file : list row) (db0 : store)
    (s : Summary.t) (st' : state) :
  process_file name now file (init name t db0) = (Ok s, st') ->
  s = summary st'
  /\ (exists added,
        db st' = db0 ++ added
        /\ Z.of_nat (List.length added) = Summary.successful_rows s)
  /\ Summary.total_rows s = (Z.of_nat (List.length file) - 2)%Z.
Proof.
  unfold process_file.
  destruct (_extract_metadata file) as [meta|e]; cbn [bind]; [|discriminate].
  destruct (skip2 file) as [rows|e] eqn:Hskip; cbn [bind]; [|discriminate].
  intros H. injection H as <- <-. split; [reflexivity|].
  apply skip2_skipn in Hskip. destruct Hskip as [_ Hlen]. split.
  - destruct (process_rows_added name now (fst (fst meta))
                (end_date (first_pass rows) (fst (fst meta))) (snd (fst meta))
                rows 1 (init name t db0)) as (added & Hdb & Hc).
    exists added. split; [exact Hdb|]. rewrite Hc. cbn. lia.
  - rewrite process_rows_total. cbn. lia.
Qed.

Lemma run_stores_what_it_counts_witness :
  let out := @process_file (processor Assy) "assy.csv" Sample.clock Sample.assy_file
               (@init (processor Assy) "assy.csv" Sample.started []) in
  Summary.total_rows (summary (snd out)) = 2%Z
  /\ exists added,
       db (snd out) = [] ++ added
       /\ Z.of_nat (List.length added) = Summary.successful_rows (summary (snd out)).
Proof.
  intros out.
  destruct (@run_stores_what_it_counts (processor Assy) "assy.csv" Sample.clock
              Sample.started Sample.assy_file [] (summary (snd out)) (snd out))
    as (_ & Hadded & Htotal).
  - vm_compute. reflexivity.
  - split; [rewrite Htotal; reflexivity|exact Hadded].
Defined.

(** ** No stored row repeats the key of an earlier one *)

(** The twelve key columns of [x] and [y] are equal as the WHERE clause of
    [row_exists] reads equality. *)
Definition same_key (x y : stored_row) : bool :=
  forallb (fun c => sql_eq (column x c) (column y c)) row_exists_columns.

(** No row of [db] has the key of a row of [seen] or of an earlier row of
    [db]. *)
Fixpoint distinct_from (seen db : store) : bool :=
  match db with
  | [] => true
  | x :: rest =>
      negb (existsb (fun y => same_key y x) seen) && distinct_from (seen ++ [x]) rest
  end.

Definition distinct_keys (db : store) : bool := distinct_from [] db.

Lemma distinct_from_snoc (db : store) :
  forall seen x,
    distinct_from seen (db ++ [x])
    = distinct_from seen db && negb (existsb (fun y => same_key y x) (seen ++ db)).
Proof.
  induction db as [|z db IH]; intros seen x; cbn [app distinct_from].
  - rewrite app_nil_r, andb_true_r. reflexivity.
  - rewrite IH, <- app_assoc, andb_assoc. reflexivity.
Qed.

Lemma existsb_ext {A : Type} (f g : A -> bool) (l : list A) :
  (forall a, f a = g a) -> existsb f l = existsb g l.
Proof.
  intros H. induction l as [|a l IH]; cbn [existsb]; [reflexivity|].
  now rewrite H, IH.
Qed.

Lemma same_key_stored (data : DispatchDataCreate.t) (y : stored_row) :
  same_key y (stored data) = matches_key (key data) y.
Proof.
  rewrite matches_key_forallb. unfold same_key. apply forallb_ext_in.
  intros c Hc. now rewrite (key_column_aligned data c Hc).
Qed.

Section Distinct.

Context {P : FileProcessor}.
Variables (name : string) (now : nat -> datetime) (rsd red dep : string).

Lemma process_row_distinct (n : nat) (r : row) (st : state) :
  distinct_keys (db st) = true ->
  distinct_keys (db (process_row name now rsd red dep n r st)) = true.
Proof.
  intros H. unfold process_row.
  destruct (_get_report_creation_datetime r) as [cr|e]; cbn [bind]; [|exact H].
  destruct (_map_row_to_data _ _ _ _ _ _ _) as [[data|]|e]; cbn [bind];
    try exact H.
  destruct (row_exists _ _) eqn:Hex; [exact H|].
  rewrite insert_data_cases.
  destruct (is_nan _ || is_nan _); cbn [bind db]; [exact H|].
  unfold distinct_keys in *. rewrite distinct_from_snoc, H. cbn [app andb].
  rewrite row_exists_any in Hex.
  rewrite (existsb_ext _ (matches_key (key data))), Hex; [reflexivity|].
  intros y. apply same_key_stored.
Qed.

Lemma process_rows_distinct (rows : list row) :
  forall n st,
    distinct_keys (db st) = true ->
    distinct_keys (db (process_rows name now rsd red dep n rows st)) = true.
Proof.
  induction rows as [|r rows IH]; intros n st H; cbn [process_rows];
    [exact H|].
  apply IH, process_row_distinct, H.
Qed.

End Distinct.

(** X4.  If no row of the store repeats the twelve key columns of an earlier one
    (by SQL equality), the same holds of the store a run of [process_file]
    leaves, for any processor: a row is inserted only after the check found
    no stored row with its key, the rows this run stored before it
    included. *)
Theorem run_keeps_keys_distinct {P : FileProcessor} (name : string)
    (now : nat -> datetime) (file : list row) (st : state)
    (s : Summary.t) (st' : state) :
  distinct_keys (db st) = true ->
  process_file name now file st = (Ok s, st') ->
  distinct_keys (db st') = true.
Proof.
  intros Hd. unfold process_file.
  destruct (_extract_metadata file) as [meta|e]; cbn [bind]; [|discriminate].
  destruct (skip2 file) as [rows|e]; cbn [bind]; [|discriminate].
  intros H. injection H as _ <-. now apply process_rows_distinct.
Qed.

Lemma run_keeps_keys_distinct_witness :
  let out := @process_file (processor Assy) "assy.csv" Sample.clock Sample.assy_file
               (@init (processor Assy) "assy.csv" Sample.started []) in
  List.length (db (snd out)) = 1%nat /\ distinct_keys (db (snd out)) = true.
Proof.
  intros out. split; [vm_compute; reflexivity|].
  apply (@run_keeps_keys_distinct (processor Assy) "assy.csv" Sample.clock
           Sample.assy_file (@init (processor Assy) "assy.csv" Sample.started [])
           (summary (snd out)) (snd out)).
  - reflexivity.
  - vm_compute. reflexivity.
Defined.

(** ** A quantity that is not a number *)

(** X5.  The validator lets NaN through ([nan < 0] is false), the NOT NULL
    columns of the table do not (a NaN is bound as NULL): a row whose
    record has a NaN [job_qty] or [bal_qty] is counted in [error_rows] and
    nothing is stored. *)
Theorem nan_quantity_is_error {P : FileProcessor} (name : string)
    (now : nat -> datetime) (rsd red dep : string) (n : nat) (r : row)
    (st : state) (cr : option string) (data : DispatchDataCreate.t) :
  _get_report_creation_datetime r = Ok cr ->
  _map_row_to_data name (now n) r rsd red dep cr = Ok (Some data) ->
  is_nan (DispatchDataCreate.job_qty data) || is_nan (DispatchDataCreate.bal_qty data)
  = true ->
  (forall x, is_nan x = true -> validate_numeric_fields (Some x) = Ok (Some x))
  /\ _insert_data data (db st) = Raise IntegrityError
  /\ process_row name now rsd red dep n r st
     = mkState (incr_error (incr_total (summary st))) (db st).
Proof.
  intros Hcr Hm Hnan.
  assert (Hins : _insert_data data (db st) = Raise IntegrityError)
    by (rewrite insert_data_cases, Hnan; reflexivity).
  split; [|split; [exact Hins|]].
  - intros [| | |] Hx; try discriminate Hx. reflexivity.
  - unfold process_row. rewrite Hcr. cbn [bind]. rewrite Hm. cbn [bind].
    rewrite row_exists_any.
    rewrite (existsb_rejected data (db st)); [|unfold insertable; now rewrite Hnan].
    rewrite Hins. reflexivity.
Qed.

Lemma nan_quantity_is_error_witness :
  let r := repeat "" 19
           ++ ["WC1"; "J100"; "P-7"; "nan"; "5"; "A"; "30-Sep-24"; "01-Oct-24";
               "WC2"; "1.5"; "2"; Sample.printed] in
  let st := @init (processor Assy) "assy.csv" Sample.started [] in
  _convert_to_float (VStr "nan") = Some S754_nan
  /\ @process_row (processor Assy) "assy.csv" Sample.clock
       "2024-09-27" "2024-09-30" "Assembly" 1 r st
     = mkState (incr_error (incr_total (summary st))) [].
Proof.
  intros r st. split; [vm_compute; reflexivity|].
  pose (m := @_map_row_to_data (processor Assy) "assy.csv" (Sample.clock 1) r
               "2024-09-27" "2024-09-30" "Assembly" (Some "2024-09-27 15:59:22")).
  assert (Hm : exists data, m = Ok (Some data)
                            /\ is_nan (DispatchDataCreate.job_qty data) = true).
  { vm_compute. eexists. split; reflexivity. }
  destruct Hm as (data & Hm & Hn).
  refine (proj2 (proj2
    (@nan_quantity_is_error (processor Assy) "assy.csv" Sample.clock
       "2024-09-27" "2024-09-30" "Assembly" 1 r st
       (Some "2024-09-27 15:59:22") data _ Hm _))).
  - vm_compute. reflexivity.
  - rewrite Hn. reflexivity.
Defined.

(** ** What a record that was built holds *)

Lemma coerce_ok {A B : Type} (f : A -> option B) (v : A) (b : B) :
  DispatchDataCreate.coerce f v = Ok b -> f v = Some b.
Proof.
  unfold DispatchDataCreate.coerce, DispatchDataCreate.required.
  destruct (f v); [now intros H; injection H as ->|discriminate].
Qed.

Lemma numeric_ok (v : option float) (x : float) :
  DispatchDataCreate.numeric v = Ok x -> v = Some x /\ float_lt0 x = false.
Proof.
  destruct v as [y|]; [|discriminate]. cbn.
  destruct (float_lt0 y) eqn:E; [discriminate|].
  intros H. injection H as <-. auto.
Qed.

Lemma validate_ok (v r : option float) :
  validate_numeric_fields v = Ok r -> r = v /\ negative v = false.
Proof.
  destruct v as [x|]; cbn.
  - destruct (float_lt0 x); [discriminate|]. intros H. injection H as <-. auto.
  - intros H. injection H as <-. auto.
Qed.

Lemma optional_ok {A B : Type} (f : A -> option B) (v : option A) (r : option B) :
  DispatchDataCreate.optional f v = Ok r ->
  r = match v with Some a => f a | None => None end.
Proof.
  destruct v as [a|]; cbn.
  - unfold DispatchDataCreate.coerce, DispatchDataCreate.required.
    destruct (f a); cbn; [|discriminate]. now intros H; injection H as <-.
  - now intros H; injection H as <-.
Qed.

Lemma optional_some {A B : Type} (f : A -> option B) (v : option A)
    (r : option B) :
  DispatchDataCreate.optional f v = Ok r -> v <> None -> r <> None.
Proof.
  destruct v as [a|]; cbn; [|now intros _ H; elim H].
  unfold DispatchDataCreate.coerce, DispatchDataCreate.required.
  destruct (f a); cbn; [|discriminate]. intros H _. now injection H as <-.
Qed.

(** The fields of a record [DispatchDataCreate.new] returned, by its
    arguments. *)
Record built (file_type : string) (work_cell job_number part_number : string)
    (comments : option string) (job_qty bal_qty : option float)
    (code : string) (prod_date : string) (est_compl_date : option string)
    (and_on : option string) (m_pc prod_hr : option float)
    (report_start_date report_end_date report_department : string)
    (report_creation_datetime : option string) (file_name : string)
    (processing_status : ProcessingStatus) (now : datetime)
    (data : DispatchDataCreate.t) : Prop := {
  built_file_type :
    FileType.of_value file_type = Some (DispatchDataCreate.file_type data);
  built_work_cell : DispatchDataCreate.work_cell data = work_cell;
  built_job_number : DispatchDataCreate.job_number data = job_number;
  built_part_number : DispatchDataCreate.part_number data = part_number;
  built_comments : DispatchDataCreate.comments data = comments;
  built_job_qty : job_qty = Some (DispatchDataCreate.job_qty data);
  built_bal_qty : bal_qty = Some (DispatchDataCreate.bal_qty data);
  built_code : DispatchDataCreate.code data = code;
  built_prod_date :
    date_of_text prod_date = Some (DispatchDataCreate.prod_date data);
  built_est_compl_date :
    DispatchDataCreate.est_compl_date data
    = match est_compl_date with Some e => date_of_text e | None => None end;
  built_and_on : DispatchDataCreate.and_on data = and_on;
  built_m_pc : DispatchDataCreate.m_pc data = m_pc;
  built_prod_hr : DispatchDataCreate.prod_hr data = prod_hr;
  built_nonnegative :
    float_lt0 (DispatchDataCreate.job_qty data) = false
    /\ float_lt0 (DispatchDataCreate.bal_qty data) = false
    /\ negative (DispatchDataCreate.m_pc data) = false
    /\ negative (DispatchDataCreate.prod_hr data) = false;
  built_report_start_date :
    date_of_text report_start_date
    = Some (DispatchDataCreate.report_start_date data);
  built_report_end_date :
    date_of_text report_end_date = Some (DispatchDataCreate.report_end_date data);
  built_report_department :
    DispatchDataCreate.report_department data = report_department;
  built_report_creation_datetime :
    exists text, report_creation_datetime = Some text
                 /\ datetime_of_text text
                    = Some (DispatchDataCreate.report_creation_datetime data);
  built_file_name : DispatchDataCreate.file_name data = file_name;
  built_processing_status :
    DispatchDataCreate.processing_status data = processing_status;
  built_upload_date : DispatchDataCreate.upload_date data = now;
  built_est_compl_date_read :
    est_compl_date <> None -> DispatchDataCreate.est_compl_date data <> None
}.

Lemma new_built ft wc jn pn cm jq bq cd pd ecd ao mp ph rsd red dep rcd fname ps
    now data :
  DispatchDataCreate.new ft wc jn pn cm jq bq cd pd ecd ao mp ph rsd red dep
    rcd fname ps now = Ok data ->
  built ft wc jn pn cm jq bq cd pd ecd ao mp ph rsd red dep rcd fname ps now data.
Proof.
  unfold DispatchDataCreate.new.
  repeat match goal with
         | |- DispatchDataCreate.validation (bind ?a _) = _ -> _ =>
             destruct a eqn:?; cbn [bind DispatchDataCreate.validation];
             [|discriminate]
         end.
  cbn [DispatchDataCreate.validation]. intros H. injection H as <-.
  repeat match goal with
         | E : DispatchDataCreate.coerce _ _ = Ok _ |- _ => apply coerce_ok in E
         | E : DispatchDataCreate.numeric _ = Ok _ |- _ =>
             apply numeric_ok in E; destruct E
         | E : validate_numeric_fields _ = Ok _ |- _ =>
             apply validate_ok in E; destruct E
         | E : DispatchDataCreate.optional _ _ = Ok _ |- _ =>
             pose proof (optional_some _ _ _ E); apply optional_ok in E
         | E : DispatchDataCreate.required _ = Ok _ |- _ =>
             unfold DispatchDataCreate.required in E
         end.
  subst.
  constructor; cbn; auto.
  match goal with
  | E : match rcd with Some _ => _ | None => _ end = Ok _ |- _ =>
      destruct rcd as [text|]; [injection E as ->|discriminate E]
  end.
  eauto.
Qed.

(** ** The column map of each layout *)

(** Where each layout reads the fields of a record from (0-based cells);
    [None] for a field the layout does not have. *)
Record offsets : Type := mkOffsets {
  at_work_cell : nat;
  at_job_number : nat;
  at_part_number : nat;
  at_comments : option nat;
  at_job_qty : nat;
  at_bal_qty : nat;
  at_code : nat;
  at_prod_date : nat;
  at_est_compl_date : option nat;
  at_and_on : option nat;
  at_m_pc : nat;
  at_prod_hr : nat;
  at_created : nat
}.

Definition offsets_of (l : layout) : offsets :=
  match l with
  | Assy => mkOffsets 19 20 21 None 22 23 24 25 (Some 26) (Some 27) 28 29 30
  | Fabcut => mkOffsets 16 17 18 None 19 20 21 22 None None 23 24 25
  | Lp => mkOffsets 18 19 20 (Some 21) 22 23 24 25 None None 26 27 28
  end%nat.

(** [row[i]] for a column the layout may not have. *)
Definition cell (r : row) (i : option nat) : option string :=
  match i with Some i => nth_error r i | None => None end.

Lemma index_ok (r : row) (i : nat) (c : string) :
  index r i = Ok c -> nth_error r i = Some c.
Proof.
  unfold index. destruct (nth_error r i); [now intros H; injection H as ->|discriminate].
Qed.

Lemma parse_date_empty : parse_date (VStr "") = None.
Proof. reflexivity. Qed.

Lemma convert_empty : _convert_to_float (VStr "") = None.
Proof. reflexivity. Qed.

(** [f(row[i]) if row[i] else None] is [f(row[i])] when [f] gives [None]
    for the empty text. *)
Lemma if_cell_ok {A : Type} (f : value -> option A) (r : row) (i : nat)
    (o : option A) :
  f (VStr "") = None ->
  if_cell f r i = Ok o -> exists c, nth_error r i = Some c /\ o = f (VStr c).
Proof.
  intros Hf. unfold if_cell, index.
  destruct (nth_error r i) as [c|]; cbn [bind]; [|discriminate].
  destruct c as [|a c]; cbn [truthy bind].
  - intros H. injection H as <-. exists "". auto.
  - intros H. injection H as <-. eauto.
Qed.

Ltac cells :=
  repeat match goal with
         | E : index _ _ = Ok _ |- _ => apply index_ok in E
         | E : if_cell parse_date _ _ = Ok _ |- _ =>
             apply (if_cell_ok parse_date _ _ _ parse_date_empty) in E;
             destruct E as (? & ? & ?)
         | E : if_cell _convert_to_float _ _ = Ok _ |- _ =>
             apply (if_cell_ok _convert_to_float _ _ _ convert_empty) in E;
             destruct E as (? & ? & ?)
         | E : DispatchDataCreate.new _ _ _ _ _ _ _ _ _ _ _ _ _ _ _ _ _ _ _ _ = Ok _
           |- _ => apply new_built in E
         end.

(** The record a row maps to, by the cells of the row: the arguments of
    the constructor are the cells at the layout's offsets. *)
Lemma map_row_built (l : layout) name t r rsd red dep cr data :
  @_map_row_to_data (processor l) name t r rsd red dep cr = Ok (Some data) ->
  let o := offsets_of l in
  exists wc jn pn jq bq cd pc pd mp ph,
    nth_error r (at_work_cell o) = Some wc
    /\ nth_error r (at_job_number o) = Some jn
    /\ nth_error r (at_part_number o) = Some pn
    /\ nth_error r (at_job_qty o) = Some jq
    /\ nth_error r (at_bal_qty o) = Some bq
    /\ nth_error r (at_code o) = Some cd
    /\ nth_error r (at_prod_date o) = Some pc
    /\ parse_date (VStr pc) = Some pd
    /\ nth_error r (at_m_pc o) = Some mp
    /\ nth_error r (at_prod_hr o) = Some ph
    /\ (at_est_compl_date o <> None -> cell r (at_est_compl_date o) <> None)
    /\ built (FileType.db_value (@file_type (processor l))) wc jn pn
         (cell r (at_comments o))
         (_convert_to_float (VStr jq)) (_convert_to_float (VStr bq)) cd pd
         (match cell r (at_est_compl_date o) with
          | Some c => parse_date (VStr c)
          | None => None
          end)
         (cell r (at_and_on o))
         (_convert_to_float (VStr mp)) (_convert_to_float (VStr ph))
         rsd red dep cr name SUCCESS t data.
Proof.
  intros H; destruct l;
    [ change (AssyFileProcessor._map_row_to_data name t r rsd red dep cr
              = Ok (Some data)) in H;
      unfold AssyFileProcessor._map_row_to_data in H
    | change (FabcutFileProcessor._map_row_to_data name t r rsd red dep cr
              = Ok (Some data)) in H;
      unfold FabcutFileProcessor._map_row_to_data in H
    | change (LPFileProcessor._map_row_to_data name t r rsd red dep cr
              = Ok (Some data)) in H;
      unfold LPFileProcessor._map_row_to_data in H ];
    open_mapping H; cbn [mapping] in H; injection H as <-;
    cells; subst; cbv zeta;
    cbn [offsets_of at_work_cell at_job_number at_part_number at_comments
         at_job_qty at_bal_qty at_code at_prod_date at_est_compl_date at_and_on
         at_m_pc at_prod_hr cell];
    repeat match goal with
           | E : nth_error r _ = Some _ |- _ => rewrite E
           end;
    do 10 eexists;
    do 11 (split; [try reflexivity; try eassumption; try discriminate;
                   try (intros E; exact E)|]);
    first [ tauto
          | match goal with
            | E : built _ _ _ _ _ _ _ _ _ _ _ _ _ _ _ _ _ _ _ _ _ |- _ => exact E
            end ].
Qed.

(** X6.  Each field of the record a row maps to is read from the cell at the
    layout's offset: the texts as they are, the quantities through
    [_convert_to_float], the dates through [parse_date]; [comments] is
    read by the LP layout only, [est_compl_date] and [and_on] by the Assy
    layout only, and are [None] elsewhere. *)
Theorem record_reads_layout_columns (l : layout) (name : string) (t : datetime)
    (r : row) (rsd red dep : string) (cr : option string)
    (data : DispatchDataCreate.t) :
  @_map_row_to_data (processor l) name t r rsd red dep cr = Ok (Some data) ->
  let o := offsets_of l in
  nth_error r (at_work_cell o) = Some (DispatchDataCreate.work_cell data)
  /\ nth_error r (at_job_number o) = Some (DispatchDataCreate.job_number data)
  /\ nth_error r (at_part_number o) = Some (DispatchDataCreate.part_number data)
  /\ nth_error r (at_code o) = Some (DispatchDataCreate.code data)
  /\ DispatchDataCreate.comments data = cell r (at_comments o)
  /\ DispatchDataCreate.and_on data = cell r (at_and_on o)
  /\ (exists c, nth_error r (at_job_qty o) = Some c
                /\ _convert_to_float (VStr c)
                   = Some (DispatchDataCreate.job_qty data))
  /\ (exists c, nth_error r (at_bal_qty o) = Some c
                /\ _convert_to_float (VStr c)
                   = Some (DispatchDataCreate.bal_qty data))
  /\ (exists c, nth_error r (at_m_pc o) = Some c
                /\ DispatchDataCreate.m_pc data = _convert_to_float (VStr c))
  /\ (exists c, nth_error r (at_prod_hr o) = Some c
                /\ DispatchDataCreate.prod_hr data = _convert_to_float (VStr c))
  /\ (exists c, nth_error r (at_prod_date o) = Some c
                /\ parse_date (VStr c)
                   = Some (date_isoformat (DispatchDataCreate.prod_date data)))
  /\ match at_est_compl_date o with
     | Some i =>
         exists c, nth_error r i = Some c
                   /\ parse_date (VStr c)
                      = option_map date_isoformat
                          (DispatchDataCreate.est_compl_date data)
     | None => DispatchDataCreate.est_compl_date data = None
     end.
Proof.
  intros H. apply map_row_built in H. cbv zeta in H |- *.
  destruct H as (wc & jn & pn & jq & bq & cd & pc & pd & mp & ph
                 & Hwc & Hjn & Hpn & Hjq & Hbq & Hcd & Hpc & Hpd & Hmp & Hph
                 & Hest & B).
  destruct B as [_ Bwc Bjn Bpn Bcm Bjq Bbq Bcd Bpd Best Bao Bmp Bph _ _ _ _ _ _ _ _
                 Bread].
  rewrite Bwc, Bjn, Bpn, Bcd, Bcm, Bao.
  do 6 (split; [assumption || reflexivity|]).
  split; [exists jq; auto|]. split; [exists bq; auto|].
  split; [exists mp; auto|]. split; [exists ph; auto|].
  split.
  - exists pc. split; [exact Hpc|].
    apply date_of_text_isoformat in Bpd. now rewrite Bpd.
  - destruct (at_est_compl_date (offsets_of l)) as [i|]; cbn [cell] in *.
    + destruct (nth_error r i) as [c|]; [|now elim Hest].
      exists c. split; [reflexivity|]. rewrite Best.
      destruct (parse_date (VStr c)) as [e|] eqn:E; [|reflexivity].
      destruct (date_of_text e) as [dd|] eqn:Hdd.
      * cbn [option_map]. now rewrite (date_of_text_isoformat _ _ Hdd).
      * exfalso. apply Bread; [discriminate|]. exact Best.
    + exact Best.
Qed.

Lemma record_reads_layout_columns_witness :
  exists data,
    @_map_row_to_data (processor Assy) "assy.csv" Sample.started Sample.assy_row
      "2024-09-27" "2024-09-30" "Assembly" (Some "2024-09-27 15:59:22")
    = Ok (Some data)
    /\ DispatchDataCreate.work_cell data = "WC1"
    /\ DispatchDataCreate.and_on data = Some "WC2"
    /\ DispatchDataCreate.comments data = None.
Proof.
  pose (m := @_map_row_to_data (processor Assy) "assy.csv" Sample.started
               Sample.assy_row "2024-09-27" "2024-09-30" "Assembly"
               (Some "2024-09-27 15:59:22")).
  assert (Hm : exists data, m = Ok (Some data))
    by (vm_compute; eexists; reflexivity).
  destruct Hm as (data & Hm). exists data. split; [exact Hm|].
  destruct (record_reads_layout_columns Assy "assy.csv" Sample.started
              Sample.assy_row "2024-09-27" "2024-09-30" "Assembly"
              (Some "2024-09-27 15:59:22") data Hm)
    as (Hwc & _ & _ & _ & Hcm & Hao & _).
  split; [|split; [exact Hao|exact Hcm]].
  change (nth_error Sample.assy_row 19) with (Some "WC1") in Hwc.
  injection Hwc as Hwc. symmetry. exact Hwc.
Defined.

(** ** Rows that are skipped and rows that fail *)

Lemma get_prod_date_cell (l : layout) (r : row) :
  @_get_prod_date (processor l) r
  = Ok (match nth_error r (at_prod_date (offsets_of l)) with
        | Some c => parse_date (VStr c)
        | None => None
        end).
Proof.
  destruct l;
    [ change (@_get_prod_date (processor Assy) r)
        with (cell_or_none parse_date r 25)
    | change (@_get_prod_date (processor Fabcut) r)
        with (cell_or_none parse_date r 22)
    | change (@_get_prod_date (processor Lp) r)
        with (cell_or_none parse_date r 25) ];
    apply cell_or_none_ok.
Qed.

(** The mapping, up to the constructor: what it returns on a blank row, on
    a row without the date cell and on a row whose date does not parse, and
    that past these it returns a record or raises. *)
Lemma map_row_cases (l : layout) name t r rsd red dep cr :
  let m := @_map_row_to_data (processor l) name t r rsd red dep cr in
  if all_blank (blank_cells l r) then m = Ok None
  else
    match nth_error r (at_prod_date (offsets_of l)) with
    | None => m = Raise (ValueError "Error mapping row data")
    | Some c =>
        match parse_date (VStr c) with
        | None => m = Ok None
        | Some _ =>
            (exists data, m = Ok (Some data))
            \/ m = Raise (ValueError "Error mapping row data")
        end
    end.
Proof.
  cbv zeta. unfold blank_cells, blank_range.
  destruct l; cbn [fst snd offsets_of at_prod_date];
    [ change (@_map_row_to_data (processor Assy) name t r rsd red dep cr)
        with (AssyFileProcessor._map_row_to_data name t r rsd red dep cr);
      unfold AssyFileProcessor._map_row_to_data
    | change (@_map_row_to_data (processor Fabcut) name t r rsd red dep cr)
        with (FabcutFileProcessor._map_row_to_data name t r rsd red dep cr);
      unfold FabcutFileProcessor._map_row_to_data
    | change (@_map_row_to_data (processor Lp) name t r rsd red dep cr)
        with (LPFileProcessor._map_row_to_data name t r rsd red dep cr);
      unfold LPFileProcessor._map_row_to_data ];
    (destruct (all_blank _); [reflexivity|]);
    rewrite index_nth;
    (destruct (nth_error r _) as [c|]; cbn [bind mapping]; [|reflexivity]);
    (destruct (parse_date (VStr c)) as [pd|] eqn:E; [|reflexivity]);
    rewrite (parse_date_nonempty _ _ E); cbn [negb];
    match goal with
    | |- (exists data, mapping ?b = _) \/ _ =>
        destruct b as [[data|]|e] eqn:Hb; cbn [mapping]; [eauto| |auto]
    end;
    exfalso;
    repeat match type of Hb with
           | bind ?a _ = Ok None =>
               destruct a; cbn [bind] in Hb; [|discriminate Hb]
           end;
    discriminate Hb.
Qed.

(** X7.  A row is skipped exactly when its range of cells is blank or its
    production date cell is there and does not parse.  A row that is not
    blank and ends before the production date cell fails (the first loop
    takes such a row as one without a date), and whatever the mapping raises
    is a [ValueError]. *)
Theorem map_row_skips_or_fails (l : layout) (name : string) (t : datetime)
    (r : row) (rsd red dep : string) (cr : option string) :
  let m := @_map_row_to_data (processor l) name t r rsd red dep cr in
  let k := at_prod_date (offsets_of l) in
  (m = Ok None <->
   all_blank (blank_cells l r) = true
   \/ exists c, nth_error r k = Some c /\ parse_date (VStr c) = None)
  /\ (all_blank (blank_cells l r) = false -> nth_error r k = None ->
      m = Raise (ValueError "Error mapping row data")
      /\ @_get_prod_date (processor l) r = Ok None)
  /\ (forall e, m = Raise e -> e = ValueError "Error mapping row data").
Proof.
  cbv zeta. pose proof (map_row_cases l name t r rsd red dep cr) as H.
  cbv zeta in H. rewrite get_prod_date_cell.
  destruct (all_blank (blank_cells l r)).
  - rewrite H. split; [tauto|]. split; [discriminate|]. discriminate.
  - destruct (nth_error r (at_prod_date (offsets_of l))) as [c|].
    + destruct (parse_date (VStr c)) as [pd|] eqn:E.
      * destruct H as [(data & ->)| ->].
        -- split; [|split; [discriminate|discriminate]].
           split; [discriminate|].
           intros [F|(c' & Hc & Hp)]; [discriminate F|].
           injection Hc as <-. rewrite E in Hp. discriminate Hp.
        -- split; [|split; [discriminate|now intros e He; injection He as <-]].
           split; [discriminate|].
           intros [F|(c' & Hc & Hp)]; [discriminate F|].
           injection Hc as <-. rewrite E in Hp. discriminate Hp.
      * rewrite H. split; [|split; discriminate].
        split; [|reflexivity]. intros _. right. exists c. auto.
    + rewrite H. split; [|split; [auto|now intros e He; injection He as <-]].
      split; [discriminate|].
      intros [F|(c' & Hc & _)]; [discriminate F|discriminate Hc].
Qed.

(** ** Layouts whose records are never found again *)

Section NoDuplicate.

Context {P : FileProcessor}.
Variables (name : string) (now : nat -> datetime) (rsd red dep : string).

(** No record the mapping builds is found by the existence check. *)
Hypothesis unkeyed :
  forall t r cr data db,
    _map_row_to_data name t r rsd red dep cr = Ok (Some data) ->
    row_exists (DispatchDataCreate.model_dump data) db = false.

Lemma process_row_no_duplicate (n : nat) (r : row) (st : state) :
  Summary.duplicate_rows (summary (process_row name now rsd red dep n r st))
  = Summary.duplicate_rows (summary st).
Proof.
  unfold process_row.
  destruct (_get_report_creation_datetime r) as [cr|e]; cbn [bind];
    [|counters; reflexivity].
  destruct (_map_row_to_data _ _ _ _ _ _ _) as [[data|]|e] eqn:Hm; cbn [bind];
    try (counters; reflexivity).
  rewrite (unkeyed _ _ _ _ (db st) Hm).
  destruct (_insert_data data (db st)); cbn [bind]; counters; reflexivity.
Qed.

Lemma process_rows_no_duplicate (rows : list row) :
  forall n st,
    Summary.duplicate_rows (summary (process_rows name now rsd red dep n rows st))
    = Summary.duplicate_rows (summary st).
Proof.
  induction rows as [|r rows IH]; intros n st; cbn [process_rows];
    [reflexivity|].
  now rewrite IH, process_row_no_duplicate.
Qed.

End NoDuplicate.

(** The check finds no row for a record without a completion date. *)
Lemma no_completion_date_not_found (data : DispatchDataCreate.t) (db : store) :
  DispatchDataCreate.est_compl_date data = None ->
  row_exists (DispatchDataCreate.model_dump data) db = false.
Proof.
  intros H. rewrite row_exists_any.
  induction db as [|x db IH]; [reflexivity|].
  cbn [existsb]. rewrite IH, orb_false_r, matches_key_forallb.
  apply (forallb_false_in _ _ "est_compl_date"); [cbn; tauto|].
  change (getitem (DispatchDataCreate.model_dump data) "est_compl_date")
    with (DispatchDataCreate.opt VDate (DispatchDataCreate.est_compl_date data)).
  rewrite H. apply sql_eq_null.
Qed.

(** A record of a layout that reads no completion date has none. *)
Lemma map_row_no_completion_date (l : layout) name t r rsd red dep cr data :
  at_est_compl_date (offsets_of l) = None ->
  @_map_row_to_data (processor l) name t r rsd red dep cr = Ok (Some data) ->
  DispatchDataCreate.est_compl_date data = None.
Proof.
  intros Hl H. apply map_row_built in H. cbv zeta in H.
  destruct H as (wc & jn & pn & jq & bq & cd & pc & pd & mp & ph & H).
  do 11 destruct H as [_ H]. destruct H as [_ _ _ _ _ _ _ _ _ Best].
  rewrite Hl in Best. exact Best.
Qed.

(** X8.  The Fabcut and LP layouts read no completion date, the record has
    [None] there and the existence check binds it as NULL: a run over a
    Fabcut or an LP file counts no row as a duplicate, whatever the store
    holds, the rows of an earlier run of the same file included. *)
Theorem fabcut_lp_rows_never_duplicate (l : layout) (name : string)
    (now : nat -> datetime) (file : list row) (st : state) (s : Summary.t)
    (st' : state) :
  l <> Assy ->
  @process_file (processor l) name now file st = (Ok s, st') ->
  Summary.duplicate_rows s = Summary.duplicate_rows (summary st)
  /\ exists added,
       db st' = db st ++ added
       /\ (Z.of_nat (List.length added)
           = Summary.successful_rows s - Summary.successful_rows (summary st))%Z
       /\ forall x, In x added -> column x "est_compl_date" = SNull.
Proof.
  intros Hl H. apply process_file_ok in H.
  destruct H as (r1 & r2 & rsd & dep & _ & _ & Hst & Hs).
  assert (Hnone : at_est_compl_date (offsets_of l) = None)
    by (destruct l; [now elim Hl|reflexivity|reflexivity]).
  rewrite Hs, Hst. split; [|].
  - apply process_rows_no_duplicate.
    intros t r cr data db0 Hm. apply no_completion_date_not_found.
    eapply map_row_no_completion_date; eassumption.
  - match goal with
    | |- context [@process_rows ?P ?n ?c ?a ?b ?d ?i ?rows ?st0] =>
        destruct (@process_rows_added P n c a b d rows i st0) as (added & Hdb & Hc);
        destruct (@process_rows_db P n c a b d rows i st0) as (added' & Hdb' & Hall)
    end.
    exists added. split; [exact Hdb|]. split; [exact Hc|].
    rewrite Hdb in Hdb'. apply app_inv_head in Hdb'. subst added'.
    intros x Hx. rewrite Forall_forall in Hall.
    destruct (Hall x Hx) as (data & (r & t' & cr & _ & Hm) & ->).
    apply (map_row_no_completion_date l) in Hm; [|exact Hnone].
    change (column (stored data) "est_compl_date")
      with (adapt (DispatchDataCreate.opt VDate
                     (DispatchDataCreate.est_compl_date data))).
    now rewrite Hm.
Qed.

Lemma fabcut_lp_rows_never_duplicate_witness :
  let run1 := @process_file (processor Fabcut) "fabcut.csv" Sample.clock
                Sample.fabcut_file
                (@init (processor Fabcut) "fabcut.csv" Sample.started []) in
  let st := @init (processor Fabcut) "fabcut.csv" Sample.started (db (snd run1)) in
  let run2 := @process_file (processor Fabcut) "fabcut.csv" Sample.clock
                Sample.fabcut_file st in
  List.length (db (snd run1)) = 1%nat
  /\ Summary.duplicate_rows (summary (snd run2)) = 0%Z.
Proof.
  intros run1 st run2. split; [vm_compute; reflexivity|].
  refine (proj1 (fabcut_lp_rows_never_duplicate Fabcut "fabcut.csv" Sample.clock
                   Sample.fabcut_file st (summary (snd run2)) (snd run2) _ _)).
  - discriminate.
  - vm_compute. reflexivity.
Defined.

(** ** What the rows a run stores hold *)

Section Inserted.

Context {P : FileProcessor}.
Variables (name : string) (now : nat -> datetime) (rsd red dep : string).

Lemma process_row_inserted (n : nat) (r : row) (st : state) :
  db (process_row name now rsd red dep n r st) = db st
  \/ exists cr data,
       _map_row_to_data name (now n) r rsd red dep cr = Ok (Some data)
       /\ insertable data = true
       /\ db (process_row name now rsd red dep n r st) = db st ++ [stored data].
Proof.
  unfold process_row.
  destruct (_get_report_creation_datetime r) as [cr|e]; cbn [bind]; [|auto].
  destruct (_map_row_to_data _ _ _ _ _ _ _) as [[data|]|e] eqn:Hm;
    cbn [bind]; auto.
  destruct (row_exists _ _); [auto|].
  rewrite insert_data_cases.
  destruct (is_nan _ || is_nan _) eqn:Hn; cbn [bind db]; [auto|].
  right. exists cr, data. unfold insertable. rewrite Hn. auto.
Qed.

(** The rows a run adds are the stored forms of records the mapping built
    from its rows, none with a NaN in a required quantity. *)
Lemma process_rows_inserted (rows : list row) :
  forall n st,
  exists added,
    db (process_rows name now rsd red dep n rows st) = db st ++ added
    /\ Forall (fun x => exists r t cr data,
                 In r rows
                 /\ _map_row_to_data name t r rsd red dep cr = Ok (Some data)
                 /\ insertable data = true
                 /\ x = stored data) added.
Proof.
  induction rows as [|r rows IH]; intros n st; cbn [process_rows].
  - exists []. now rewrite app_nil_r.
  - destruct (IH (S n) (process_row name now rsd red dep n r st))
      as (added & Hdb & Hall).
    assert (Hweak : Forall (fun x => exists r' t cr data,
                              In r' (r :: rows)
                              /\ _map_row_to_data name t r' rsd red dep cr
                                 = Ok (Some data)
                              /\ insertable data = true
                              /\ x = stored data) added).
    { eapply Forall_impl; [|exact Hall].
      intros x (r' & t & cr & data & Hin & Hm & Hi & ->).
      exists r', t, cr, data. cbn [In]. auto. }
    destruct (process_row_inserted n r st) as [E|(cr & data & Hm & Hi & E)];
      rewrite Hdb, E.
    + exists added. auto.
    + exists (stored data :: added). rewrite <- app_assoc. split; [reflexivity|].
      constructor; [|exact Hweak].
      exists r, (now n), cr, data. cbn [In]. auto.
Qed.

End Inserted.

Lemma date_of_text_valid (s : string) (d : date) :
  date_of_text s = Some d -> valid_date d = true.
Proof.
  unfold date_of_text. destruct (re_fullmatch _ _) as [c|]; [|discriminate].
  destruct (valid_date _) eqn:E; [|discriminate].
  intros H. now injection H as <-.
Qed.

(** The date a record holds is one the first loop saw. *)
Lemma map_row_prod_date (l : layout) name t r rsd red dep cr data (rows : list row) :
  In r rows ->
  @_map_row_to_data (processor l) name t r rsd red dep cr = Ok (Some data) ->
  In (date_isoformat (DispatchDataCreate.prod_date data))
     (@prod_dates (processor l) rows).
Proof.
  intros Hin H. apply map_row_built in H. cbv zeta in H.
  destruct H as (wc & jn & pn & jq & bq & cd & pc & pd & mp & ph
                 & _ & _ & _ & _ & _ & _ & Hpc & Hpd & _ & _ & _ & B).
  destruct B as [_ _ _ _ _ _ _ _ Bpd].
  apply date_of_text_isoformat in Bpd. rewrite Bpd.
  unfold prod_dates. rewrite in_flat_map. exists r. split; [exact Hin|].
  unfold parsed_date. rewrite get_prod_date_cell, Hpc, Hpd.
  rewrite (parse_date_nonempty _ _ Hpd). now left.
Qed.

Lemma of_value_db_value (ft : FileType) :
  ft <> SEWDC -> FileType.of_value (FileType.db_value ft) = Some ft.
Proof. destruct ft; intros H; try reflexivity. now elim H. Qed.

(** The file type of a record is its processor's. *)
Lemma map_row_file_type (l : layout) name t r rsd red dep cr data :
  @_map_row_to_data (processor l) name t r rsd red dep cr = Ok (Some data) ->
  DispatchDataCreate.file_type data = @file_type (processor l).
Proof.
  intros H. apply map_row_built in H. cbv zeta in H.
  destruct H as (wc & jn & pn & jq & bq & cd & pc & pd & mp & ph & H).
  do 11 destruct H as [_ H]. destruct H as [Bft].
  rewrite of_value_db_value in Bft by (destruct l; discriminate).
  injection Bft as Bft. symmetry. exact Bft.
Qed.

(** X9.  Every row a run of [process_file] adds to the store has, in its
    columns: the processor's file type; the report start date and the
    department of the file's two metadata rows; the report end date of the
    run; and a production date that is not after the report end date, as a
    text and on the calendar. *)
Theorem stored_rows_within_report_period (l : layout) (name : string)
    (now : nat -> datetime) (file : list row) (st : state) (s : Summary.t)
    (st' : state) :
  @process_file (processor l) name now file st = (Ok s, st') ->
  exists rsd dep red added,
    @_extract_metadata (processor l) file = Ok ((rsd, dep), skipn 2 file)
    /\ db st' = db st ++ added
    /\ forall x, In x added ->
         column x "file_type" = SText (FileType.value (@file_type (processor l)))
         /\ column x "report_start_date" = SText rsd
         /\ column x "report_department" = SText dep
         /\ column x "report_end_date" = SText red
         /\ exists pd dp dr,
              column x "prod_date" = SText pd
              /\ str_le pd red
              /\ date_of_text pd = Some dp /\ date_of_text red = Some dr
              /\ date_le dp dr.
Proof.
  intros H. apply process_file_ok in H.
  destruct H as (r1 & r2 & rsd & dep & _ & Hmeta & Hst & _).
  set (rows := skipn 2 file) in *.
  set (red := @end_date (@first_pass (processor l) rows) rsd) in *.
  destruct (@process_rows_inserted (processor l) name now rsd red dep rows 1 st)
    as (added & Hdb & Hall).
  exists rsd, dep, red, added. split; [exact Hmeta|].
  split; [rewrite Hst; exact Hdb|].
  intros x Hx. rewrite Forall_forall in Hall.
  destruct (Hall x Hx) as (r & t & cr & data & Hin & Hm & _ & ->).
  pose proof (map_row_file_type _ _ _ _ _ _ _ _ _ Hm) as Hft.
  pose proof (map_row_prod_date _ _ _ _ _ _ _ _ _ rows Hin Hm) as Hpd.
  pose proof Hm as Hb. apply map_row_built in Hb. cbv zeta in Hb.
  destruct Hb as (wc & jn & pn & jq & bq & cd & pc & pd & mp & ph & Hb).
  do 11 destruct Hb as [_ Hb].
  destruct Hb as [_ _ _ _ _ _ _ _ Bpd _ _ _ _ _ Brsd Bred Bdep].
  pose proof (date_of_text_valid _ _ Bpd) as Vp.
  pose proof (date_of_text_valid _ _ Bred) as Vr.
  pose proof Bred as Hdr.
  apply date_of_text_isoformat in Brsd, Bred.
  split; [change (column (stored data) "file_type")
            with (SText (FileType.value (DispatchDataCreate.file_type data)));
          now rewrite Hft|].
  split; [change (column (stored data) "report_start_date")
            with (SText (date_isoformat
                           (DispatchDataCreate.report_start_date data)));
          now rewrite Brsd|].
  split; [change (column (stored data) "report_department")
            with (SText (DispatchDataCreate.report_department data));
          now rewrite Bdep|].
  split; [change (column (stored data) "report_end_date")
            with (SText (date_isoformat
                           (DispatchDataCreate.report_end_date data)));
          now rewrite Bred|].
  destruct (@end_date_max (processor l) rows rsd) as [_ Hsome].
  fold red in Hsome.
  assert (Hne : @prod_dates (processor l) rows <> [])
    by (intros E; rewrite E in Hpd; destruct Hpd).
  destruct (Hsome Hne) as [Hred Hmax].
  exists (date_isoformat (DispatchDataCreate.prod_date data)),
    (DispatchDataCreate.prod_date data), (DispatchDataCreate.report_end_date data).
  split; [reflexivity|]. split; [now apply Hmax|].
  split; [now apply date_isoformat_text|]. split; [exact Hdr|].
  apply str_le_date_le; try assumption. rewrite Bred. now apply Hmax.
Qed.

Lemma stored_rows_within_report_period_witness :
  exists (st' : state) (added : store),
    @process_file (processor Assy) "assy.csv" Sample.clock Sample.assy_file
      (@init (processor Assy) "assy.csv" Sample.started [])
    = (Ok (summary st'), st')
    /\ db st' = [] ++ added
    /\ added <> []
    /\ forall x, In x added ->
         column x "file_type" = SText "Assy"
         /\ column x "report_start_date" = SText "2024-09-27"
         /\ column x "report_department" = SText "Assembly".
Proof.
  pose (out := @process_file (processor Assy) "assy.csv" Sample.clock
                 Sample.assy_file
                 (@init (processor Assy) "assy.csv" Sample.started [])).
  assert (Hout : out = (Ok (summary (snd out)), snd out))
    by (vm_compute; reflexivity).
  destruct (stored_rows_within_report_period Assy "assy.csv" Sample.clock
              Sample.assy_file
              (@init (processor Assy) "assy.csv" Sample.started [])
              (summary (snd out)) (snd out) Hout)
    as (rsd & dep & red & added & Hmeta & Hdb & Hall).
  exists (snd out), added. split; [exact Hout|]. split; [exact Hdb|].
  assert (Hrd : rsd = "2024-09-27" /\ dep = "Assembly").
  { vm_compute in Hmeta. injection Hmeta as <- <-. split; reflexivity. }
  destruct Hrd as [-> ->].
  split.
  - intros ->. vm_compute in Hdb. discriminate Hdb.
  - intros x Hx. destruct (Hall x Hx) as (Hft & Hrsd & Hdep & _).
    split; [exact Hft|]. split; [exact Hrsd|exact Hdep].
Defined.

(** X10.  No row a run of [process_file] adds to the store has a negative
    quantity: [job_qty] and [bal_qty] are numbers that are not below zero,
    [m_pc] and [prod_hr] are NULL or numbers that are not below zero. *)
Theorem stored_quantities_not_negative (l : layout) (name : string)
    (now : nat -> datetime) (file : list row) (st : state) (s : Summary.t)
    (st' : state) :
  @process_file (processor l) name now file st = (Ok s, st') ->
  exists added,
    db st' = db st ++ added
    /\ forall x, In x added ->
         (exists q, column x "job_qty" = SReal q
                    /\ is_nan q = false /\ float_lt0 q = false)
         /\ (exists q, column x "bal_qty" = SReal q
                       /\ is_nan q = false /\ float_lt0 q = false)
         /\ (column x "m_pc" = SNull
             \/ exists q, column x "m_pc" = SReal q /\ float_lt0 q = false)
         /\ (column x "prod_hr" = SNull
             \/ exists q, column x "prod_hr" = SReal q /\ float_lt0 q = false).
Proof.
  intros H. apply process_file_ok in H.
  destruct H as (r1 & r2 & rsd & dep & _ & _ & Hst & _).
  match type of Hst with
  | _ = @process_rows ?P ?n ?c ?a ?b ?d ?i ?rows ?st0 =>
      destruct (@process_rows_inserted P n c a b d rows i st0)
        as (added & Hdb & Hall)
  end.
  exists added. split; [rewrite Hst; exact Hdb|].
  intros x Hx. rewrite Forall_forall in Hall.
  destruct (Hall x Hx) as (r & t & cr & data & _ & Hm & Hi & ->).
  apply map_row_built in Hm. cbv zeta in Hm.
  destruct Hm as (wc & jn & pn & jq & bq & cd & pc & pd & mp & ph & Hm).
  do 11 destruct Hm as [_ Hm].
  destruct Hm as [_ _ _ _ _ _ _ _ _ _ _ _ _ (Njq & Nbq & Nmp & Nph)].
  unfold insertable in Hi. rewrite negb_true_iff, orb_false_iff in Hi.
  destruct Hi as [Ijq Ibq].
  split; [|split; [|split]].
  - exists (DispatchDataCreate.job_qty data).
    change (column (stored data) "job_qty")
      with (adapt (VFloat (DispatchDataCreate.job_qty data))).
    cbn [adapt]. now rewrite Ijq.
  - exists (DispatchDataCreate.bal_qty data).
    change (column (stored data) "bal_qty")
      with (adapt (VFloat (DispatchDataCreate.bal_qty data))).
    cbn [adapt]. now rewrite Ibq.
  - change (column (stored data) "m_pc")
      with (adapt (DispatchDataCreate.opt VFloat (DispatchDataCreate.m_pc data))).
    destruct (DispatchDataCreate.m_pc data) as [q|];
      cbn [DispatchDataCreate.opt adapt negative] in *; [|now left].
    destruct (is_nan q); [now left|right; eauto].
  - change (column (stored data) "prod_hr")
      with (adapt (DispatchDataCreate.opt VFloat
                     (DispatchDataCreate.prod_hr data))).
    destruct (DispatchDataCreate.prod_hr data) as [q|];
      cbn [DispatchDataCreate.opt adapt negative] in *; [|now left].
    destruct (is_nan q); [now left|right; eauto].
Qed.

Lemma stored_quantities_not_negative_witness :
  exists (st' : state) (added : store),
    @process_file (processor Assy) "assy.csv" Sample.clock Sample.assy_file
      (@init (processor Assy) "assy.csv" Sample.started [])
    = (Ok (summary st'), st')
    /\ db st' = [] ++ added
    /\ added <> []
    /\ forall x, In x added ->
         exists q, column x "job_qty" = SReal q /\ float_lt0 q = false.
Proof.
  pose (out := @process_file (processor Assy) "assy.csv" Sample.clock
                 Sample.assy_file
                 (@init (processor Assy) "assy.csv" Sample.started [])).
  assert (Hout : out = (Ok (summary (snd out)), snd out))
    by (vm_compute; reflexivity).
  destruct (stored_quantities_not_negative Assy "assy.csv" Sample.clock
              Sample.assy_file
              (@init (processor Assy) "assy.csv" Sample.started [])
              (summary (snd out)) (snd out) Hout)
    as (added & Hdb & Hall).
  exists (snd out), added. split; [exact Hout|]. split; [exact Hdb|].
  split.
  - intros ->. vm_compute in Hdb. discriminate Hdb.
  - intros x Hx. destruct (Hall x Hx) as ((q & Hq & _ & Hn) & _).
    exists q. auto.
Defined.

(** ** The timestamp normalizer *)

Lemma strftime_ymdhms (dt : datetime) :
  strftime dt "%Y-%m-%d %H:%M:%S"
  = str (decimal (year dt) ++ "-"%char :: zpad 2 (month dt)
         ++ "-"%char :: zpad 2 (day dt)
         ++ " "%char :: zpad 2 (hour dt) ++ ":"%char :: zpad 2 (minute dt)
         ++ ":"%char :: zpad 2 (second dt)).
Proof. reflexivity. Qed.

(** The datetime [strftime] prints with this format: [dt] to the second. *)
Definition to_second (dt : datetime) : datetime :=
  mkDatetime (year dt) (month dt) (day dt) (hour dt) (minute dt) (second dt) 0.

Lemma iso_datetime_match_text (y m d h mi s : list ascii) :
  List.length y = 4%nat -> List.length m = 2%nat -> List.length d = 2%nat ->
  List.length h = 2%nat -> List.length mi = 2%nat -> List.length s = 2%nat ->
  forallb is_digit y = true -> forallb is_digit m = true ->
  forallb is_digit d = true -> forallb is_digit h = true ->
  forallb is_digit mi = true -> forallb is_digit s = true ->
  re_fullmatch iso_datetime_regex
    (y ++ "-"%char :: m ++ "-"%char :: d ++ " "%char :: h ++ ":"%char :: mi
       ++ ":"%char :: s)
  = Some [("Y", y); ("m", m); ("d", d); ("H", h); ("M", mi); ("S", s)].
Proof.
  destruct y as [|y0 [|y1 [|y2 [|y3 [|]]]]]; try discriminate.
  destruct m as [|m0 [|m1 [|]]]; try discriminate.
  destruct d as [|d0 [|d1 [|]]]; try discriminate.
  destruct h as [|h0 [|h1 [|]]]; try discriminate.
  destruct mi as [|i0 [|i1 [|]]]; try discriminate.
  destruct s as [|s0 [|s1 [|]]]; try discriminate.
  intros _ _ _ _ _ _. cbn [forallb]. rewrite !andb_true_r, !andb_true_iff.
  intros (Y0 & Y1 & Y2 & Y3) (M0 & M1) (D0 & D1) (H0 & H1) (I0 & I1) (S0 & S1).
  unfold re_fullmatch, iso_datetime_regex, iso_date_regex, digits, rcat.
  cbn -[is_digit Ascii.eqb eq_ci].
  repeat (first [ rewrite Y0 | rewrite Y1 | rewrite Y2 | rewrite Y3
                | rewrite M0 | rewrite M1 | rewrite D0 | rewrite D1
                | rewrite H0 | rewrite H1 | rewrite I0 | rewrite I1
                | rewrite S0 | rewrite S1
                | rewrite Ascii.eqb_refl ];
          cbn -[is_digit Ascii.eqb eq_ci]).
  reflexivity.
Qed.

Lemma valid_datetime_bounds (dt : datetime) :
  valid_datetime dt = true ->
  (1 <= year dt <= 9999 /\ 1 <= month dt <= 12 /\ 1 <= day dt <= 31
   /\ 0 <= hour dt <= 23 /\ 0 <= minute dt <= 59 /\ 0 <= second dt <= 59)%Z.
Proof.
  unfold valid_datetime. rewrite !andb_true_iff, !Z.leb_le.
  pose proof (days_in_month_le (year dt) (month dt)). lia.
Qed.

Lemma valid_to_second (dt : datetime) :
  valid_datetime dt = true -> valid_datetime (to_second dt) = true.
Proof.
  unfold valid_datetime, to_second.
  cbn [year month day hour minute second microsecond].
  rewrite !andb_true_iff, !Z.leb_le. lia.
Qed.

(** For a year of four digits, the format writes the ISO text of the
    datetime to the second. *)
Lemma strftime_datetime_isoformat (dt : datetime) :
  (1000 <= year dt)%Z ->
  strftime dt "%Y-%m-%d %H:%M:%S" = datetime_isoformat (to_second dt).
Proof.
  intros H. rewrite strftime_ymdhms, decimal_four by exact H.
  unfold datetime_isoformat, to_second.
  cbn [year month day hour minute second microsecond Z.eqb].
  now rewrite app_nil_r.
Qed.

(** Four digits are not found where a year of fewer digits is
    written. *)
Lemma four_digits_short (w : nat) (y : Z) (tl : list ascii) :
  (1 <= w <= 3)%nat ->
  rep_matches (rmatch rdigit) 4 4 (zpad w y ++ "-"%char :: tl) = [].
Proof.
  intros Hw.
  assert (E : (w = 1 \/ w = 2 \/ w = 3)%nat) by lia.
  unfold rdigit.
  destruct E as [-> | [-> | ->]].
  - destruct (zpad_one y) as (a & -> & Ha).
    repeat (cbn -[is_digit]; rewrite ?Ha;
            change (is_digit "-"%char) with false).
    reflexivity.
  - destruct (zpad_two y) as (a & b & -> & Ha & Hb).
    repeat (cbn -[is_digit]; rewrite ?Ha, ?Hb;
            change (is_digit "-"%char) with false).
    reflexivity.
  - destruct (zpad_three y) as (a & b & c & -> & Ha & Hb & Hc).
    repeat (cbn -[is_digit]; rewrite ?Ha, ?Hb, ?Hc;
            change (is_digit "-"%char) with false).
    reflexivity.
Qed.

(** A text whose year has fewer than four digits is not an ISO
    datetime. *)
Lemma short_year_not_iso_datetime (w : nat) (y : Z) (tl : list ascii) :
  (1 <= w <= 3)%nat ->
  re_fullmatch iso_datetime_regex (zpad w y ++ "-"%char :: tl) = None.
Proof.
  intros Hw.
  unfold re_fullmatch, iso_datetime_regex, iso_date_regex, digits, rcat.
  cbn [fold_right rmatch]. now rewrite four_digits_short.
Qed.

(** The text written for a datetime is one a [datetime] field reads, as
    that datetime to the second, exactly when the year has four digits. *)
Lemma strftime_datetime_of_text (dt : datetime) :
  valid_datetime dt = true ->
  datetime_of_text (strftime dt "%Y-%m-%d %H:%M:%S")
  = if (1000 <=? year dt)%Z then Some (to_second dt) else None.
Proof.
  intros Hv. rewrite strftime_ymdhms. unfold datetime_of_text. rewrite chars_str.
  destruct (Z.leb_spec 1000 (year dt)) as [H|H].
  - pose proof (valid_datetime_bounds dt Hv) as (Hy & Hm & Hd & Hh & Hi & Hs).
    rewrite decimal_four by exact H.
    rewrite iso_datetime_match_text by (apply length_zpad || apply zpad_digits).
    unfold field_or. cbn [group String.eqb Ascii.eqb Bool.eqb].
    rewrite !int_of_zpad by (cbn; lia).
    fold (to_second dt). now rewrite (valid_to_second dt Hv).
  - destruct (decimal_short (year dt) H) as (w & Hw & ->).
    now rewrite short_year_not_iso_datetime.
Qed.

Lemma reformat_some (s fmt r : string) :
  reformat s fmt = Some r ->
  exists dt, strptime s fmt = Some dt /\ r = strftime dt "%Y-%m-%d %H:%M:%S".
Proof.
  unfold reformat. destruct (strptime s fmt) as [dt|]; [|discriminate].
  intros H. injection H as <-. eauto.
Qed.

Lemma parse_datetime_str (s : string) :
  parse_datetime (VStr s)
  = if truthy (strip s)
    then
      or_else
        match re_search printed_on_pattern (chars (strip s)) with
        | Some c =>
            match group "1" c, group "2" c, group "3" c with
            | Some date_str, Some time_str, Some ampm =>
                reformat (str (date_str ++ " "%char :: time_str
                               ++ " "%char :: ampm))
                         "%m/%d/%Y %I:%M:%S %p"
            | _, _, _ => None
            end
        | None => None
        end
        (or_else (reformat (strip s) "%Y-%m-%d %H:%M:%S")
                 (reformat (strip s) "%Y-%m-%dT%H:%M:%S.%f"))
    else None.
Proof.
  unfold parse_datetime. cbn [is_true is_str negb orb].
  destruct s as [|c s]; [reflexivity|]. cbn [truthy negb orb].
  now destruct (truthy (strip (String c s))).
Qed.

Lemma parse_datetime_some (v : value) (r : string) :
  parse_datetime v = Some r ->
  exists text fmt dt,
    strptime text fmt = Some dt /\ r = strftime dt "%Y-%m-%d %H:%M:%S".
Proof.
  destruct v as [| | | |s| |];
    try (unfold parse_datetime; cbn [is_true is_str negb orb];
         rewrite ?orb_true_r; discriminate).
  rewrite parse_datetime_str. destruct (truthy (strip s)); [|discriminate].
  unfold or_else.
  match goal with
  | |- match ?p with _ => _ end = _ -> _ => destruct p as [x|] eqn:Hp
  end.
  - intros H. injection H as <-.
    destruct (re_search _ _) as [c|]; [|discriminate Hp].
    destruct (group "1" c); [|discriminate Hp].
    destruct (group "2" c); [|discriminate Hp].
    destruct (group "3" c); [|discriminate Hp].
    apply reformat_some in Hp. destruct Hp as (dt & H1 & H2). eauto.
  - destruct (reformat (strip s) "%Y-%m-%d %H:%M:%S") as [x|] eqn:H2.
    + intros H. injection H as <-.
      apply reformat_some in H2. destruct H2 as (dt & H1 & H2). eauto.
    + intros H. apply reformat_some in H. destruct H as (dt & H1 & H3). eauto.
Qed.

(** X2.  [parse_datetime] gives [None] for what is not a [str], for the empty
    text and for blanks; and whatever it returns is a real datetime written
    with [%Y-%m-%d %H:%M:%S]: for a year of four digits the text
    [YYYY-MM-DD HH:MM:SS], which a [datetime] field reads back as that
    datetime to the second; for a year below 1000 the year is written
    without its leading zeros and a [datetime] field does not read the
    text. *)
Theorem parse_datetime_is_datetime :
  (forall v, is_str v = false -> parse_datetime v = None)
  /\ (forall s, strip s = "" -> parse_datetime (VStr s) = None)
  /\ (forall v r, parse_datetime v = Some r ->
        exists dt,
          valid_datetime dt = true /\ r = strftime dt "%Y-%m-%d %H:%M:%S"
          /\ ((1000 <= year dt)%Z ->
              r = datetime_isoformat (to_second dt)
              /\ datetime_of_text r = Some (to_second dt))
          /\ ((year dt < 1000)%Z -> datetime_of_text r = None))
  /\ parse_datetime (VStr "0999-01-01 00:00:00") = Some "999-01-01 00:00:00"
  /\ parse_datetime (VStr "Printed on 9/27/2024 /  3:59:22PM")
     = Some "2024-09-27 15:59:22".
Proof.
  split; [|split; [|split]].
  - intros v Hv. unfold parse_datetime. rewrite Hv. cbn [negb].
    now rewrite orb_true_r.
  - intros s Hs. rewrite parse_datetime_str, Hs. reflexivity.
  - intros v r H. apply parse_datetime_some in H.
    destruct H as (text & fmt & dt & Hs & ->).
    apply strptime_valid in Hs.
    exists dt. split; [exact Hs|]. split; [reflexivity|].
    rewrite (strftime_datetime_of_text dt Hs). split; intros Hy.
    + split; [now apply strftime_datetime_isoformat|].
      destruct (Z.leb_spec 1000 (year dt)); [reflexivity|lia].
    + destruct (Z.leb_spec 1000 (year dt)); [lia|reflexivity].
  - split; vm_compute; reflexivity.
Qed.

(** ** A row without a timestamp *)

Lemma get_creation_cell (l : layout) (r : row) :
  @_get_report_creation_datetime (processor l) r
  = Ok (match nth_error r (at_created (offsets_of l)) with
        | Some c => parse_datetime (VStr c)
        | None => None
        end).
Proof.
  destruct l;
    [ change (@_get_report_creation_datetime (processor Assy) r)
        with (cell_or_none parse_datetime r 30)
    | change (@_get_report_creation_datetime (processor Fabcut) r)
        with (cell_or_none parse_datetime r 25)
    | change (@_get_report_creation_datetime (processor Lp) r)
        with (cell_or_none parse_datetime r 28) ];
    apply cell_or_none_ok.
Qed.

(** No record is built without a creation timestamp. *)
Lemma map_row_needs_timestamp (l : layout) name t r rsd red dep data :
  @_map_row_to_data (processor l) name t r rsd red dep None <> Ok (Some data).
Proof.
  intros H. apply map_row_built in H. cbv zeta in H.
  destruct H as (wc & jn & pn & jq & bq & cd & pc & pd & mp & ph & H).
  do 11 destruct H as [_ H].
  destruct H as [_ _ _ _ _ _ _ _ _ _ _ _ _ _ _ _ _ (text & F & _)].
  discriminate F.
Qed.

(** X11.  The lookup of the creation timestamp returns [None] when the row ends
    before its cell or the cell does not parse; the record then lacks a
    required field.  Such a row, when it is not blank and its production
    date parses, is counted in [error_rows] and nothing is stored. *)
Theorem row_without_timestamp_is_error (l : layout) (name : string)
    (now : nat -> datetime) (rsd red dep : string) (n : nat) (r : row)
    (st : state) (c : string) :
  all_blank (blank_cells l r) = false ->
  nth_error r (at_prod_date (offsets_of l)) = Some c ->
  parse_date (VStr c) <> None ->
  match nth_error r (at_created (offsets_of l)) with
  | Some text => parse_datetime (VStr text) = None
  | None => True
  end ->
  @_get_report_creation_datetime (processor l) r = Ok None
  /\ @process_row (processor l) name now rsd red dep n r st
     = mkState (incr_error (incr_total (summary st))) (db st).
Proof.
  intros Hb Hc Hp Ht.
  assert (Hcr : @_get_report_creation_datetime (processor l) r = Ok None).
  { rewrite get_creation_cell.
    destruct (nth_error r (at_created (offsets_of l))); [now rewrite Ht|reflexivity]. }
  split; [exact Hcr|].
  unfold process_row. rewrite Hcr. cbn [bind].
  pose proof (map_row_cases l name (now n) r rsd red dep None) as H.
  cbv zeta in H. rewrite Hb, Hc in H.
  destruct (parse_date (VStr c)); [|now elim Hp].
  destruct H as [(data & H)|H].
  - now apply map_row_needs_timestamp in H.
  - rewrite H. reflexivity.
Qed.

Lemma row_without_timestamp_is_error_witness :
  let r := repeat "" 19
           ++ ["WC1"; "J100"; "P-7"; "10"; "5"; "A"; "30-Sep-24"; "01-Oct-24";
               "WC2"; "1.5"; "2"] in
  let st := @init (processor Assy) "assy.csv" Sample.started [] in
  @process_row (processor Assy) "assy.csv" Sample.clock
    "2024-09-27" "2024-09-30" "Assembly" 1 r st
  = mkState (incr_error (incr_total (summary st))) [].
Proof.
  intros r st.
  refine (proj2 (row_without_timestamp_is_error Assy "assy.csv" Sample.clock
                   "2024-09-27" "2024-09-30" "Assembly" 1 r st "30-Sep-24"
                   _ _ _ _)).
  - vm_compute. reflexivity.
  - reflexivity.
  - vm_compute. discriminate.
  - exact I.
Defined.

(** ** Dates in ISO form *)

Lemma is_digit_cases (c : ascii) :
  is_digit c = true ->
  In c ["0"; "1"; "2"; "3"; "4"; "5"; "6"; "7"; "8"; "9"]%char.
Proof.
  destruct c as [[] [] [] [] [] [] [] []]; intros H;
    try discriminate H; cbn; tauto.
Qed.

(** No pattern of [parse_date] reads a text that starts with three
    digits. *)
Lemma three_digits_no_date (c0 c1 c2 : ascii) (rest : list ascii) :
  is_digit c0 = true -> is_digit c1 = true -> is_digit c2 = true ->
  try_formats (str (c0 :: c1 :: c2 :: rest)) date_formats = None.
Proof.
  intros H0 H1 H2.
  apply is_digit_cases in H0, H1, H2. cbn [In] in H0, H1, H2.
  repeat match goal with
         | H : _ \/ _ |- _ => destruct H as [H|H]
         | H : False |- _ => destruct H
         end; subst; vm_compute; reflexivity.
Qed.

(** Nor one that starts with two digits, a dash and a digit, or with a
    digit, a dash and a digit. *)
Lemma two_digits_dash_no_date (c0 c1 m0 : ascii) (rest : list ascii) :
  is_digit c0 = true -> is_digit c1 = true -> is_digit m0 = true ->
  try_formats (str (c0 :: c1 :: "-"%char :: m0 :: rest)) date_formats = None.
Proof.
  intros H0 H1 H2.
  apply is_digit_cases in H0, H1, H2. cbn [In] in H0, H1, H2.
  repeat match goal with
         | H : _ \/ _ |- _ => destruct H as [H|H]
         | H : False |- _ => destruct H
         end; subst; vm_compute; reflexivity.
Qed.

Lemma digit_dash_no_date (c0 m0 : ascii) (rest : list ascii) :
  is_digit c0 = true -> is_digit m0 = true ->
  try_formats (str (c0 :: "-"%char :: m0 :: rest)) date_formats = None.
Proof.
  intros H0 H1.
  apply is_digit_cases in H0, H1. cbn [In] in H0, H1.
  repeat match goal with
         | H : _ \/ _ |- _ => destruct H as [H|H]
         | H : False |- _ => destruct H
         end; subst; vm_compute; reflexivity.
Qed.

Lemma digit_not_space (c : ascii) : is_digit c = true -> is_space c = false.
Proof.
  intros H. apply is_digit_cases in H. cbn [In] in H.
  repeat match goal with
         | H : _ \/ _ |- _ => destruct H as [H|H]
         | H : False |- _ => destruct H
         end; subst; reflexivity.
Qed.

Lemma decimal_width (y : Z) :
  exists w, (1 <= w <= 4)%nat /\ decimal y = zpad w y.
Proof.
  unfold decimal.
  destruct (y <? 10)%Z; [exists 1%nat; split; [lia|reflexivity]|].
  destruct (y <? 100)%Z; [exists 2%nat; split; [lia|reflexivity]|].
  destruct (y <? 1000)%Z; [exists 3%nat|exists 4%nat]; split; (lia || reflexivity).
Qed.

(** A text with no blank at either end is its own [strip]. *)
Lemma strip_digit_ends (a z : ascii) (mid : list ascii) :
  is_digit a = true -> is_digit z = true ->
  strip (str (a :: mid ++ [z])) = str (a :: mid ++ [z]).
Proof.
  intros Ha Hz. unfold strip. rewrite chars_str. cbn [lstrip_chars].
  rewrite (digit_not_space a Ha). cbn [rev]. rewrite rev_app_distr.
  cbn [rev app lstrip_chars]. rewrite (digit_not_space z Hz).
  cbn [rev]. rewrite rev_app_distr, rev_involutive. reflexivity.
Qed.

(** No pattern of [parse_date] reads a year of one to four digits, a dash,
    two digits, a dash and two digits. *)
Lemma written_not_read (w : nat) (y m d : Z) :
  (1 <= w <= 4)%nat ->
  parse_date
    (VStr (str (zpad w y ++ "-"%char :: zpad 2 m ++ "-"%char :: zpad 2 d)))
  = None.
Proof.
  intros Hw. rewrite parse_date_str.
  destruct (zpad_two m) as (m0 & m1 & -> & M0 & M1).
  destruct (zpad_two d) as (d0 & d1 & -> & D0 & D1).
  assert (E : (w = 1 \/ w = 2 \/ w = 3 \/ w = 4)%nat) by lia.
  destruct E as [-> | [-> | [-> | ->]]].
  - destruct (zpad_one y) as (a & -> & Ha).
    change ([a] ++ "-"%char :: [m0; m1] ++ "-"%char :: [d0; d1])
      with (a :: ["-"; m0; m1; "-"; d0]%char ++ [d1]).
    rewrite (strip_digit_ends a d1 _ Ha D1).
    change (truthy _) with true. cbv iota.
    now apply (digit_dash_no_date a m0).
  - destruct (zpad_two y) as (a & b & -> & Ha & Hb).
    change ([a; b] ++ "-"%char :: [m0; m1] ++ "-"%char :: [d0; d1])
      with (a :: [b; "-"; m0; m1; "-"; d0]%char ++ [d1]).
    rewrite (strip_digit_ends a d1 _ Ha D1).
    change (truthy _) with true. cbv iota.
    now apply (two_digits_dash_no_date a b m0).
  - destruct (zpad_three y) as (a & b & c & -> & Ha & Hb & Hc).
    change ([a; b; c] ++ "-"%char :: [m0; m1] ++ "-"%char :: [d0; d1])
      with (a :: [b; c; "-"; m0; m1; "-"; d0]%char ++ [d1]).
    rewrite (strip_digit_ends a d1 _ Ha D1).
    change (truthy _) with true. cbv iota.
    now apply (three_digits_no_date a b c).
  - destruct (zpad_four y) as (a & b & c & e & -> & Ha & Hb & Hc & He).
    change ([a; b; c; e] ++ "-"%char :: [m0; m1] ++ "-"%char :: [d0; d1])
      with (a :: [b; c; e; "-"; m0; m1; "-"; d0]%char ++ [d1]).
    rewrite (strip_digit_ends a d1 _ Ha D1).
    change (truthy _) with true. cbv iota.
    now apply (three_digits_no_date a b c).
Qed.

(** X12.  [parse_date] does not read the form it writes: the ISO text of a
    date matches none of its patterns, so that what [parse_date] returns it
    does not accept. *)
Theorem parse_date_rejects_iso_text :
  (forall d : date, parse_date (VStr (date_isoformat d)) = None)
  /\ (forall v text, parse_date v = Some text -> parse_date (VStr text) = None).
Proof.
  split.
  - intros d. unfold date_isoformat. apply written_not_read. lia.
  - intros v text Hv. destruct (parse_date_written v text Hv) as (dt & _ & ->).
    rewrite strftime_ymd.
    destruct (decimal_width (year dt)) as (w & Hw & ->).
    now apply written_not_read.
Qed.

(** ** The timestamp normalizer on its own results *)

(** The first way [r] matches at the start of [s]: with the groups [c],
    leaving [tl]. *)
Definition heads (r : regex) (s : list ascii) (c : captures) (tl : list ascii)
  : Prop :=
  exists rest, rmatch r s = (c, tl) :: rest.

Lemma heads_seq (a b : regex) s c tl c' tl' :
  heads a s c tl -> heads b tl c' tl' -> heads (RSeq a b) s (c ++ c') tl'.
Proof.
  intros [X HX] [Y HY]. unfold heads. cbn [rmatch]. rewrite HX.
  unfold seq_matches. cbn [flat_map snd fst]. rewrite HY.
  cbn [map fst snd app]. eauto.
Qed.

Lemma heads_group (g : string) (r : regex) p tl c :
  heads r (p ++ tl) c tl -> heads (RGroup g r) (p ++ tl) ((g, p) :: c) tl.
Proof.
  intros [X HX]. unfold heads. cbn [rmatch]. rewrite HX. cbn [map fst snd].
  rewrite length_app, Nat.add_sub, firstn_app, firstn_all, Nat.sub_diag.
  cbn [firstn]. rewrite app_nil_r. eauto.
Qed.

Lemma heads_char (p : ascii -> bool) x tl :
  p x = true -> heads (RChar p) (x :: tl) [] tl.
Proof. intros H. unfold heads. cbn [rmatch]. rewrite H. eauto. Qed.

Lemma heads_eps s : heads REps s [] s.
Proof. unfold heads. cbn [rmatch]. eauto. Qed.

Lemma heads_blank (s : list ascii) (x : ascii) :
  hd_error s = Some x -> is_space x = false ->
  heads (RRep (RChar is_space) 1 None) (" "%char :: s) [] s.
Proof.
  destruct s as [|y tl]; [discriminate|]. cbn [hd_error].
  intros E Hx. injection E as ->. unfold heads.
  cbn [rmatch List.length rep_matches pred].
  change (is_space " ") with true. cbv iota.
  unfold seq_matches at 1. cbn [flat_map snd fst].
  unfold seq_matches at 1. rewrite Hx. cbn [flat_map app map fst snd]. eauto.
Qed.

Lemma heads_re_match r s c tl : heads r s c tl -> re_match r s = Some (c, tl).
Proof. intros [X HX]. unfold re_match. now rewrite HX. Qed.

(** The pattern of a directive. *)
Definition dir (d : ascii) : regex :=
  match directive d with Some r => r | None => REps end.

Ltac two_digits :=
  apply (heads_group _ _ _ _ []); eexists; cbv; reflexivity.

Lemma heads_Y (v : Z) tl : heads (dir "Y") (zpad 4 v ++ tl) [("Y", zpad 4 v)] tl.
Proof.
  destruct (zpad_four v) as (a & b & c & d & E & Ha & Hb & Hc & Hd).
  apply (heads_group _ _ _ _ []). rewrite E.
  exists []. unfold dir. cbn -[is_digit].
  rewrite Ha. cbn -[is_digit]. rewrite Hb. cbn -[is_digit].
  rewrite Hc. cbn -[is_digit]. rewrite Hd. reflexivity.
Qed.

Lemma heads_S (v : Z) tl :
  (0 <= v <= 59)%Z -> heads (dir "S") (zpad 2 v ++ tl) [("S", zpad 2 v)] tl.
Proof.
  intros Hv.
  assert (H : forall k, (k < 60)%nat ->
                heads (dir "S") (zpad 2 (Z.of_nat k) ++ tl)
                  [("S", zpad 2 (Z.of_nat k))] tl).
  { intros k Hk. do 60 (destruct k as [|k]; [two_digits|]). lia. }
  rewrite <- (Z2Nat.id v) by lia. apply H. lia.
Qed.

Lemma heads_M (v : Z) tl :
  (0 <= v <= 59)%Z -> heads (dir "M") (zpad 2 v ++ tl) [("M", zpad 2 v)] tl.
Proof.
  intros Hv.
  assert (H : forall k, (k < 60)%nat ->
                heads (dir "M") (zpad 2 (Z.of_nat k) ++ tl)
                  [("M", zpad 2 (Z.of_nat k))] tl).
  { intros k Hk. do 60 (destruct k as [|k]; [two_digits|]). lia. }
  rewrite <- (Z2Nat.id v) by lia. apply H. lia.
Qed.

Lemma heads_H (v : Z) tl :
  (0 <= v <= 23)%Z -> heads (dir "H") (zpad 2 v ++ tl) [("H", zpad 2 v)] tl.
Proof.
  intros Hv.
  assert (H : forall k, (k < 24)%nat ->
                heads (dir "H") (zpad 2 (Z.of_nat k) ++ tl)
                  [("H", zpad 2 (Z.of_nat k))] tl).
  { intros k Hk. do 24 (destruct k as [|k]; [two_digits|]). lia. }
  rewrite <- (Z2Nat.id v) by lia. apply H. lia.
Qed.

Lemma heads_d (v : Z) tl :
  (1 <= v <= 31)%Z -> heads (dir "d") (zpad 2 v ++ tl) [("d", zpad 2 v)] tl.
Proof.
  intros Hv.
  assert (H : forall k, (0 < k < 32)%nat ->
                heads (dir "d") (zpad 2 (Z.of_nat k) ++ tl)
                  [("d", zpad 2 (Z.of_nat k))] tl).
  { intros k Hk. destruct k as [|k]; [lia|].
    do 31 (destruct k as [|k]; [two_digits|]). lia. }
  rewrite <- (Z2Nat.id v) by lia. apply H. lia.
Qed.

Lemma heads_m (v : Z) tl :
  (1 <= v <= 12)%Z -> heads (dir "m") (zpad 2 v ++ tl) [("m", zpad 2 v)] tl.
Proof.
  intros Hv.
  assert (H : forall k, (0 < k < 13)%nat ->
                heads (dir "m") (zpad 2 (Z.of_nat k) ++ tl)
                  [("m", zpad 2 (Z.of_nat k))] tl).
  { intros k Hk. destruct k as [|k]; [lia|].
    do 12 (destruct k as [|k]; [two_digits|]). lia. }
  rewrite <- (Z2Nat.id v) by lia. apply H. lia.
Qed.

Lemma format_ymdhms :
  format_regex false (chars "%Y-%m-%d %H:%M:%S")
  = Some (RSeq (dir "Y") (RSeq (rlit_ci "-") (RSeq (dir "m") (RSeq (rlit_ci "-")
           (RSeq (dir "d") (RSeq (RRep (RChar is_space) 1 None)
             (RSeq (dir "H") (RSeq (rlit_ci ":") (RSeq (dir "M")
               (RSeq (rlit_ci ":") (RSeq (dir "S") REps))))))))))).
Proof. reflexivity. Qed.

(** [strptime] reads the text [strftime] writes with the same format for a
    year of four digits, as the datetime written. *)
Lemma strptime_strftime (dt : datetime) :
  valid_datetime dt = true -> (1000 <= year dt)%Z ->
  strptime (strftime dt "%Y-%m-%d %H:%M:%S") "%Y-%m-%d %H:%M:%S"
  = Some (to_second dt).
Proof.
  intros Hv H4.
  pose proof (valid_datetime_bounds dt Hv) as (Hy & Hm & Hd & Hh & Hi & Hs).
  unfold strptime.
  rewrite format_ymdhms, strftime_ymdhms, chars_str, decimal_four by exact H4.
  destruct (zpad_two (hour dt)) as (h0 & h1 & Eh & Hh0 & _).
  erewrite heads_re_match.
  2:{ eapply heads_seq; [apply heads_Y|].
      eapply heads_seq; [apply heads_char; reflexivity|].
      eapply heads_seq; [apply heads_m; lia|].
      eapply heads_seq; [apply heads_char; reflexivity|].
      eapply heads_seq; [apply heads_d; lia|].
      eapply heads_seq;
        [apply (heads_blank _ h0);
         [rewrite Eh; reflexivity|now apply digit_not_space]|].
      eapply heads_seq; [apply heads_H; lia|].
      eapply heads_seq; [apply heads_char; reflexivity|].
      eapply heads_seq; [apply heads_M; lia|].
      eapply heads_seq; [apply heads_char; reflexivity|].
      eapply heads_seq; [|apply heads_eps].
      rewrite <- (app_nil_r (zpad 2 (second dt))). apply heads_S. lia. }
  cbn [app]. unfold fields, field_or.
  cbn [group String.eqb Ascii.eqb Bool.eqb].
  rewrite !int_of_zpad by (cbn; lia).
  fold (to_second dt). now rewrite (valid_to_second dt Hv).
Qed.

(** The year's pattern finds no match where fewer than four digits are
    written, so neither format that starts with [%Y] reads such a text. *)
Lemma no_year_short (w : nat) (y : Z) (tl : list ascii) :
  (1 <= w <= 3)%nat -> rmatch (dir "Y") (zpad w y ++ "-"%char :: tl) = [].
Proof.
  intros Hw.
  assert (E : (w = 1 \/ w = 2 \/ w = 3)%nat) by lia.
  unfold dir. cbn [directive Ascii.eqb Bool.eqb]. cbv iota. unfold rdigit.
  destruct E as [-> | [-> | ->]].
  - destruct (zpad_one y) as (a & -> & Ha).
    repeat (cbn -[is_digit]; rewrite ?Ha;
            change (is_digit "-"%char) with false).
    reflexivity.
  - destruct (zpad_two y) as (a & b & -> & Ha & Hb).
    repeat (cbn -[is_digit]; rewrite ?Ha, ?Hb;
            change (is_digit "-"%char) with false).
    reflexivity.
  - destruct (zpad_three y) as (a & b & c & -> & Ha & Hb & Hc).
    repeat (cbn -[is_digit]; rewrite ?Ha, ?Hb, ?Hc;
            change (is_digit "-"%char) with false).
    reflexivity.
Qed.

Lemma strptime_short_year (w : nat) (y : Z) (tl : list ascii) (fmt : string) :
  (1 <= w <= 3)%nat ->
  fmt = "%Y-%m-%d %H:%M:%S" \/ fmt = "%Y-%m-%dT%H:%M:%S.%f" ->
  strptime (str (zpad w y ++ "-"%char :: tl)) fmt = None.
Proof.
  intros Hw Hfmt.
  assert (Hr : exists k, format_regex false (chars fmt) = Some (RSeq (dir "Y") k))
    by (destruct Hfmt as [-> | ->]; eexists; reflexivity).
  destruct Hr as [k Hr]. unfold strptime. rewrite Hr, chars_str.
  unfold re_match. cbn [rmatch]. now rewrite no_year_short.
Qed.

Lemma digit_not_P (c : ascii) : is_digit c = true -> Ascii.eqb "P" c = false.
Proof.
  intros H. apply is_digit_cases in H. cbn [In] in H.
  repeat match goal with
         | H : _ \/ _ |- _ => destruct H as [H|H]
         | H : False |- _ => destruct H
         end; subst; reflexivity.
Qed.

Lemma digits_not_P (l : list ascii) :
  forallb is_digit l = true ->
  forallb (fun c => negb (Ascii.eqb "P" c)) l = true.
Proof.
  induction l as [|c l IH]; [reflexivity|].
  cbn [forallb]. rewrite andb_true_iff. intros [Hc Hl].
  now rewrite (digit_not_P c Hc), IH.
Qed.

(** The pattern of the printed form is found only where a [P] is. *)
Lemma printed_needs_P (l : list ascii) :
  forallb (fun c => negb (Ascii.eqb "P" c)) l = true ->
  re_search printed_on_pattern l = None.
Proof.
  induction l as [|c l IH]; [reflexivity|].
  cbn [forallb]. rewrite andb_true_iff, negb_true_iff. intros [Hc Hl].
  cbn [re_search].
  assert (E : rmatch printed_on_pattern (c :: l) = []).
  { unfold printed_on_pattern, rcat, rstr, rlit.
    cbn [fold_right chars list_ascii_of_string rmatch].
    rewrite Hc. reflexivity. }
  unfold re_match. rewrite E. now apply IH.
Qed.

(** A text that starts and ends with a digit is its own [strip]. *)
Lemma strip_ends (l : list ascii) (a z : ascii) :
  hd_error l = Some a -> hd_error (rev l) = Some z ->
  is_digit a = true -> is_digit z = true -> strip (str l) = str l.
Proof.
  intros Ha Hz Da Dz. unfold strip. rewrite chars_str.
  destruct l as [|a' l']; [discriminate Ha|]. injection Ha as ->.
  cbn [lstrip_chars]. rewrite (digit_not_space a Da).
  destruct (rev (a :: l')) as [|z' t] eqn:E; [discriminate Hz|].
  injection Hz as ->. cbn [lstrip_chars]. rewrite (digit_not_space z Dz).
  now rewrite <- E, rev_involutive.
Qed.

(** The text written for a datetime has no blank at either end and no
    printed form in it. *)
Lemma own_text_shape (dt : datetime) :
  let r := strftime dt "%Y-%m-%d %H:%M:%S" in
  strip r = r /\ truthy r = true
  /\ re_search printed_on_pattern (chars r) = None.
Proof.
  cbv zeta. rewrite strftime_ymdhms.
  destruct (decimal_width (year dt)) as (w & Hw & ->).
  split; [|split].
  - destruct (zpad w (year dt)) as [|a y'] eqn:Ey;
      [apply (f_equal (@List.length ascii)) in Ey; rewrite length_zpad in Ey;
       cbn in Ey; lia|].
    pose proof (zpad_digits w (year dt)) as Dy. rewrite Ey in Dy.
    cbn [forallb] in Dy. apply andb_true_iff in Dy. destruct Dy as [Da _].
    destruct (zpad_two (second dt)) as (s0 & s1 & Es & _ & S1).
    apply (strip_ends _ a s1); try assumption; [reflexivity|].
    rewrite Es. cbn [app rev].
    repeat (rewrite rev_app_distr; cbn [rev app]).
    reflexivity.
  - apply truthy_str_app.
  - rewrite chars_str. apply printed_needs_P.
    repeat (rewrite forallb_app; cbn [forallb]).
    rewrite !digits_not_P by apply zpad_digits. reflexivity.
Qed.

(** X13.  [parse_datetime] reads what it returns as itself exactly when the
    text is one a [datetime] field reads, that is, when the year written has
    four digits: then the second form it knows is the form it wrote.  A
    year below 1000 is written without its leading zeros, and no form of
    [parse_datetime] reads that text. *)
Theorem parse_datetime_on_its_result (v : value) (r : string) :
  parse_datetime v = Some r ->
  (datetime_of_text r <> None -> parse_datetime (VStr r) = Some r)
  /\ (datetime_of_text r = None -> parse_datetime (VStr r) = None).
Proof.
  intros H. apply parse_datetime_some in H.
  destruct H as (text & fmt & dt & Hs & ->).
  apply strptime_valid in Hs.
  destruct (own_text_shape dt) as (Hstrip & Htruthy & Hsearch).
  rewrite parse_datetime_str, Hstrip, Htruthy, Hsearch.
  rewrite (strftime_datetime_of_text dt Hs).
  unfold or_else, reformat.
  destruct (Z.leb_spec 1000 (year dt)) as [H4|H4].
  - split; [|discriminate]. intros _.
    now rewrite (strptime_strftime dt Hs H4).
  - split; [intros F; now elim F|]. intros _.
    rewrite strftime_ymdhms.
    destruct (decimal_short (year dt) H4) as (w & Hw & ->).
    rewrite !strptime_short_year by auto. reflexivity.
Qed.

Lemma parse_datetime_on_its_result_witness :
  (parse_datetime (VStr Sample.printed) = Some "2024-09-27 15:59:22"
   /\ parse_datetime (VStr "2024-09-27 15:59:22") = Some "2024-09-27 15:59:22")
  /\ (parse_datetime (VStr "0999-01-01 00:00:00") = Some "999-01-01 00:00:00"
      /\ parse_datetime (VStr "999-01-01 00:00:00") = None).
Proof.
  split; (split; [vm_compute; reflexivity|]).
  - apply (proj1 (parse_datetime_on_its_result (VStr Sample.printed)
                    "2024-09-27 15:59:22" ltac:(vm_compute; reflexivity))).
    vm_compute. discriminate.
  - apply (proj2 (parse_datetime_on_its_result (VStr "0999-01-01 00:00:00")
                    "999-01-01 00:00:00" ltac:(vm_compute; reflexivity))).
    vm_compute. reflexivity.
Defined.

(** ** What the existence check compares *)

(** Two records with the same twelve fields of the WHERE clause; the other
    eight ([comments], the four report fields, [file_name],
    [processing_status], [upload_date]) are free. *)
Definition same_job (a b : DispatchDataCreate.t) : Prop :=
  DispatchDataCreate.file_type a = DispatchDataCreate.file_type b
  /\ DispatchDataCreate.work_cell a = DispatchDataCreate.work_cell b
  /\ DispatchDataCreate.job_number a = DispatchDataCreate.job_number b
  /\ DispatchDataCreate.part_number a = DispatchDataCreate.part_number b
  /\ DispatchDataCreate.job_qty a = DispatchDataCreate.job_qty b
  /\ DispatchDataCreate.bal_qty a = DispatchDataCreate.bal_qty b
  /\ DispatchDataCreate.code a = DispatchDataCreate.code b
  /\ DispatchDataCreate.prod_date a = DispatchDataCreate.prod_date b
  /\ DispatchDataCreate.est_compl_date a = DispatchDataCreate.est_compl_date b
  /\ DispatchDataCreate.and_on a = DispatchDataCreate.and_on b
  /\ DispatchDataCreate.m_pc a = DispatchDataCreate.m_pc b
  /\ DispatchDataCreate.prod_hr a = DispatchDataCreate.prod_hr b.

Lemma same_job_key (a b : DispatchDataCreate.t) : same_job a b -> key a = key b.
Proof.
  destruct a, b. unfold same_job. cbn.
  intros (-> & -> & -> & -> & -> & -> & -> & -> & -> & -> & -> & ->).
  reflexivity.
Qed.

(** X14.  The existence check reads twelve fields of a record and no other: two
    records that agree on them are found, or not, in the same stores.  So
    once a record none of whose key columns is NULL is inserted, a record
    of the same job is found, whatever its comments, its report dates and
    department, its file name and its upload time. *)
Theorem row_exists_compares_job_fields (a b : DispatchDataCreate.t) (db : store) :
  same_job a b ->
  row_exists (DispatchDataCreate.model_dump a) db
  = row_exists (DispatchDataCreate.model_dump b) db
  /\ (forall db', keyed (stored a) = true -> _insert_data a db = Ok db' ->
                  row_exists (DispatchDataCreate.model_dump b) db' = true).
Proof.
  intros H. apply same_job_key in H. split.
  - now rewrite !row_exists_any, H.
  - intros db' Hk Hi. rewrite insert_data_cases in Hi.
    destruct (is_nan _ || is_nan _); [discriminate Hi|]. injection Hi as <-.
    rewrite row_exists_app, !row_exists_any, <- H. cbn [existsb].
    rewrite (stored_found a Hk). cbn. apply orb_true_r.
Qed.

Lemma row_exists_compares_job_fields_witness :
  let a :=
    DispatchDataCreate.mk ASSY "WC1" "J100" "P-7" None
      (float_of_decimal false 10 0) (float_of_decimal false 5 0) "A"
      (mkDate 2024 9 30) (Some (mkDate 2024 10 1)) (Some "WC2")
      (Some (float_of_decimal false 15 (-1))) (Some (float_of_decimal false 2 0))
      (mkDate 2024 9 27) (mkDate 2024 9 30) "Assembly" Sample.started
      "assy.csv" SUCCESS Sample.started in
  let b :=
    DispatchDataCreate.mk ASSY "WC1" "J100" "P-7" (Some "later report")
      (float_of_decimal false 10 0) (float_of_decimal false 5 0) "A"
      (mkDate 2024 9 30) (Some (mkDate 2024 10 1)) (Some "WC2")
      (Some (float_of_decimal false 15 (-1))) (Some (float_of_decimal false 2 0))
      (mkDate 2024 10 4) (mkDate 2024 10 7) "Packing" (Sample.clock 1)
      "assy_week2.csv" SUCCESS (Sample.clock 2) in
  row_exists (DispatchDataCreate.model_dump b) [] = false
  /\ row_exists (DispatchDataCreate.model_dump b) [stored a] = true.
Proof.
  intros a b. split; [reflexivity|].
  refine (proj2 (row_exists_compares_job_fields a b [] _) [stored a] _ _).
  - unfold same_job. repeat split; reflexivity.
  - vm_compute. reflexivity.
  - vm_compute. reflexivity.
Defined.

(** ** A processor run again *)

(** [s] continues [s0]: the same file name, file type and upload date, no
    counter lower, and [total_rows] grown by as much as the other four
    together. *)
Definition continues (s0 s : Summary.t) : Prop :=
  Summary.file_name s = Summary.file_name s0
  /\ Summary.file_type s = Summary.file_type s0
  /\ Summary.upload_date s = Summary.upload_date s0
  /\ (Summary.successful_rows s0 <= Summary.successful_rows s
      /\ Summary.duplicate_rows s0 <= Summary.duplicate_rows s
      /\ Summary.error_rows s0 <= Summary.error_rows s
      /\ Summary.skipped_rows s0 <= Summary.skipped_rows s
      /\ Summary.total_rows s - Summary.total_rows s0
         = (Summary.successful_rows s - Summary.successful_rows s0)
           + (Summary.duplicate_rows s - Summary.duplicate_rows s0)
           + (Summary.error_rows s - Summary.error_rows s0)
           + (Summary.skipped_rows s - Summary.skipped_rows s0))%Z.

Section Continues.

Context {P : FileProcessor}.
Variables (name : string) (now : nat -> datetime) (rsd red dep : string).

Lemma process_row_continues (s0 : Summary.t) (n : nat) (r : row) (st : state) :
  continues s0 (summary st) ->
  continues s0 (summary (process_row name now rsd red dep n r st)).
Proof.
  unfold continues. intros H.
  destruct (process_row_outcome name now rsd red dep n r st) as [E|[E|[E|E]]];
    cbv zeta in E; rewrite E; cbn; intuition lia.
Qed.

Lemma process_rows_continues (s0 : Summary.t) (rows : list row) :
  forall n st,
    continues s0 (summary st) ->
    continues s0 (summary (process_rows name now rsd red dep n rows st)).
Proof.
  induction rows as [|r rows IH]; intros n st H; cbn [process_rows];
    [exact H|].
  apply IH, process_row_continues, H.
Qed.

End Continues.

(** X15.  [process_file] does not reset the summary: a run on a processor
    that has run before returns the summary it had with the counts of this
    run added ([total_rows] grows by the number of data rows of the file),
    under the same file name, file type and upload date. *)
Theorem summary_accumulates {P : FileProcessor} (name : string)
    (now : nat -> datetime) (file : list row) (st : state) (s : Summary.t)
    (st' : state) :
  process_file name now file st = (Ok s, st') ->
  continues (summary st) s
  /\ Summary.total_rows s
     = (Summary.total_rows (summary st) + (Z.of_nat (List.length file) - 2))%Z.
Proof.
  unfold process_file.
  destruct (_extract_metadata file) as [meta|e]; cbn [bind]; [|discriminate].
  destruct (skip2 file) as [rows|e] eqn:Hskip; cbn [bind]; [|discriminate].
  intros H. injection H as <- <-.
  apply skip2_skipn in Hskip. destruct Hskip as [_ Hlen]. split.
  - apply process_rows_continues. unfold continues. intuition lia.
  - rewrite process_rows_total. lia.
Qed.

Lemma summary_accumulates_witness :
  let run1 := @process_file (processor Assy) "assy.csv" Sample.clock
                Sample.assy_file
                (@init (processor Assy) "assy.csv" Sample.started []) in
  let run2 := @process_file (processor Assy) "assy.csv" Sample.clock
                Sample.assy_file (snd run1) in
  Summary.total_rows (summary (snd run1)) = 2%Z
  /\ Summary.total_rows (summary (snd run2)) = 4%Z.
Proof.
  intros run1 run2. split; [vm_compute; reflexivity|].
  rewrite (proj2 (@summary_accumulates (processor Assy) "assy.csv" Sample.clock
                    Sample.assy_file (snd run1) (summary (snd run2)) (snd run2)
                    ltac:(vm_compute; reflexivity))).
  vm_compute. reflexivity.
Defined.

(** ** A row that lacks a cell or a quantity *)

(** A record is built only from a row that reaches the last column of its
    layout. *)
Lemma map_row_length (l : layout) name t r rsd red dep cr data :
  @_map_row_to_data (processor l) name t r rsd red dep cr = Ok (Some data) ->
  (at_prod_hr (offsets_of l) < List.length r)%nat.
Proof.
  intros H. apply map_row_built in H. cbv zeta in H.
  destruct H as (wc & jn & pn & jq & bq & cd & pc & pd & mp & ph
                 & _ & _ & _ & _ & _ & _ & _ & _ & _ & Hph & _).
  apply nth_error_Some. rewrite Hph. discriminate.
Qed.

(** A record is built only from a row whose two quantities read as
    numbers. *)
Lemma map_row_quantities (l : layout) name t r rsd red dep cr data :
  @_map_row_to_data (processor l) name t r rsd red dep cr = Ok (Some data) ->
  forall i c,
    i = at_job_qty (offsets_of l) \/ i = at_bal_qty (offsets_of l) ->
    nth_error r i = Some c -> _convert_to_float (VStr c) <> None.
Proof.
  intros H. apply map_row_built in H. cbv zeta in H.
  destruct H as (wc & jn & pn & jq & bq & cd & pc & pd & mp & ph
                 & _ & _ & _ & Hjq & Hbq & _ & _ & _ & _ & _ & _ & B).
  destruct B as [_ _ _ _ _ Bjq Bbq].
  intros i c [-> | ->] Hc; rewrite Hc in *.
  - injection Hjq as <-. now rewrite Bjq.
  - injection Hbq as <-. now rewrite Bbq.
Qed.

(** X16.  A row that is not blank and whose production date parses is
    counted in [error_rows], with nothing stored, when it ends before the
    last column of its layout (the mapping's [IndexError] becomes a
    [ValueError]) or when its [job_qty] or [bal_qty] cell does not read as a
    number ([_convert_to_float] gives [None] for a required field): such a
    row is neither skipped nor stored with a default. *)
Theorem incomplete_row_is_error (l : layout) (name : string)
    (now : nat -> datetime) (rsd red dep : string) (n : nat) (r : row)
    (st : state) (c : string) :
  let o := offsets_of l in
  all_blank (blank_cells l r) = false ->
  nth_error r (at_prod_date o) = Some c ->
  parse_date (VStr c) <> None ->
  (List.length r <= at_prod_hr o)%nat
  \/ (exists q, nth_error r (at_job_qty o) = Some q
                /\ _convert_to_float (VStr q) = None)
  \/ (exists q, nth_error r (at_bal_qty o) = Some q
                /\ _convert_to_float (VStr q) = None) ->
  @process_row (processor l) name now rsd red dep n r st
  = mkState (incr_error (incr_total (summary st))) (db st).
Proof.
  cbv zeta. intros Hb Hc Hp Hbad.
  unfold process_row.
  destruct (creation_ok l r) as [cr Hcr]. rewrite Hcr. cbn [bind].
  pose proof (map_row_cases l name (now n) r rsd red dep cr) as H.
  cbv zeta in H. rewrite Hb, Hc in H.
  destruct (parse_date (VStr c)); [|now elim Hp].
  destruct H as [(data & H)|H]; [exfalso|rewrite H; reflexivity].
  destruct Hbad as [Hlen|[(q & Hq & Hn)|(q & Hq & Hn)]].
  - apply map_row_length in H. lia.
  - exact (map_row_quantities _ _ _ _ _ _ _ _ _ H _ q (or_introl eq_refl) Hq Hn).
  - exact (map_row_quantities _ _ _ _ _ _ _ _ _ H _ q (or_intror eq_refl) Hq Hn).
Qed.

Lemma incomplete_row_is_error_witness :
  let r := repeat "" 19
           ++ ["WC1"; "J100"; "P-7"; ""; "5"; "A"; "30-Sep-24"; "01-Oct-24";
               "WC2"; "1.5"; "2"; Sample.printed] in
  let st := @init (processor Assy) "assy.csv" Sample.started [] in
  @process_row (processor Assy) "assy.csv" Sample.clock
    "2024-09-27" "2024-09-30" "Assembly" 1 r st
  = mkState (incr_error (incr_total (summary st))) [].
Proof.
  intros r st.
  refine (incomplete_row_is_error Assy "assy.csv" Sample.clock
            "2024-09-27" "2024-09-30" "Assembly" 1 r st "30-Sep-24" _ _ _ _).
  - vm_compute. reflexivity.
  - reflexivity.
  - vm_compute. discriminate.
  - right. left. exists "". split; reflexivity.
Defined.
